(** * steam.py: the HTTP client (src/steam/http.py)

    A shallow embedding of [HTTPClient]: the request loop with its
    500/502 back-off, the RSA login pipeline, the trade poller and the
    accept-trade path.  Coroutines are run to completion in a state and
    exception monad over an explicit [world]: the attributes of the
    client object together with a trace of every effect the code performs
    (requests sent, sleeps, dispatched events, created tasks, calls to the
    confirmation manager).  Everything outside the file (the remote
    server, the [json] and [rsa] libraries, the clock, the prompt, the
    modules [guard], [user] and [enums], the client facade) is a field of
    [Env]. *)

From Stdlib Require Import ZArith List String Ascii Bool Lia.
Import ListNotations.
Open Scope string_scope.
Open Scope list_scope.
Set Warnings "-register-all".

(** ** Python values *)

(** What [json.loads] produces (floats left out), which is also what the
    code stores in its request dictionaries.  A dict keeps its insertion
    order, as iteration over it depends on that. *)
Inductive pyval : Type :=
| PNone
| PBool (b : bool)
| PInt (z : Z)
| PStr (s : string)
| PList (l : list pyval)
| PDict (d : list (string * pyval)).

Fixpoint assoc {A : Type} (k : string) (d : list (string * A)) : option A :=
  match d with
  | [] => None
  | (k', v) :: d' => if String.eqb k k' then Some v else assoc k d'
  end.

(** [bool(v)] *)
Definition truthy (v : pyval) : bool :=
  match v with
  | PNone => false
  | PBool b => b
  | PInt z => negb (z =? 0)%Z
  | PStr s => negb (String.eqb s EmptyString)
  | PList l => match l with [] => false | _ => true end
  | PDict d => match d with [] => false | _ => true end
  end.

(** [a == b]: booleans compare as the integers 0 and 1, lists pointwise,
    dicts key by key whatever the order. *)
Fixpoint py_eqb (a b : pyval) {struct a} : bool :=
  match a, b with
  | PNone, PNone => true
  | PBool x, PBool y => Bool.eqb x y
  | PBool x, PInt y => ((if x then 1 else 0) =? y)%Z
  | PInt x, PBool y => (x =? (if y then 1 else 0))%Z
  | PInt x, PInt y => (x =? y)%Z
  | PStr x, PStr y => String.eqb x y
  | PList l1, PList l2 =>
      (fix go (l1 l2 : list pyval) {struct l1} : bool :=
         match l1, l2 with
         | [], [] => true
         | x :: l1', y :: l2' => py_eqb x y && go l1' l2'
         | _, _ => false
         end) l1 l2
  | PDict d1, PDict d2 =>
      (List.length d1 =? List.length d2)%nat &&
      (fix go (d : list (string * pyval)) : bool :=
         match d with
         | [] => true
         | (k, v) :: d' =>
             match assoc k d2 with
             | Some v' => py_eqb v v'
             | None => false
             end && go d'
         end) d1
  | _, _ => false
  end.

Definition chars (s : string) : list pyval :=
  map (fun c => PStr (String c EmptyString)) (list_ascii_of_string s).

(** ** Exceptions *)

Record reply : Type := mkReply {
  status : Z;
  content_type : option string;   (* response.headers['content-type'] *)
  text : string                   (* await response.text(encoding='utf-8') *)
}.

(** The exception classes the file raises or catches.  The [errors] module
    is not part of the sources read here: its classes are taken as plain
    [Exception] subclasses, none of them a [ValueError], a [KeyError] or an
    aiohttp error. *)
Inductive exn : Type :=
| InvalidCredentials (msg : pyval)
| TooManyRequests (msg : string)
| Forbidden (r : reply) (data : pyval)
| NotFound (r : reply) (data : pyval)
| HTTPException (r : reply) (data : pyval)
| HTTPExceptionOf (e : exn)                 (* errors.HTTPException(e) *)
| HTTPExceptionMsg (msg : string)
| LoginError (msg : string)
| LoginErrorOf (e : exn)                    (* errors.LoginError(e) *)
| ClientException (msg : string)
| SteamAuthenticatorError (msg : string)
| ValueError (msg : string)
| InvalidLiteral (literal : string)
    (* ValueError(f"invalid literal for int() with base 16: {literal!r}") *)
| JSONDecodeError                           (* a ValueError *)
| KeyError (k : pyval)
| IndexError
| TypeError
| AttributeError
| UnboundLocalError
| ClientOSError
| ServerDisconnectedError
| OtherError (name : string).

(** [isinstance(e, ValueError)] *)
Definition is_ValueError (e : exn) : bool :=
  match e with
  | ValueError _ | InvalidLiteral _ | JSONDecodeError => true
  | _ => false
  end.

Definition is_KeyError (e : exn) : bool :=
  match e with
  | KeyError _ => true
  | _ => false
  end.

(** [isinstance(e, (aiohttp.ClientOSError, aiohttp.ServerDisconnectedError))] *)
Definition is_disconnect (e : exn) : bool :=
  match e with
  | ClientOSError | ServerDisconnectedError => true
  | _ => false
  end.

Inductive result (A : Type) : Type :=
| Ok (a : A)
| Raise (e : exn)
| OutOfFuel.
Arguments Ok {A} a.
Arguments Raise {A} e.
Arguments OutOfFuel {A}.

(** ** Operations on values, as Python evaluates them *)

Definition nth_item {A : Type} (l : list A) (i : Z) : option A :=
  let n := Z.of_nat (List.length l) in
  let j := if (i <? 0)%Z then (i + n)%Z else i in
  if (j <? 0)%Z then None else nth_error l (Z.to_nat j).

Definition index_of (k : pyval) : option Z :=
  match k with
  | PInt i => Some i
  | PBool b => Some (if b then 1 else 0)%Z
  | _ => None
  end.

(** [c[k]] *)
Definition getitem (c k : pyval) : result pyval :=
  match c with
  | PDict d =>
      match k with
      | PStr s => match assoc s d with Some v => Ok v | None => Raise (KeyError k) end
      | PList _ | PDict _ => Raise TypeError          (* unhashable *)
      | _ => Raise (KeyError k)
      end
  | PList l =>
      match index_of k with
      | Some i => match nth_item l i with Some v => Ok v | None => Raise IndexError end
      | None => Raise TypeError
      end
  | PStr s =>
      match index_of k with
      | Some i => match nth_item (chars s) i with Some v => Ok v | None => Raise IndexError end
      | None => Raise TypeError                       (* string indices must be integers *)
      end
  | _ => Raise TypeError                              (* not subscriptable *)
  end.

(** [iter(v)], run to the end *)
Definition py_iter (v : pyval) : result (list pyval) :=
  match v with
  | PDict d => Ok (map (fun kv => PStr (fst kv)) d)
  | PList l => Ok l
  | PStr s => Ok (chars s)
  | _ => Raise TypeError
  end.

(** [d.get(k, default)] *)
Definition dict_get (d : pyval) (k : string) (default : pyval) : result pyval :=
  match d with
  | PDict l => Ok (match assoc k l with Some v => v | None => default end)
  | _ => Raise AttributeError
  end.

(** [k in d.keys()] *)
Definition in_keys (k : string) (d : pyval) : result bool :=
  match d with
  | PDict l => Ok (match assoc k l with Some _ => true | None => false end)
  | _ => Raise AttributeError
  end.

(** [needle in haystack] on strings *)
Fixpoint contains (needle haystack : string) : bool :=
  String.prefix needle haystack ||
  match haystack with
  | EmptyString => false
  | String _ rest => contains needle rest
  end.

(** ** The world: the client object and the trace of its effects *)

(** The keyword arguments of [ClientSession.request]. *)
Record http_request : Type := mkRequest {
  method : string;
  url : string;
  data : option pyval;
  params : option pyval;
  headers : option pyval
}.

Inductive event : Type :=
| ev_login
| ev_logout
| ev_trade_receive (trade : pyval).

(** The coroutines a task can run.  [_poll_trades] is the one poller the
    class defines; no statement of the file hands it to [create_task]. *)
Inductive task : Type :=
| poll_trades.

(** The attributes of [HTTPClient] the modelled methods read or write.
    [username], [password] and [api_key] exist only once [login] has
    assigned them; every modelled reader runs after that assignment. *)
Record client : Type := mkClient {
  username : string;
  password : string;
  api_key : string;
  shared_secret : option string;
  identity_secret : option string;
  _one_time_code : option string;
  session_id : option string;
  _user : option pyval;
  _confirmation_manager : bool;     (* false: still None *)
  _logged_in : bool
}.

Record trace : Type := mkTrace {
  sent : list http_request;              (* every request handed to the session, oldest first *)
  slept : list Z;                   (* asyncio.sleep arguments, oldest first *)
  dispatched : list event;          (* self._client.dispatch, oldest first *)
  tasks : list task;                (* self._loop.create_task, oldest first *)
  lookups : list string;            (* get_trade_confirmation calls, oldest first *)
  confirms : nat;                   (* conf.confirm() calls *)
  prompts : nat;                    (* input() calls *)
  closed : bool                     (* self._session.close() was awaited *)
}.

Record world : Type := mkWorld {
  self : client;
  io : trace
}.

(** The attributes as the assignments of [__init__] leave them.
    [username], [password] and [api_key] are not among them: they do not
    exist before a login, and stand here as empty strings that no run
    reads.  The last statement of [__init__], which builds the table
    [_notifications] from methods the class does not define
    ([self._parse_comment] and its like), is not modelled; no modelled
    method reads the table. *)
Definition attributes_before_login : client :=
  {| username := EmptyString; password := EmptyString; api_key := EmptyString;
     shared_secret := None; identity_secret := None; _one_time_code := None;
     session_id := None; _user := None; _confirmation_manager := false;
     _logged_in := false |}.

Definition no_trace : trace :=
  {| sent := []; slept := []; dispatched := []; tasks := []; lookups := [];
     confirms := 0; prompts := 0; closed := false |}.

Definition with_self (f : client -> client) (w : world) : world :=
  {| self := f (self w); io := io w |}.

Definition with_io (f : trace -> trace) (w : world) : world :=
  {| self := self w; io := f (io w) |}.

Definition set_credentials (u p k : string) (ss ids : option string) (c : client) : client :=
  {| username := u; password := p; api_key := k; shared_secret := ss;
     identity_secret := ids; _one_time_code := _one_time_code c;
     session_id := session_id c; _user := _user c;
     _confirmation_manager := _confirmation_manager c; _logged_in := _logged_in c |}.

Definition set_one_time_code (v : option string) (c : client) : client :=
  {| username := username c; password := password c; api_key := api_key c;
     shared_secret := shared_secret c; identity_secret := identity_secret c;
     _one_time_code := v; session_id := session_id c; _user := _user c;
     _confirmation_manager := _confirmation_manager c; _logged_in := _logged_in c |}.

Definition set_session_id (v : option string) (c : client) : client :=
  {| username := username c; password := password c; api_key := api_key c;
     shared_secret := shared_secret c; identity_secret := identity_secret c;
     _one_time_code := _one_time_code c; session_id := v; _user := _user c;
     _confirmation_manager := _confirmation_manager c; _logged_in := _logged_in c |}.

Definition set_user (v : option pyval) (c : client) : client :=
  {| username := username c; password := password c; api_key := api_key c;
     shared_secret := shared_secret c; identity_secret := identity_secret c;
     _one_time_code := _one_time_code c; session_id := session_id c; _user := v;
     _confirmation_manager := _confirmation_manager c; _logged_in := _logged_in c |}.

Definition set_confirmation_manager (v : bool) (c : client) : client :=
  {| username := username c; password := password c; api_key := api_key c;
     shared_secret := shared_secret c; identity_secret := identity_secret c;
     _one_time_code := _one_time_code c; session_id := session_id c; _user := _user c;
     _confirmation_manager := v; _logged_in := _logged_in c |}.

Definition set_logged_in (v : bool) (c : client) : client :=
  {| username := username c; password := password c; api_key := api_key c;
     shared_secret := shared_secret c; identity_secret := identity_secret c;
     _one_time_code := _one_time_code c; session_id := session_id c; _user := _user c;
     _confirmation_manager := _confirmation_manager c; _logged_in := v |}.

Definition log_sent (rq : http_request) (t : trace) : trace :=
  {| sent := sent t ++ [rq]; slept := slept t; dispatched := dispatched t;
     tasks := tasks t; lookups := lookups t; confirms := confirms t;
     prompts := prompts t; closed := closed t |}.

Definition log_slept (d : Z) (t : trace) : trace :=
  {| sent := sent t; slept := slept t ++ [d]; dispatched := dispatched t;
     tasks := tasks t; lookups := lookups t; confirms := confirms t;
     prompts := prompts t; closed := closed t |}.

Definition log_dispatched (e : event) (t : trace) : trace :=
  {| sent := sent t; slept := slept t; dispatched := dispatched t ++ [e];
     tasks := tasks t; lookups := lookups t; confirms := confirms t;
     prompts := prompts t; closed := closed t |}.

Definition log_task (k : task) (t : trace) : trace :=
  {| sent := sent t; slept := slept t; dispatched := dispatched t;
     tasks := tasks t ++ [k]; lookups := lookups t; confirms := confirms t;
     prompts := prompts t; closed := closed t |}.

Definition log_lookup (trade_id : string) (t : trace) : trace :=
  {| sent := sent t; slept := slept t; dispatched := dispatched t;
     tasks := tasks t; lookups := lookups t ++ [trade_id]; confirms := confirms t;
     prompts := prompts t; closed := closed t |}.

Definition log_confirm (t : trace) : trace :=
  {| sent := sent t; slept := slept t; dispatched := dispatched t;
     tasks := tasks t; lookups := lookups t; confirms := S (confirms t);
     prompts := prompts t; closed := closed t |}.

Definition log_prompt (t : trace) : trace :=
  {| sent := sent t; slept := slept t; dispatched := dispatched t;
     tasks := tasks t; lookups := lookups t; confirms := confirms t;
     prompts := S (prompts t); closed := closed t |}.

Definition log_closed (t : trace) : trace :=
  {| sent := sent t; slept := slept t; dispatched := dispatched t;
     tasks := tasks t; lookups := lookups t; confirms := confirms t;
     prompts := prompts t; closed := true |}.

(** ** The monad of coroutines run to completion *)

Module Co.

Definition M (A : Type) : Type := world -> result A * world.

Definition ret {A : Type} (a : A) : M A := fun w => (Ok a, w).

Definition raise {A : Type} (e : exn) : M A := fun w => (Raise e, w).

Definition out_of_fuel {A : Type} : M A := fun w => (OutOfFuel, w).

Definition bind {A B : Type} (m : M A) (k : A -> M B) : M B :=
  fun w =>
    match m w with
    | (Ok a, w') => k a w'
    | (Raise e, w') => (Raise e, w')
    | (OutOfFuel, w') => (OutOfFuel, w')
    end.

(** [try: m except Exception as e: handler e] *)
Definition catch {A : Type} (m : M A) (handler : exn -> M A) : M A :=
  fun w =>
    match m w with
    | (Raise e, w') => handler e w'
    | other => other
    end.

(** A pure evaluation that may raise. *)
Definition lift {A : Type} (r : result A) : M A := fun w => (r, w).

Definition get : M world := fun w => (Ok w, w).

Definition modify (f : world -> world) : M unit := fun w => (Ok tt, f w).

End Co.

Import Co.

Declare Scope co_scope.
Delimit Scope co_scope with co.
Notation "x <- m ;; k" := (bind m (fun x => k))
  (at level 61, m at next level, right associativity) : co_scope.
Notation "m ;; k" := (bind m (fun _ => k))
  (at level 61, right associativity) : co_scope.
Open Scope co_scope.

(** ** The environment of the client *)

(** What the file imports or talks to.  Oracles that stand for something
    that changes from call to call take the number of earlier calls, so
    that a run is a function of the environment. *)
Record Env : Type := mkEnv {
  URL_COMMUNITY : string;                      (* enums.URL.COMMUNITY *)
  URL_API : string;                            (* enums.URL.API *)
  user_agent : string;                         (* self._user_agent *)
  server : nat -> http_request -> exn + reply;  (* the answer to the n-th request *)
  json_loads : string -> option pyval;         (* None: JSONDecodeError *)
  int16 : string -> option Z;                  (* int(s, 16); None: ValueError *)
  rsa_encrypt_b64 : nat -> string -> Z * Z -> exn + string;
                                               (* b64encode(rsa.encrypt(pw.encode('utf-8'), key)).decode() *)
  time_ms : nat -> Z;                          (* int(time() * 1000) *)
  generate_one_time_code : nat -> string -> exn + string;   (* guard.generate_one_time_code *)
  input : nat -> exn + string;                 (* the n-th line typed at the prompt *)
  _store_trade : pyval -> exn + pyval;         (* self._client._store_trade *)
  ClientUser : pyval -> exn + pyval;           (* user.ClientUser(state=..., data=...) *)
  get_trade_confirmation : nat -> string -> exn + nat;
                                               (* the n-th ConfirmationManager lookup; a handle *)
  confirm : nat -> nat -> exn + pyval          (* the n-th conf.confirm() *)
}.

Definition dquote : string := String (ascii_of_nat 34) EmptyString.
Definition newline : ascii := ascii_of_nat 10.

Fixpoint drop (n : nat) (s : string) : string :=
  match n, s with
  | S n', String _ rest => drop n' rest
  | _, _ => s
  end.

(** The lazy group and the closing quote and semicolon of the pattern. *)
Fixpoint until_close (s : string) : option string :=
  if String.prefix (dquote ++ ";") s then Some EmptyString
  else match s with
       | EmptyString => None
       | String c rest =>
           if Ascii.eqb c newline then None
           else option_map (String c) (until_close rest)
       end.

Definition sessionID_marker : string := "g_sessionID = " ++ dquote.

(** [re.search] for the pattern of [_assert_valid_credentials] (the
    marker, a lazy group of characters other than the newline, a quote and
    a semicolon): the group of the leftmost match. *)
Fixpoint search_sessionID (s : string) : option string :=
  match (if String.prefix sessionID_marker s
         then until_close (drop (String.length sessionID_marker) s)
         else None) with
  | Some g => Some g
  | None =>
      match s with
      | EmptyString => None
      | String _ rest => search_sessionID rest
      end
  end.

Definition is_dict (v : pyval) : bool :=
  match v with PDict _ => true | _ => false end.

Definition is_none (v : pyval) : bool :=
  match v with PNone => true | _ => false end.

Definition secret_set (s : option string) : bool :=
  match s with
  | Some x => negb (String.eqb x EmptyString)
  | None => false
  end.

Definition opt_str (s : option string) : pyval :=
  match s with Some x => PStr x | None => PNone end.

(** The control flow of a [for] body: fall through to the next item
    ([continue] included) or leave the function with [return]. *)
Inductive flow (S A : Type) : Type :=
| Next (s : S)
| Return (a : A).
Arguments Next {S A} s.
Arguments Return {S A} a.

(** [for x in xs: body] followed by [after]; [s] carries the variables the
    body assigns. *)
Fixpoint for_in {X S A : Type} (xs : list X) (s : S)
    (body : X -> S -> M (flow S A)) (after : S -> M A) : M A :=
  match xs with
  | [] => after s
  | x :: xs' =>
      f <- body x s ;;
      match f with
      | Next s' => for_in xs' s' body after
      | Return a => ret a
      end
  end.

(** [try: m / except ... : handler / else: els] *)
Definition try_else {A B : Type} (m : M A) (handler : exn -> M B) (els : A -> M B) : M B :=
  fun w =>
    match m w with
    | (Ok a, w') => els a w'
    | (Raise e, w') => handler e w'
    | (OutOfFuel, w') => (OutOfFuel, w')
    end.

Definition of_sum {A : Type} (x : exn + A) : M A :=
  match x with
  | inl e => raise e
  | inr a => ret a
  end.

Definition access_denied : string :=
  "Access is denied. Retrying will not help. Please verify your <pre>key=</pre> parameter".

Definition maximum_repetitions : nat := 5.

(** ** The methods of [HTTPClient] *)

Section HTTPClient.

Variable E : Env.

(** *** Effects *)

Definition tick (w : world) : nat := List.length (sent (io w)).

(** [self._session.request(...)] / [self._session.get(...)]: the request
    is recorded, the server answers or the transport raises. *)
Definition session_request (rq : http_request) : M reply :=
  fun w =>
    let w' := with_io (log_sent rq) w in
    match server E (tick w) rq with
    | inl e => (Raise e, w')
    | inr r => (Ok r, w')
    end.

Definition sleep (d : Z) : M unit := modify (with_io (log_slept d)).

Definition dispatch (ev : event) : M unit := modify (with_io (log_dispatched ev)).

Definition create_task (k : task) : M unit := modify (with_io (log_task k)).

Definition session_close : M unit := modify (with_io log_closed).

Definition now : M Z := fun w => (Ok (time_ms E (tick w)), w).

Definition prompt : M string :=
  fun w =>
    let w' := with_io log_prompt w in
    match input E (prompts (io w)) with
    | inl e => (Raise e, w')
    | inr s => (Ok s, w')
    end.

(** *** json_or_text *)

Definition json_or_text (response : reply) : result pyval :=
  match content_type response with
  | None => Raise (KeyError (PStr "content-type"))
  | Some ct =>
      if contains "application/json" ct then
        match json_loads E (text response) with
        | Some v => Ok v
        | None => Raise JSONDecodeError
        end
      else Ok (PStr (text response))
  end.

(** *** Route *)

Definition Route (api call version : string) : string :=
  URL_API E ++ "/" ++ api ++ "/" ++ call ++ "/" ++ version.

(** *** code *)

Definition code : M string :=
  w <- get ;;
  match shared_secret (self w) with
  | Some secret =>
      if negb (String.eqb secret EmptyString)
      then of_sum (generate_one_time_code E (tick w) secret)
      else prompt
  | None => prompt
  end.

(** *** request *)

(** One pass of the body of [for tries in range(5)]; the loop state is
    the pair [(r, data)] that the [raise] after the loop reads. *)
Definition request_body (rq : http_request) (tries : nat) (_ : option (reply * pyval))
    : M (flow (option (reply * pyval)) pyval) :=
  r <- session_request rq ;;
  data <- lift (json_or_text r) ;;
  if py_eqb data (PStr access_denied) then
    raise (InvalidCredentials (PStr "Invalid API key"))
  else if (status r <? 300)%Z && (status r >=? 200)%Z then
    ret (Return data)
  else if (status r =? 429)%Z then
    raise (TooManyRequests "We are being rate limited try again soon")
  else if (status r =? 500)%Z || (status r =? 502)%Z then
    sleep (1 + Z.of_nat tries * 2) ;;
    ret (Next (Some (r, data)))
  else if (status r =? 403)%Z then raise (Forbidden r data)
  else if (status r =? 404)%Z then raise (NotFound r data)
  else raise (HTTPException r data).

Definition request_exhausted (last : option (reply * pyval)) : M pyval :=
  match last with
  | Some (r, data) => raise (HTTPException r data)
  | None => raise UnboundLocalError
  end.

Definition request (rq : http_request) : M pyval :=
  for_in (seq 0 5) None (request_body rq) request_exhausted.

Definition POST (u : string) (d : pyval) : http_request :=
  {| method := "POST"; url := u; data := Some d; params := None; headers := None |}.

Definition GET (u : string) (p : option pyval) : http_request :=
  {| method := "GET"; url := u; data := None; params := p; headers := None |}.

(** *** _fetch_rsa_params *)

(** [int(v, 16)] *)
Definition int_16 (v : pyval) : result Z :=
  match v with
  | PStr s => match int16 E s with Some z => Ok z | None => Raise (InvalidLiteral s) end
  | _ => Raise TypeError
  end.

Definition result_bind {A B : Type} (r : result A) (k : A -> result B) : result B :=
  match r with
  | Ok a => k a
  | Raise e => Raise e
  | OutOfFuel => OutOfFuel
  end.

(** The body of the second [try] of [_fetch_rsa_params]. *)
Definition read_rsa_key (key_response : pyval) : result ((Z * Z) * pyval) :=
  result_bind (getitem key_response (PStr "publickey_mod")) (fun m =>
  result_bind (int_16 m) (fun rsa_mod =>
  result_bind (getitem key_response (PStr "publickey_exp")) (fun e =>
  result_bind (int_16 e) (fun rsa_exp =>
  result_bind (getitem key_response (PStr "timestamp")) (fun rsa_timestamp =>
  Ok ((rsa_mod, rsa_exp), rsa_timestamp)))))).

Definition getrsakey_request (user : string) (t : Z) : http_request :=
  POST (URL_COMMUNITY E ++ "/login/getrsakey/")
       (PDict [("username", PStr user); ("donotcache", PInt t)]).

(** The method calls itself with [current_repetitions + 1] while
    [current_repetitions < maximum_repetitions]; [budget] bounds the depth
    of that recursion. *)
Fixpoint fetch_rsa_params_from (budget current_repetitions : nat)
    : M ((Z * Z) * pyval) :=
  match budget with
  | O => out_of_fuel
  | S budget' =>
      w <- get ;;
      t <- now ;;
      key_response <-
        catch (request (getrsakey_request (username (self w)) t))
              (fun e => session_close ;; raise (LoginErrorOf e)) ;;
      catch (lift (read_rsa_key key_response))
            (fun e =>
               if is_KeyError e then
                 if (current_repetitions <? maximum_repetitions)%nat
                 then fetch_rsa_params_from budget' (S current_repetitions)
                 else raise (ValueError "Could not obtain rsa-key")
               else raise e)
  end.

Definition _fetch_rsa_params (current_repetitions : nat) : M ((Z * Z) * pyval) :=
  fetch_rsa_params_from (S (maximum_repetitions - current_repetitions))
                        current_repetitions.

(** *** _send_login and _send_login_request *)

Definition dologin_request (user : string) (encrypted_password : string)
    (twofactorcode : option string) (rsa_timestamp : pyval) (t : Z) : http_request :=
  POST (URL_COMMUNITY E ++ "/login/dologin/")
       (PDict [("username", PStr user);
               ("password", PStr encrypted_password);
               ("emailauth", PStr EmptyString);
               ("emailsteamid", PStr EmptyString);
               ("twofactorcode",
                 PStr (match twofactorcode with Some c => c | None => EmptyString end));
               ("captchagid", PStr "-1");
               ("captcha_text", PStr EmptyString);
               ("loginfriendlyname", PStr (user_agent E));
               ("rsatimestamp", rsa_timestamp);
               ("remember_login", PBool true);
               ("donotcache", PInt t)]).

(** [_send_login], with the call of [_send_login_request] it makes on a
    two-factor answer as the argument [restart]. *)
Definition _send_login_with (restart : M pyval)
    (rsa_timestamp : pyval) (encrypted_password : string) : M pyval :=
  w <- get ;;
  t <- now ;;
  catch
    (login_response <-
       request (dologin_request (username (self w)) encrypted_password
                                (_one_time_code (self w)) rsa_timestamp t) ;;
     twofactor <- lift (getitem login_response (PStr "requires_twofactor")) ;;
     if truthy twofactor then
       c <- code ;;
       modify (with_self (set_one_time_code (Some c))) ;;
       restart
     else ret login_response)
    (fun e => raise (HTTPExceptionOf e)).

(** [fuel] bounds the number of encode-and-submit cycles. *)
Fixpoint _send_login_request (fuel : nat) : M pyval :=
  match fuel with
  | O => out_of_fuel
  | S fuel' =>
      key <- _fetch_rsa_params 0 ;;
      w <- get ;;
      encrypted_password <-
        of_sum (rsa_encrypt_b64 E (tick w) (password (self w)) (fst key)) ;;
      _send_login_with (_send_login_request fuel') (snd key) encrypted_password
  end.

Definition _send_login (fuel : nat) (rsa_timestamp : pyval)
    (encrypted_password : string) : M pyval :=
  _send_login_with (_send_login_request fuel) rsa_timestamp encrypted_password.

(** *** _perform_redirects *)

(** A transfer URL that is not a string is refused by the session before
    anything is sent. *)
Definition redirect_body (parameters : pyval) (u : pyval) (_ : unit)
    : M (flow unit unit) :=
  match u with
  | PStr s => request (POST s parameters) ;; ret (Next tt)
  | _ => raise TypeError
  end.

Definition _perform_redirects (response_dict : pyval) : M unit :=
  parameters <- lift (dict_get response_dict "transfer_parameters" PNone) ;;
  if is_none parameters then
    raise (HTTPExceptionMsg
             ("Cannot perform redirects after login, no parameters fetched. "
              ++ "The Steam API likely is down, please try again later."))
  else
    urls <- lift (getitem response_dict (PStr "transfer_urls")) ;;
    items <- lift (py_iter urls) ;;
    for_in items tt (redirect_body parameters) (fun _ => ret tt).

(** *** _assert_valid_credentials *)

Definition _assert_valid_credentials (login_response : pyval) : M unit :=
  success <- lift (getitem login_response (PStr "success")) ;;
  if negb (truthy success) then
    session_close ;;
    message <- lift (getitem login_response (PStr "message")) ;;
    raise (InvalidCredentials message)
  else
    home <- session_request (GET (URL_COMMUNITY E ++ "/my/home/") None) ;;
    match search_sessionID (text home) with
    | Some sid => modify (with_self (set_session_id (Some sid)))
    | None => raise AttributeError        (* None has no attribute 'group' *)
    end.

(** *** fetch_profile *)

Definition fetch_profile (user_id64 : pyval) : M pyval :=
  w <- get ;;
  full_resp <-
    request (GET (Route "ISteamUser" "GetPlayerSummaries" "v2")
                 (Some (PDict [("key", PStr (api_key (self w)));
                               ("steamids", user_id64)]))) ;;
  response <- lift (getitem full_resp (PStr "response")) ;;
  players <- lift (getitem response (PStr "players")) ;;
  resp <- lift (getitem players (PInt 0)) ;;
  ret (if truthy resp then resp else PNone).

(** *** login *)

(** [self._poll_notifications()], the argument of [create_task] in the last
    statement of [login]: the class defines no attribute of that name, so
    that the lookup raises before a task is made. *)
Definition _poll_notifications : M task := raise AttributeError.

Definition login (fuel : nat) (user pass key : string)
    (shared identity : option string) : M unit :=
  modify (with_self (set_credentials user pass key shared identity)) ;;
  login_response <- _send_login_request fuel ;;
  captcha <- lift (in_keys "captcha_needed" login_response) ;;
  if captcha then
    raise (LoginError "A captcha code is required, please try again later")
  else
    _assert_valid_credentials login_response ;;
    _perform_redirects login_response ;;
    modify (with_self (set_logged_in true)) ;;
    dispatch ev_login ;;
    transfer_parameters <- lift (getitem login_response (PStr "transfer_parameters")) ;;
    steamid <- lift (getitem transfer_parameters (PStr "steamid")) ;;
    data <- fetch_profile steamid ;;
    u <- of_sum (ClientUser E data) ;;
    modify (with_self (set_user (Some u))) ;;
    modify (with_self (set_confirmation_manager true)) ;;
    coroutine <- _poll_notifications ;;
    create_task coroutine.

(** *** _get_trade_offers *)

Definition int_of_bool (b : bool) : pyval := PInt (if b then 1 else 0).

(** [fuel] bounds the depth of the calls the method makes to itself; the
    calls in the two handlers take the default arguments and their value
    is dropped, so that the method ends without a [return] there. *)
Fixpoint _get_trade_offers (fuel : nat) (active_only sent_ received : bool)
    : M pyval :=
  match fuel with
  | O => out_of_fuel
  | S fuel' =>
      w <- get ;;
      try_else
        (request (GET (Route "IEconService" "GetTradeOffers" "v1")
                      (Some (PDict [("key", PStr (api_key (self w)));
                                    ("active_only", int_of_bool active_only);
                                    ("get_sent_offers", int_of_bool sent_);
                                    ("get_received_offers", int_of_bool received)]))))
        (fun e =>
           if is_ValueError e then
             w1 <- get ;;
             login fuel' (username (self w1)) (password (self w1)) (api_key (self w1))
                   (shared_secret (self w1)) None ;;
             _get_trade_offers fuel' true false true ;;
             ret PNone
           else if is_disconnect e then
             _get_trade_offers fuel' true false true ;;
             ret PNone
           else raise e)
        (fun offers => lift (getitem offers (PStr "response")))
  end.

(** *** _poll_trades *)

(** The body of [for trades_cache, trade in zip(trades_cache, trades)]:
    the targets rebind [trades_cache] to a key of the old snapshot, and
    the body subscripts that key with itself. *)
Definition diff_body (trades : pyval) (pair : pyval * pyval) (_ : unit)
    : M (flow unit unit) :=
  let trades_cache := fst pair in
  let trade := snd pair in
  old <- lift (getitem trades_cache trades_cache) ;;
  new <- lift (getitem trades trade) ;;
  if negb (py_eqb old new) then
    lift (getitem trades trade) ;;                      (* the f-string of log.debug *)
    raw <- lift (getitem trades trade) ;;
    stored <- of_sum (_store_trade E raw) ;;
    dispatch (ev_trade_receive stored) ;;
    ret (Next tt)
  else ret (Next tt).

(** One pass of the body of [while 1]; the result is the value of
    [trades_cache] at the end of the pass. *)
Definition poll_trades_pass (fuel : nat) (trades_cache : pyval) : M pyval :=
  trades <- _get_trade_offers fuel true false true ;;
  cache' <-
    (if negb (py_eqb trades trades_cache) then
       olds <- lift (py_iter trades_cache) ;;
       news <- lift (py_iter trades) ;;
       for_in (combine olds news) tt (diff_body trades) (fun _ => ret tt) ;;
       ret trades
     else ret trades_cache) ;;
  sleep 5 ;;
  ret cache'.

Fixpoint poll_trades_loop (passes fuel : nat) (trades_cache : pyval) : M pyval :=
  match passes with
  | O => ret trades_cache
  | S n =>
      cache' <- poll_trades_pass fuel trades_cache ;;
      poll_trades_loop n fuel cache'
  end.

(** [_poll_trades], cut after [passes] passes of its endless loop. *)
Definition _poll_trades (passes fuel : nat) : M pyval :=
  trades_cache <- _get_trade_offers fuel true false true ;;
  sleep 5 ;;
  poll_trades_loop passes fuel trades_cache.

(** *** accept_user_trade *)

(** What [accept_user_trade] returns: the response of the accept call, or
    the confirmation that was confirmed. *)
Inductive accepted : Type :=
| accepted_resp (resp : pyval)
| accepted_conf (conf : nat).

Definition lookup_confirmation (trade_id : string) : M nat :=
  fun w =>
    if _confirmation_manager (self w) then
      let w' := with_io (log_lookup trade_id) w in
      match get_trade_confirmation E (List.length (lookups (io w))) trade_id with
      | inl e => (Raise e, w')
      | inr c => (Ok c, w')
      end
    else (Raise AttributeError, w).

Definition conf_confirm (conf : nat) : M pyval :=
  fun w =>
    let w' := with_io log_confirm w in
    match confirm E (confirms (io w)) conf with
    | inl e => (Raise e, w')
    | inr v => (Ok v, w')
    end.

(** The body of [for tries in range(3)]. *)
Definition confirm_body (trade_id : string) (tries : nat) (_ : unit)
    : M (flow unit accepted) :=
  conf <- catch (lookup_confirmation trade_id) (fun e => raise e) ;;
  resp <- conf_confirm conf ;;
  if is_dict resp then ret (Return (accepted_conf conf))
  else raise (SteamAuthenticatorError
                "Failed to except the trade, see the log for the response").

Definition accept_request (sid : option string) (user_id64 trade_id : string)
    : http_request :=
  {| method := "POST";
     url := URL_COMMUNITY E ++ "/tradeoffer/" ++ trade_id ++ "/accept";
     data := Some (PDict [("sessionid", opt_str sid);
                          ("tradeofferid", PStr trade_id);
                          ("serverid", PInt 1);
                          ("partner", PStr user_id64);
                          ("captcha", PStr EmptyString)]);
     params := None;
     headers := Some (PDict [("Referer",
                              PStr (URL_COMMUNITY E ++ "/tradeoffer/" ++ trade_id))]) |}.

(** The two ids are taken as the strings the f-strings format them to. *)
Definition accept_user_trade (user_id64 trade_id : string) : M accepted :=
  w <- get ;;
  resp <- request (accept_request (session_id (self w)) user_id64 trade_id) ;;
  needs <- lift (dict_get resp "needs_mobile_confirmation" (PBool false)) ;;
  if truthy needs then
    w1 <- get ;;
    if secret_set (identity_secret (self w1)) then
      sleep 2 ;;
      for_in (seq 0 3) tt (confirm_body trade_id)
             (fun _ => raise (ClientException "Couldn't find a matching confirmation"))
    else raise (ClientException "Accepting trades requires an identity_secret")
  else ret (accepted_resp resp).

End HTTPClient.

(** ** A scripted environment, to run the client on concrete traffic *)

Module Script.

Definition digit (n : nat) : string :=
  String (ascii_of_nat (48 + n)) EmptyString.

Fixpoint decimal_from (fuel n : nat) (acc : string) : string :=
  match fuel with
  | O => acc
  | S fuel' =>
      let acc' := (digit (n mod 10) ++ acc)%string in
      if (n / 10 =? 0)%nat then acc' else decimal_from fuel' (n / 10) acc'
  end.

Definition decimal (z : Z) : string :=
  let n := Z.to_nat (Z.abs z) in
  ((if (z <? 0)%Z then "-" else EmptyString) ++ decimal_from (S n) n EmptyString)%string.

Fixpoint join (sep : string) (l : list string) : string :=
  match l with
  | [] => EmptyString
  | [x] => x
  | x :: rest => (x ++ sep ++ join sep rest)%string
  end.

(** [json.dumps] on values whose strings need no escape. *)
Fixpoint dumps (v : pyval) : string :=
  match v with
  | PNone => "null"
  | PBool b => if b then "true" else "false"
  | PInt z => decimal z
  | PStr s => (dquote ++ s ++ dquote)%string
  | PList l => ("[" ++ join ", " (map dumps l) ++ "]")%string
  | PDict d =>
      ("{" ++ join ", "
                (map (fun kv => dquote ++ fst kv ++ dquote ++ ": " ++ dumps (snd kv)) d)
           ++ "}")%string
  end.

(** A decoder that knows the documents of [docs]. *)
Definition loads (docs : list pyval) (s : string) : option pyval :=
  find (fun v => String.eqb (dumps v) s) docs.

Definition hex_digit (c : ascii) : option Z :=
  let n := nat_of_ascii c in
  if (48 <=? n)%nat && (n <=? 57)%nat then Some (Z.of_nat (n - 48))
  else if (97 <=? n)%nat && (n <=? 102)%nat then Some (Z.of_nat (n - 87))
  else if (65 <=? n)%nat && (n <=? 70)%nat then Some (Z.of_nat (n - 55))
  else None.

Definition is_space (c : ascii) : bool :=
  let n := nat_of_ascii c in
  (n =? 32)%nat || ((9 <=? n)%nat && (n <=? 13)%nat).

Fixpoint lstrip (s : string) : string :=
  match s with
  | EmptyString => s
  | String c rest => if is_space c then lstrip rest else s
  end.

Fixpoint all_space (s : string) : bool :=
  match s with
  | EmptyString => true
  | String c rest => is_space c && all_space rest
  end.

(** The digits of a literal, up to its end: hexadecimal digits with single
    underscores between them, then blanks.  [after_digit] says that the
    character before was a digit. *)
Fixpoint hex_from (acc : Z) (after_digit : bool) (s : string) : option Z :=
  match s with
  | EmptyString => if after_digit then Some acc else None
  | String c rest =>
      match hex_digit c with
      | Some d => hex_from (acc * 16 + d) true rest
      | None =>
          if Ascii.eqb c "_" then
            match rest with
            | String c' _ =>
                match hex_digit c' with
                | Some _ => if after_digit then hex_from acc false rest else None
                | None => None
                end
            | EmptyString => None
            end
          else if after_digit && all_space s then Some acc
          else None
      end
  end.

(** The literal without its sign, and whether the sign was a minus. *)
Definition unsigned (s : string) : bool * string :=
  match s with
  | String c rest =>
      if Ascii.eqb c "+" then (false, rest)
      else if Ascii.eqb c "-" then (true, rest)
      else (false, s)
  | EmptyString => (false, s)
  end.

(** The literal without the prefix [0x] or [0X] and the one underscore
    that may follow it. *)
Definition unprefixed (s : string) : string :=
  match s with
  | String c (String x rest) =>
      if Ascii.eqb c "0" && (Ascii.eqb x "x" || Ascii.eqb x "X") then
        match rest with
        | String u rest' => if Ascii.eqb u "_" then rest' else rest
        | EmptyString => rest
        end
      else s
  | _ => s
  end.

(** [int(s, 16)] for a string of ASCII characters: blanks around the
    literal, a sign, the prefix [0x] and single underscores between the
    digits are read as [int] reads them.  [None] stands for [ValueError]. *)
Definition hex (s : string) : option Z :=
  let (minus, body) := unsigned (lstrip s) in
  match hex_from 0 false (unprefixed body) with
  | Some z => Some (if minus then (- z)%Z else z)
  | None => None
  end.

Definition json (v : pyval) (code : Z) : exn + reply :=
  inr {| status := code; content_type := Some "application/json; charset=utf-8";
         text := dumps v |}.

Definition html (body : string) (code : Z) : exn + reply :=
  inr {| status := code; content_type := Some "text/html; charset=UTF-8";
         text := body |}.

(** The server plays [answers] in order and then repeats [last]. *)
Definition play (answers : list (exn + reply)) (last : exn + reply)
    (n : nat) (_ : http_request) : exn + reply :=
  nth n answers last.

Definition env (docs : list pyval) (answers : list (exn + reply)) (last : exn + reply)
    (lookup : nat -> string -> exn + nat) (confirmed : nat -> nat -> exn + pyval) : Env :=
  {| URL_COMMUNITY := "https://steamcommunity.com";
     URL_API := "https://api.steampowered.com";
     user_agent := "steam.py bot";
     server := play answers last;
     json_loads := loads docs;
     int16 := hex;
     rsa_encrypt_b64 := fun n pw key => inr ("enc" ++ decimal (Z.of_nat n) ++ ":" ++ pw)%string;
     time_ms := fun n => (1000 * Z.of_nat n)%Z;
     generate_one_time_code := fun n secret => inr ("otp" ++ decimal (Z.of_nat n) ++ ":" ++ secret)%string;
     input := fun n => inr ("typed" ++ decimal (Z.of_nat n))%string;
     _store_trade := fun raw => inr raw;
     ClientUser := fun data => inr data;
     get_trade_confirmation := lookup;
     confirm := confirmed |}.

(** A client that has not logged in yet, before any traffic. *)
Definition start : world := {| self := attributes_before_login; io := no_trace |}.

End Script.

(** ** The other methods of [HTTPClient] *)

(** [str(v)] as an f-string formats it, for the values a dict can hold as
    keys. *)
Definition format_key (v : pyval) : option string :=
  match v with
  | PNone => Some "None"
  | PBool b => Some (if b then "True" else "False")
  | PInt z => Some (Script.decimal z)
  | PStr s => Some s
  | PList _ | PDict _ => None
  end.

Definition hashable (v : pyval) : bool :=
  match v with
  | PList _ | PDict _ => false
  | _ => true
  end.

(** [list(OrderedDict.fromkeys(keys))]: the keys without repetition, each
    at the place of its first occurrence; [seen] holds the keys kept so
    far. *)
Fixpoint fromkeys_from (seen keys : list pyval) : result (list pyval) :=
  match keys with
  | [] => Ok (rev seen)
  | k :: keys' =>
      if hashable k then
        if existsb (py_eqb k) seen then fromkeys_from seen keys'
        else fromkeys_from (k :: seen) keys'
      else Raise TypeError
  end.

Definition fromkeys (keys : list pyval) : result (list pyval) :=
  fromkeys_from [] keys.

(** [range(start, stop, step)] for a positive step. *)
Fixpoint range_from (fuel start stop step : nat) : list nat :=
  match fuel with
  | O => []
  | S fuel' =>
      if (start <? stop)%nat then start :: range_from fuel' (start + step) stop step
      else []
  end.

Definition range3 (start stop step : nat) : list nat :=
  range_from stop start stop step.

(** [l[i:j]] for [0 <= i <= j] *)
Definition slice {A : Type} (l : list A) (i j : nat) : list A :=
  firstn (j - i) (skipn i l).

(** The generator [chunk] of [fetch_profiles], run to the end. *)
Definition chunk {A : Type} (user_id64s : list A) : list (list A) :=
  map (fun i => slice user_id64s i (i + 100)) (range3 0 (List.length user_id64s) 100).

(** [sep.join(items)]: every item has to be a string. *)
Fixpoint str_join (sep : string) (items : list pyval) : result string :=
  match items with
  | [] => Ok EmptyString
  | PStr s :: rest =>
      match rest with
      | [] => Ok s
      | _ :: _ =>
          match str_join sep rest with
          | Ok t => Ok (s ++ sep ++ t)%string
          | other => other
          end
      end
  | _ :: _ => Raise TypeError
  end.

(** [[f(x) for x in xs]] for an [f] that may raise. *)
Fixpoint comprehension {A B : Type} (f : A -> result B) (xs : list A) : result (list B) :=
  match xs with
  | [] => Ok []
  | x :: xs' =>
      match f x with
      | Ok y =>
          match comprehension f xs' with
          | Ok ys => Ok (y :: ys)
          | Raise e => Raise e
          | OutOfFuel => OutOfFuel
          end
      | Raise e => Raise e
      | OutOfFuel => OutOfFuel
      end
  end.

Definition log_reopened (t : trace) : trace :=
  {| sent := sent t; slept := slept t; dispatched := dispatched t;
     tasks := tasks t; lookups := lookups t; confirms := confirms t;
     prompts := prompts t; closed := false |}.

Section Calls.

Variable E : Env.

(** The parts of the client facade and of [trade.Inventory] that
    [fetch_user_items] calls: [self._client.fetch_user] and the attribute
    [items] of a new [Inventory]. *)
Variable fetch_user : string -> exn + pyval.
Variable Inventory_items : pyval -> pyval -> exn + list pyval.

(** *** recreate and logout *)

Definition recreate : M unit :=
  w <- get ;;
  if closed (io w) then modify (with_io log_reopened) else ret tt.

(** The response of the logout page is not looked at. *)
Definition logout : M unit :=
  session_request E (GET (URL_COMMUNITY E ++ "/login/logout/") None) ;;
  session_close ;;
  modify (with_self (set_logged_in false)) ;;
  dispatch ev_logout.

(** *** fetch_profiles *)

Definition summaries_params (key steamids : string) : pyval :=
  PDict [("key", PStr key); ("steamids", PStr steamids)].

Definition summaries_request (params : pyval) : http_request :=
  GET (Route E "ISteamUser" "GetPlayerSummaries" "v2") (Some params).

(** The body of [for _ in sublist]: [params] is built anew at each item. *)
Definition params_body {S A : Type} (sublist : list pyval) (_ : pyval)
    (_ : option pyval) : M (flow (option pyval) (flow S A)) :=
  w <- get ;;
  steamids <- lift (str_join "," sublist) ;;
  ret (Next (Some (summaries_params (api_key (self w)) steamids))).

(** The body of [for sublist in chunked_user_ids]; the loop state is
    [to_ret] and the variable [params]. *)
Definition profiles_body (sublist : list pyval) (state : list pyval * option pyval)
    : M (flow (list pyval * option pyval) (list pyval)) :=
  for_in sublist (snd state) (params_body sublist)
    (fun params =>
       match params with
       | None => raise UnboundLocalError
       | Some p =>
           full_resp <- request E (summaries_request p) ;;
           response <- lift (getitem full_resp (PStr "response")) ;;
           players <- lift (getitem response (PStr "players")) ;;
           users <- lift (py_iter players) ;;
           ret (Next (fst state ++ users, Some p))
       end).

Definition fetch_profiles (user_id64s : list pyval) : M (list pyval) :=
  for_in (chunk user_id64s) ([], None) profiles_body (fun state => ret (fst state)).

(** *** The calls that post one form *)

Definition add_user (user_id64 : pyval) : M pyval :=
  w <- get ;;
  request E (POST (URL_COMMUNITY E ++ "/actions/AddFriendAjax")
                  (PDict [("sessionid", opt_str (session_id (self w)));
                          ("steamid", user_id64);
                          ("accept_invite", PInt 0)])).

Definition remove_user (user_id64 : pyval) : M pyval :=
  w <- get ;;
  request E (POST (URL_COMMUNITY E ++ "/actions/RemoveFriendAjax")
                  (PDict [("sessionid", opt_str (session_id (self w)));
                          ("steamid", user_id64)])).

Definition block_user (user_id64 : pyval) : M pyval :=
  w <- get ;;
  request E (POST (URL_COMMUNITY E ++ "/actions/BlockUserAjax")
                  (PDict [("sessionID", opt_str (session_id (self w)));
                          ("steamid", user_id64);
                          ("block", PInt 1)])).

Definition unblock_user (user_id64 : pyval) : M pyval :=
  w <- get ;;
  request E (POST (URL_COMMUNITY E ++ "/actions/BlockUserAjax")
                  (PDict [("sessionID", opt_str (session_id (self w)));
                          ("steamid", user_id64);
                          ("block", PInt 0)])).

Definition accept_user_invite (user_id64 : pyval) : M pyval :=
  w <- get ;;
  request E (POST (URL_COMMUNITY E ++ "/actions/AddFriendAjax")
                  (PDict [("sessionID", opt_str (session_id (self w)));
                          ("steamid", user_id64);
                          ("accept_invite", PInt 1)])).

Definition decline_user_invite (user_id64 : pyval) : M pyval :=
  w <- get ;;
  request E (POST (URL_COMMUNITY E ++ "/actions/IgnoreFriendInviteAjax")
                  (PDict [("sessionID", opt_str (session_id (self w)));
                          ("steamid", user_id64);
                          ("accept_invite", PInt 0)])).

(** The id is taken as the string the f-string formats it to. *)
Definition post_comment (user_id64 : string) (comment : pyval) : M pyval :=
  w <- get ;;
  request E (POST (URL_COMMUNITY E ++ "/comment/Profile/post/" ++ user_id64 ++ "/")
                  (PDict [("sessionid", opt_str (session_id (self w)));
                          ("comment", comment)])).

Definition decline_user_trade (trade_id : string) : M pyval :=
  w <- get ;;
  request E (POST (URL_COMMUNITY E ++ "/tradeoffer/" ++ trade_id ++ "/decline")
                  (PDict [("sessionid", opt_str (session_id (self w)))])).

Definition cancel_user_trade (trade_id : string) : M pyval :=
  w <- get ;;
  request E (POST (URL_COMMUNITY E ++ "/tradeoffer/" ++ trade_id ++ "/cancel")
                  (PDict [("sessionid", opt_str (session_id (self w)))])).

(** *** fetch_user_inventory, fetch_friends and fetch_trade *)

Definition inventory_request (user_id64 app_id context_id : string) : http_request :=
  GET (URL_COMMUNITY E ++ "/inventory/" ++ user_id64 ++ "/" ++ app_id ++ "/" ++ context_id
         ++ "?count=5000") None.

Definition fetch_user_inventory (user_id64 app_id context_id : string) : M pyval :=
  request E (inventory_request user_id64 app_id context_id).

Definition friends_request (key : string) (user_id64 : pyval) : http_request :=
  GET (Route E "ISteamUser" "GetFriendList" "v1")
      (Some (PDict [("key", PStr key); ("steamid", user_id64);
                    ("relationship", PStr "friend")])).

Definition fetch_friends (user_id64 : pyval) : M (list pyval) :=
  w <- get ;;
  friends <- request E (friends_request (api_key (self w)) user_id64) ;;
  friendslist <- lift (getitem friends (PStr "friendslist")) ;;
  entries <- lift (getitem friendslist (PStr "friends")) ;;
  items <- lift (py_iter entries) ;;
  ids <- lift (comprehension (fun friend => getitem friend (PStr "steamid")) items) ;;
  fetch_profiles ids.

Definition fetch_trade (trade_id : pyval) : M pyval :=
  w <- get ;;
  response <-
    request E (GET (Route E "IEconService" "GetTradeOffer" "v1")
                   (Some (PDict [("key", PStr (api_key (self w)));
                                 ("tradeofferid", trade_id)]))) ;;
  inner <- lift (getitem response (PStr "response")) ;;
  lift (getitem inner (PStr "offer")).

(** *** fetch_user_items *)

(** The pairs [(app_id, context_id)] the loop of [fetch_user_items] runs
    over: the two lists are stripped of repetitions one by one and then
    zipped. *)
Definition inventory_keys (assets : list pyval) : result (list (pyval * pyval)) :=
  result_bind (comprehension (fun item => getitem item (PStr "appid")) assets) (fun a =>
  result_bind (fromkeys a) (fun app_ids =>
  result_bind (comprehension (fun item => getitem item (PStr "contextid")) assets) (fun c =>
  result_bind (fromkeys c) (fun context_ids =>
  Ok (combine app_ids context_ids))))).

(** The body of [for app_id, context_id in zip(app_ids, context_ids)]; the
    loop state is [items]. *)
Definition items_body (user_id64 : string) (key : pyval * pyval) (items : list pyval)
    : M (flow (list pyval) (list pyval)) :=
  match format_key (fst key), format_key (snd key) with
  | Some app_id, Some context_id =>
      inv <- fetch_user_inventory user_id64 app_id context_id ;;
      owner <- of_sum (fetch_user user_id64) ;;
      found <- of_sum (Inventory_items inv owner) ;;
      ret (Next (items ++ found))
  | _, _ => raise TypeError
  end.

Definition fetch_user_items (user_id64 : string) (assets : list pyval) : M (list pyval) :=
  keys <- lift (inventory_keys assets) ;;
  for_in keys [] (items_body user_id64) (fun items => ret items).

End Calls.

(** ** Vocabulary of the statements *)

(** [m] moves every world to an [R]-related one, whatever its outcome. *)
Definition respects (R : world -> world -> Prop) {A : Type} (m : M A) : Prop :=
  forall w, R w (snd (m w)).

(** Only the traffic changed: requests were sent and the task slept, the
    client object and every other trace are as before. *)
Record traffic_only (w w' : world) : Prop := {
  same_self : self w' = self w;
  same_dispatched : dispatched (io w') = dispatched (io w);
  same_tasks : tasks (io w') = tasks (io w);
  same_lookups : lookups (io w') = lookups (io w);
  same_confirms : confirms (io w') = confirms (io w);
  same_prompts : prompts (io w') = prompts (io w);
  same_closed : closed (io w') = closed (io w)
}.

(** The list of requests only grows. *)
Definition sent_grows (w w' : world) : Prop :=
  exists l, sent (io w') = sent (io w) ++ l.

Definition quiet {A : Type} (m : M A) : Prop := respects traffic_only m.
Definition appending {A : Type} (m : M A) : Prop := respects sent_grows m.

(** The server answers the [n]-th request [rq] of the session with a
    success status and a body that decodes to [v]. *)
Definition answers (E : Env) (n : nat) (rq : http_request) (v : pyval) : Prop :=
  exists r, server E n rq = inr r /\
            (200 <= status r < 300)%Z /\
            json_or_text E r = Ok v /\
            py_eqb v (PStr access_denied) = false.

(** A 500 or 502 whose body decodes to something else than the
    access-denied text. *)
Definition retryable (E : Env) (r : reply) (d : pyval) : Prop :=
  (status r = 500 \/ status r = 502)%Z /\
  json_or_text E r = Ok d /\
  py_eqb d (PStr access_denied) = false.

(** The world after one attempt that was answered by a 500 or 502. *)
Definition retried (rq : http_request) (delay : Z) (w : world) : world :=
  with_io (log_slept delay) (with_io (log_sent rq) w).

Definition backoff (rq : http_request) (delays : list Z) (w : world) : world :=
  fold_left (fun w' d => retried rq d w') delays w.

(** The sleeps of the passes [a], ..., [a + k - 1] of the request loop. *)
Definition delays (a k : nat) : list Z :=
  map (fun tries => (1 + Z.of_nat tries * 2)%Z) (seq a k).

(** A decoded key response in which one of ['publickey_mod'],
    ['publickey_exp'], ['timestamp'] is missing, each field the code reads
    before the missing one being a base-16 string. *)
Definition lacks_field (E : Env) (v : pyval) : bool :=
  match v with
  | PDict d =>
      match assoc "publickey_mod" d with
      | None => true
      | Some (PStr m) =>
          match int16 E m, assoc "publickey_exp" d with
          | None, _ => false
          | Some _, None => true
          | Some _, Some (PStr e) =>
              match int16 E e, assoc "timestamp" d with
              | Some _, None => true
              | _, _ => false
              end
          | Some _, Some _ => false
          end
      | Some _ => false
      end
  | _ => false
  end.

(** The world after one more request for the RSA key. *)
Definition key_asked (E : Env) (w : world) : world :=
  with_io (log_sent (getrsakey_request E (username (self w)) (time_ms E (tick w)))) w.

(** The client object is as before. *)
Definition same_client (w w' : world) : Prop := self w' = self w.

(** No session was established in between: the client is logged in (or
    not) as before, no event was dispatched and no task created. *)
Record no_session_change (w w' : world) : Prop := {
  same_logged_in : _logged_in (self w') = _logged_in (self w);
  same_session_id : session_id (self w') = session_id (self w);
  no_event : dispatched (io w') = dispatched (io w);
  no_task : tasks (io w') = tasks (io w)
}.

(** The last request of the session was [rq], and the server's answer to
    it decoded to [v]. *)
Definition last_answer (E : Env) (w : world) (rq : http_request) (v : pyval) : Prop :=
  exists pre r,
    sent (io w) = pre ++ [rq] /\
    server E (List.length pre) rq = inr r /\
    json_or_text E r = Ok v.

(** The world after the transfer parameters were posted to each URL. *)
Definition redirected (parameters : pyval) (urls : list string) (w : world) : world :=
  fold_left (fun w' u =>
               with_io (log_sent (POST u parameters)) w')
            urls w.

(** [m] never stops for lack of fuel. *)
Definition total {A : Type} (m : M A) : Prop :=
  forall w, fst (m w) <> OutOfFuel.

(** The worlds a login passes through when every request it makes is
    answered at once. *)
Section LoginWorlds.

Variable E : Env.
Variables (user pass key : string) (shared identity : option string) (w : world).
Variables (encrypted_password : string) (rsa_timestamp : pyval).
Variables (sid : string) (parameters : pyval) (urls : list string) (steamid u : pyval).

Definition credentials_set : world :=
  with_self (set_credentials user pass key shared identity) w.

Definition key_requested : world :=
  with_io (log_sent (getrsakey_request E user (time_ms E (tick w)))) credentials_set.

Definition login_submitted : world :=
  with_io (log_sent (dologin_request E user encrypted_password (_one_time_code (self w))
                                     rsa_timestamp (time_ms E (1 + tick w))))
          key_requested.

Definition session_id_stored : world :=
  with_self (set_session_id (Some sid))
            (with_io (log_sent (GET (URL_COMMUNITY E ++ "/my/home/") None)) login_submitted).

Definition login_dispatched : world :=
  with_io (log_dispatched ev_login)
          (with_self (set_logged_in true) (redirected parameters urls session_id_stored)).

(** The world in which the last statement of [login] is reached. *)
Definition manager_created : world :=
  with_self (set_confirmation_manager true)
    (with_self (set_user (Some u))
       (with_io (log_sent (GET (Route E "ISteamUser" "GetPlayerSummaries" "v2")
                               (Some (PDict [("key", PStr key); ("steamids", steamid)]))))
                login_dispatched)).

End LoginWorlds.

(** The diff as the specification words it: the offer ids present in both
    snapshots whose values differ. *)
Definition spec_changed_ids (previous current : list (string * pyval)) : list string :=
  map fst
      (filter (fun kv => match assoc (fst kv) current with
                         | Some v' => negb (py_eqb (snd kv) v')
                         | None => false
                         end)
              previous).

(** ** More vocabulary *)

(** Nothing a login announces happened: the client is logged in (or not)
    as before, no event was dispatched and no task created. *)
Record no_login_effect (w w' : world) : Prop := {
  logged_in_kept : _logged_in (self w') = _logged_in (self w);
  dispatched_kept : dispatched (io w') = dispatched (io w);
  tasks_kept : tasks (io w') = tasks (io w)
}.

(** The events dispatched in between are ['login'] events. *)
Definition only_login_events (w w' : world) : Prop :=
  exists n, dispatched (io w') = dispatched (io w) ++ repeat ev_login n.

(** The identity secret is as before, or gone. *)
Definition identity_kept_or_dropped (w w' : world) : Prop :=
  identity_secret (self w') = identity_secret (self w)
  \/ identity_secret (self w') = None.

(** The identity secret is as before. *)
Definition same_identity (w w' : world) : Prop :=
  identity_secret (self w') = identity_secret (self w).

(** The character [c] does not occur in [s]. *)
Fixpoint lacks_char (c : ascii) (s : string) : bool :=
  match s with
  | EmptyString => true
  | String x rest => negb (Ascii.eqb x c) && lacks_char c rest
  end.


Definition is_str (v : pyval) : bool :=
  match v with PStr _ => true | _ => false end.

(** The request [logout] sends. *)
Definition logout_request (E : Env) : http_request :=
  GET (URL_COMMUNITY E ++ "/login/logout/") None.

(** One call of [request] was made and nothing else happened: between one
    and five requests were sent, and only the traffic changed. *)
Definition one_call (w w' : world) : Prop :=
  traffic_only w w' /\ tick w + 1 <= tick w' <= tick w + 5.

(** ** Concrete traffic *)

Module Runs.

Import Script.

Definition no_lookup (n : nat) (trade_id : string) : exn + nat :=
  inl (OtherError "ConfirmationError").

Definition no_confirm (n conf : nat) : exn + pyval :=
  inl (OtherError "ConfirmationError").

Definition probe : http_request := GET "https://api.steampowered.com/probe" None.

(** Every request is answered 200 with the access-denied page. *)
Definition denied_200 : Env :=
  env [] [] (html access_denied 200) no_lookup no_confirm.

(** Every request is answered 500 with the access-denied page. *)
Definition denied_500 : Env :=
  env [] [] (html access_denied 500) no_lookup no_confirm.

(** Every request is answered 502 by a gateway page. *)
Definition bad_gateway : Env :=
  env [] [] (html "<h1>502 Bad Gateway</h1>" 502) no_lookup no_confirm.

(** Every request is answered 200 with the JSON object [{}]. *)
Definition empty_object : Env :=
  env [PDict []] [] (json (PDict []) 200) no_lookup no_confirm.

Definition needs_confirmation : pyval :=
  PDict [("tradeofferid", PStr "123"); ("needs_mobile_confirmation", PBool true)].

(** The accept call is answered with a mobile-confirmation requirement;
    the confirmation is found, its first [confirm()] answers with a text and
    every later one with a JSON object. *)
Definition confirm_later : Env :=
  env [needs_confirmation] [] (json needs_confirmation 200)
      (fun _ _ => inr 7)
      (fun n _ => match n with
                  | O => inr (PStr "try again")
                  | S _ => inr (PDict [("success", PBool true)])
                  end).

(** A client whose credentials, identity secret and confirmation manager
    are set, before any traffic. *)
Definition with_identity_secret : world :=
  {| self := set_confirmation_manager true
               (set_credentials "bot" "hunter2" "KEY" (Some "c2hhcmVk") (Some "aWRlbnRpdHk=")
                                attributes_before_login);
     io := no_trace |}.

Definition offers (state : Z) : pyval :=
  PDict [("response", PDict [("123", PInt state)])].

(** Offer 123 is active (state 2) at the first fetch and accepted
    (state 3) from the second fetch on. *)
Definition offer_accepted : Env :=
  env [offers 2; offers 3] [json (offers 2) 200] (json (offers 3) 200) no_lookup no_confirm.

(** The connection drops at the first request; from the second request on
    the server answers with the offers. *)
Definition disconnected_once : Env :=
  env [offers 2] [inl ServerDisconnectedError] (json (offers 2) 200) no_lookup no_confirm.

Definition trade_offers_request (key : string) : http_request :=
  GET "https://api.steampowered.com/IEconService/GetTradeOffers/v1"
      (Some (PDict [("key", PStr key); ("active_only", PInt 1);
                    ("get_sent_offers", PInt 0); ("get_received_offers", PInt 1)])).

(** *** Logging in *)

Definition rsa_key (timestamp : string) : pyval :=
  PDict [("success", PBool true); ("publickey_mod", PStr "c5a3");
         ("publickey_exp", PStr "010001"); ("timestamp", PStr timestamp);
         ("token_gid", PStr "2f1a")].

Definition captcha_reply : pyval :=
  PDict [("success", PBool false); ("requires_twofactor", PBool false);
         ("message", PStr "Please verify your humanity by re-entering the characters below.");
         ("captcha_needed", PBool true); ("captcha_gid", PStr "4021")].

Definition twofactor_reply : pyval :=
  PDict [("success", PBool false); ("requires_twofactor", PBool true);
         ("message", PStr EmptyString)].

Definition transfer_parameters : pyval :=
  PDict [("steamid", PStr "76561198000000000"); ("token_secure", PStr "AB12");
         ("auth", PStr "9c0d"); ("remember_login", PBool true)].

Definition success_reply : pyval :=
  PDict [("success", PBool true); ("requires_twofactor", PBool false);
         ("login_complete", PBool true);
         ("transfer_urls", PList [PStr "https://store.steampowered.com/login/transfer";
                                  PStr "https://help.steampowered.com/login/transfer"]);
         ("transfer_parameters", transfer_parameters)].

Definition home_page : string :=
  "<script>g_steamID = 1; g_sessionID = " ++ dquote ++ "5f3e9a" ++ dquote ++ ";</script>".

Definition profile : pyval :=
  PDict [("steamid", PStr "76561198000000000"); ("personaname", PStr "bot")].

Definition summaries : pyval :=
  PDict [("response", PDict [("players", PList [profile])])].

Definition docs : list pyval :=
  [rsa_key "1000"; rsa_key "2000"; captcha_reply; twofactor_reply; success_reply; summaries].

(** The login is answered with a captcha requirement. *)
Definition captcha : Env :=
  env docs [json (rsa_key "1000") 200; json captcha_reply 200]
      (html "<h1>Not Found</h1>" 404) no_lookup no_confirm.

Definition captcha_twofactor_reply : pyval :=
  PDict [("success", PBool false); ("requires_twofactor", PBool true);
         ("message", PStr EmptyString);
         ("captcha_needed", PBool true); ("captcha_gid", PStr "4021")].

(** The first submission is answered with a captcha requirement and a
    two-factor requirement; the second one goes through. *)
Definition captcha_two_factor : Env :=
  env (captcha_twofactor_reply :: docs)
      [json (rsa_key "1000") 200; json captcha_twofactor_reply 200;
       json (rsa_key "2000") 200; json success_reply 200; html home_page 200;
       html "ok" 200; html "ok" 200; json summaries 200]
      (html "<h1>Not Found</h1>" 404) no_lookup no_confirm.

Definition captcha_bare_reply : pyval :=
  PDict [("success", PBool false);
         ("message", PStr "Please verify your humanity by re-entering the characters below.");
         ("captcha_needed", PBool true); ("captcha_gid", PStr "4021")].

(** The submission is answered with a captcha requirement that says
    nothing of a two-factor code. *)
Definition captcha_bare : Env :=
  env (captcha_bare_reply :: docs)
      [json (rsa_key "1000") 200; json captcha_bare_reply 200]
      (html "<h1>Not Found</h1>" 404) no_lookup no_confirm.

(** The login goes through at the first submission. *)
Definition plain_login : Env :=
  env docs
      [json (rsa_key "1000") 200; json success_reply 200; html home_page 200;
       html "ok" 200; html "ok" 200; json summaries 200]
      (html "<h1>Not Found</h1>" 404) no_lookup no_confirm.

(** The first submission is answered with a two-factor requirement, the
    second one, made with the key of timestamp 2000, goes through. *)
Definition two_factor : Env :=
  env docs
      [json (rsa_key "1000") 200; json twofactor_reply 200;
       json (rsa_key "2000") 200; json success_reply 200; html home_page 200;
       html "ok" 200; html "ok" 200; json summaries 200]
      (html "<h1>Not Found</h1>" 404) no_lookup no_confirm.

(** A client whose credentials are set, as the first statements of
    [login] set them, before any traffic. *)
Definition bot : world :=
  {| self := set_credentials "bot" "hunter2" "KEY" (Some "c2hhcmVk") None
                             attributes_before_login;
     io := no_trace |}.

(** The session is gone: the offers request is answered with a login page
    served as JSON, which does not decode; the login that follows goes
    through and the offers are served again. *)
Definition session_lost : Env :=
  env (offers 2 :: docs)
      [inr {| status := 200; content_type := Some "application/json; charset=utf-8";
              text := "<html>Sign In</html>" |};
       json (rsa_key "1000") 200; json success_reply 200; html home_page 200;
       html "ok" 200; html "ok" 200; json summaries 200]
      (json (offers 2) 200) no_lookup no_confirm.

(** The world of [two_factor] once the first key was fetched, and the
    first submission [_send_login] is then called for. *)
Definition key_fetched : world := snd (_fetch_rsa_params two_factor 0 bot).

Definition first_submission : http_request :=
  dologin_request two_factor "bot" "enc1:hunter2" None (PStr "1000") 1000.

Definition code_asked : world := snd (request two_factor first_submission key_fetched).

Definition second_key_fetched : world :=
  snd (_fetch_rsa_params two_factor 0
         (with_self (set_one_time_code (Some "otp2:c2hhcmVk")) code_asked)).

End Runs.

(** ** More concrete traffic *)

Module Traffic.

Import Script.

(** Two server errors, then the offers. *)
Definition flaky : Env :=
  env [Runs.offers 2]
      [html "<h1>500 Internal Server Error</h1>" 500; html "<h1>502 Bad Gateway</h1>" 502]
      (json (Runs.offers 2) 200) Runs.no_lookup Runs.no_confirm.

(** Every request is refused with status 403. *)
Definition forbidden : Env :=
  env [] [] (html "<h1>Forbidden</h1>" 403) Runs.no_lookup Runs.no_confirm.

(** Every request is answered 200 without a content type. *)
Definition untyped : Env :=
  env [] [] (inr {| status := 200; content_type := None; text := "ok" |})
      Runs.no_lookup Runs.no_confirm.

(** Two key responses without a key, then a key. *)
Definition key_at_third : Env :=
  env (PDict [("success", PBool false)] :: Runs.docs)
      [json (PDict [("success", PBool false)]) 200;
       json (PDict [("success", PBool false)]) 200]
      (json (Runs.rsa_key "1000") 200) Runs.no_lookup Runs.no_confirm.

Definition bad_modulus : pyval :=
  PDict [("success", PBool true); ("publickey_mod", PStr "xyz");
         ("publickey_exp", PStr "010001"); ("timestamp", PStr "1000")].

(** The key response carries a modulus that is no hexadecimal number. *)
Definition garbled_key : Env :=
  env [bad_modulus] [] (json bad_modulus 200) Runs.no_lookup Runs.no_confirm.

Definition rejected_reply : pyval :=
  PDict [("success", PBool false); ("requires_twofactor", PBool false);
         ("message", PStr "The account name or password that you have entered is incorrect.")].

(** The password is wrong. *)
Definition wrong_password : Env :=
  env (rejected_reply :: Runs.docs)
      [json (Runs.rsa_key "1000") 200; json rejected_reply 200]
      (html "<h1>Not Found</h1>" 404) Runs.no_lookup Runs.no_confirm.

Definition bare_success_reply : pyval :=
  PDict [("success", PBool true); ("requires_twofactor", PBool false);
         ("login_complete", PBool true)].

(** The login is accepted, but the answer carries no transfer parameters. *)
Definition no_transfer : Env :=
  env (bare_success_reply :: Runs.docs)
      [json (Runs.rsa_key "1000") 200; json bare_success_reply 200;
       html Runs.home_page 200]
      (html "<h1>Not Found</h1>" 404) Runs.no_lookup Runs.no_confirm.

(** The login goes through, but the profile request is refused. *)
Definition profile_refused : Env :=
  env Runs.docs
      [json (Runs.rsa_key "1000") 200; json Runs.success_reply 200;
       html Runs.home_page 200; html "ok" 200; html "ok" 200]
      (html "<h1>Forbidden</h1>" 403) Runs.no_lookup Runs.no_confirm.

(** The accept call asks for a mobile confirmation, which is found and
    confirmed. *)
Definition confirm_at_once : Env :=
  env [Runs.needs_confirmation] [] (json Runs.needs_confirmation 200)
      (fun _ _ => inr 7) (fun _ _ => inr (PDict [("success", PBool true)])).

(** Every request is answered with the summary of one player. *)
Definition profiles_served : Env :=
  env [Runs.summaries] [] (json Runs.summaries 200) Runs.no_lookup Runs.no_confirm.

Definition empty_friend_list : pyval :=
  PDict [("friendslist", PDict [("friends", PList [])])].

(** Every request is answered with an empty friend list. *)
Definition no_friends : Env :=
  env [empty_friend_list] [] (json empty_friend_list 200) Runs.no_lookup Runs.no_confirm.

Definition inventory : pyval :=
  PDict [("assets", PList [PDict [("assetid", PStr "1")]]); ("success", PInt 1)].

(** Every request is answered with an inventory of one asset. *)
Definition inventory_served : Env :=
  env [inventory] [] (json inventory 200) Runs.no_lookup Runs.no_confirm.

(** A user is its id, and the items of an inventory are its assets. *)
Definition user_of (user_id64 : string) : exn + pyval := inr (PStr user_id64).

Definition assets_of (inv owner : pyval) : exn + list pyval :=
  match getitem inv (PStr "assets") with
  | Ok (PList l) => inr l
  | _ => inl TypeError
  end.

(** Assets of two apps in the same context. *)
Definition two_apps : list pyval :=
  [PDict [("appid", PInt 440); ("contextid", PStr "2"); ("assetid", PStr "1")];
   PDict [("appid", PInt 730); ("contextid", PStr "2"); ("assetid", PStr "9")]].

Definition no_players : pyval :=
  PDict [("response", PDict [("players", PList [])])].

(** Every request is answered with an empty list of players. *)
Definition nobody : Env :=
  env [no_players] [] (json no_players 200) Runs.no_lookup Runs.no_confirm.

End Traffic.

(** ** Reasoning about runs *)

(** *** What a computation leaves untouched *)

Section Respect.

Variable R : world -> world -> Prop.
Hypothesis R_refl : forall w, R w w.
Hypothesis R_trans : forall a b c, R a b -> R b c -> R a c.

Lemma respects_ret {A : Type} (a : A) : respects R (ret a).
Proof. intro w. apply R_refl. Qed.

Lemma respects_raise {A : Type} (e : exn) : respects R (@raise A e).
Proof. intro w. apply R_refl. Qed.

Lemma respects_out_of_fuel {A : Type} : respects R (@out_of_fuel A).
Proof. intro w. apply R_refl. Qed.

Lemma respects_lift {A : Type} (r : result A) : respects R (lift r).
Proof. intro w. apply R_refl. Qed.

Lemma respects_get : respects R get.
Proof. intro w. apply R_refl. Qed.

Lemma respects_of_sum {A : Type} (x : exn + A) : respects R (of_sum x).
Proof. destruct x; intro w; apply R_refl. Qed.

Lemma respects_bind {A B : Type} (m : M A) (k : A -> M B) :
  respects R m -> (forall a, respects R (k a)) -> respects R (bind m k).
Proof.
  intros Hm Hk w. unfold bind.
  specialize (Hm w). destruct (m w) as [[a | e |] w1]; simpl in *; auto.
  apply R_trans with w1; auto. apply Hk.
Qed.

(** What follows [m] in a bind moves the world [m] left on. *)
Lemma respects_after_bind {A B : Type} (m : M A) (k : A -> M B) :
  (forall a, respects R (k a)) -> forall w, R (snd (m w)) (snd (bind m k w)).
Proof.
  intros Hk w. unfold bind.
  destruct (m w) as [[a | e |] w1]; simpl; auto. apply Hk.
Qed.

Lemma respects_catch {A : Type} (m : M A) (h : exn -> M A) :
  respects R m -> (forall e, respects R (h e)) -> respects R (catch m h).
Proof.
  intros Hm Hh w. unfold catch.
  specialize (Hm w). destruct (m w) as [[a | e |] w1]; simpl in *; auto.
  apply R_trans with w1; auto. apply Hh.
Qed.

Lemma respects_try_else {A B : Type} (m : M A) (h : exn -> M B) (els : A -> M B) :
  respects R m -> (forall e, respects R (h e)) -> (forall a, respects R (els a)) ->
  respects R (try_else m h els).
Proof.
  intros Hm Hh He w. unfold try_else.
  specialize (Hm w). destruct (m w) as [[a | e |] w1]; simpl in *; auto.
  - apply R_trans with w1; auto. apply He.
  - apply R_trans with w1; auto. apply Hh.
Qed.

Lemma respects_for_in {X S A : Type} (xs : list X) (body : X -> S -> M (flow S A))
    (after : S -> M A) :
  (forall x s, respects R (body x s)) -> (forall s, respects R (after s)) ->
  forall s, respects R (for_in xs s body after).
Proof.
  intros Hb Ha. induction xs as [| x xs IH]; intro s; simpl.
  - apply Ha.
  - apply respects_bind; [apply Hb |].
    intros [s' | a]; [apply IH | apply respects_ret].
Qed.

End Respect.

Lemma traffic_only_refl w : traffic_only w w.
Proof. split; reflexivity. Qed.

Lemma traffic_only_trans a b c : traffic_only a b -> traffic_only b c -> traffic_only a c.
Proof. intros [] []; split; congruence. Qed.

Lemma sent_grows_refl w : sent_grows w w.
Proof. exists []. now rewrite app_nil_r. Qed.

Lemma sent_grows_trans a b c : sent_grows a b -> sent_grows b c -> sent_grows a c.
Proof.
  intros [l1 H1] [l2 H2]. exists (l1 ++ l2). now rewrite H2, H1, app_assoc.
Qed.

(** Decompose a computation along its binds, handlers and loops. *)
Ltac frame_step R_refl R_trans :=
  first
    [ apply (respects_ret _ R_refl)
    | apply (respects_raise _ R_refl)
    | apply (respects_out_of_fuel _ R_refl)
    | apply (respects_lift _ R_refl)
    | apply (respects_get _ R_refl)
    | apply (respects_of_sum _ R_refl)
    | apply (respects_bind _ R_trans); [| intro]
    | apply (respects_catch _ R_trans); [| intro]
    | apply (respects_try_else _ R_trans); [| intro | intro]
    | apply (respects_for_in _ R_refl R_trans); [intros ? ? | intro]
    | match goal with
      | |- respects _ (if ?b then _ else _) => destruct b
      | |- respects _ (match ?x with _ => _ end) => destruct x
      end ].

Lemma for_in_unfold {X S A : Type} (x : X) (xs : list X) (s : S)
    (body : X -> S -> M (flow S A)) (after : S -> M A) :
  for_in (x :: xs) s body after =
  bind (body x s)
       (fun f => match f with
                 | Next s' => for_in xs s' body after
                 | Return a => ret a
                 end).
Proof. reflexivity. Qed.

Section Frames.

Variable E : Env.

Lemma session_request_quiet rq : quiet (session_request E rq).
Proof.
  intro w. unfold session_request.
  destruct (server E (tick w) rq); split; reflexivity.
Qed.

Lemma session_request_appending rq : appending (session_request E rq).
Proof.
  intro w. unfold session_request.
  destruct (server E (tick w) rq); exists [rq]; reflexivity.
Qed.

Lemma sleep_quiet d : quiet (sleep d).
Proof. intro w. split; reflexivity. Qed.

Lemma sleep_appending d : appending (sleep d).
Proof. intro w. exists []. simpl. now rewrite app_nil_r. Qed.

(** [request] only sends and sleeps. *)
Lemma request_quiet rq : quiet (request E rq).
Proof.
  unfold quiet, request.
  apply (respects_for_in _ traffic_only_refl traffic_only_trans).
  - intros tries last. unfold request_body.
    apply (respects_bind _ traffic_only_trans); [apply session_request_quiet | intro r].
    apply (respects_bind _ traffic_only_trans);
      [apply (respects_lift _ traffic_only_refl) | intro d].
    repeat first [ apply sleep_quiet
                 | frame_step traffic_only_refl traffic_only_trans ].
  - intros [[r d] |]; apply (respects_raise _ traffic_only_refl).
Qed.

Lemma request_appending rq : appending (request E rq).
Proof.
  unfold appending, request.
  apply (respects_for_in _ sent_grows_refl sent_grows_trans).
  - intros tries last. unfold request_body.
    apply (respects_bind _ sent_grows_trans); [apply session_request_appending | intro r].
    apply (respects_bind _ sent_grows_trans);
      [apply (respects_lift _ sent_grows_refl) | intro d].
    repeat first [ apply sleep_appending
                 | frame_step sent_grows_refl sent_grows_trans ].
  - intros [[r d] |]; apply (respects_raise _ sent_grows_refl).
Qed.

(** The first thing [request] does is to send [rq]. *)
Lemma request_sends_first rq w :
  exists more, sent (io (snd (request E rq w))) = sent (io w) ++ rq :: more.
Proof.
  assert (Hfirst : sent (io (snd (session_request E rq w))) = sent (io w) ++ [rq]).
  { unfold session_request. destruct (server E (tick w) rq); reflexivity. }
  assert (Hrest : sent_grows (snd (session_request E rq w)) (snd (request E rq w))).
  { unfold request. change (seq 0 5) with (0 :: seq 1 4).
    rewrite for_in_unfold. unfold request_body at 1.
    match goal with
    | |- sent_grows _ (snd (bind (bind ?m ?k2) ?k w)) =>
        apply sent_grows_trans with (snd (bind m k2 w));
          [ apply (respects_after_bind _ sent_grows_refl m k2)
          | apply (respects_after_bind _ sent_grows_refl (bind m k2) k) ]
    end.
    - intro r.
      apply (respects_bind _ sent_grows_trans);
        [apply (respects_lift _ sent_grows_refl) | intro d].
      repeat first [ apply sleep_appending
                   | frame_step sent_grows_refl sent_grows_trans ].
    - intros [s' | a]; [| apply (respects_ret _ sent_grows_refl)].
      apply (respects_for_in _ sent_grows_refl sent_grows_trans).
      + intros tries last. unfold request_body.
        apply (respects_bind _ sent_grows_trans); [apply session_request_appending | intro r'].
        apply (respects_bind _ sent_grows_trans);
          [apply (respects_lift _ sent_grows_refl) | intro d].
        repeat first [ apply sleep_appending
                     | frame_step sent_grows_refl sent_grows_trans ].
      + intros [[r' d] |]; apply (respects_raise _ sent_grows_refl). }
  destruct Hrest as [l Hl]. exists l. rewrite Hl, Hfirst, <- app_assoc. reflexivity.
Qed.

End Frames.

(** *** The request loop, pass by pass *)

Section RequestLoop.

Variable E : Env.

Lemma tick_log_sent rq w : tick (with_io (log_sent rq) w) = S (tick w).
Proof. unfold tick. simpl. rewrite length_app. simpl. lia. Qed.

Lemma tick_retried rq d w : tick (retried rq d w) = S (tick w).
Proof. unfold retried, tick. simpl. rewrite length_app. simpl. lia. Qed.

Lemma for_in_cons {X S A : Type} (x : X) (xs : list X) (s : S)
    (body : X -> S -> M (flow S A)) (after : S -> M A) (w : world) :
  for_in (x :: xs) s body after w =
  match body x s w with
  | (Ok (Next s'), w') => for_in xs s' body after w'
  | (Ok (Return a), w') => (Ok a, w')
  | (Raise e, w') => (Raise e, w')
  | (OutOfFuel, w') => (OutOfFuel, w')
  end.
Proof.
  simpl. unfold bind. destruct (body x s w) as [[[s' | a] | e |] w']; reflexivity.
Qed.

Lemma request_body_ok rq tries last w v :
  answers E (tick w) rq v ->
  request_body E rq tries last w = (Ok (Return v), with_io (log_sent rq) w).
Proof.
  intros (r & Hs & [Hlo Hhi] & Hj & Hd).
  unfold request_body, bind, session_request, lift. rewrite Hs, Hj, Hd.
  replace (status r <? 300)%Z with true by (symmetry; apply Z.ltb_lt; lia).
  replace (status r >=? 200)%Z with true by (symmetry; apply Z.geb_le; lia).
  reflexivity.
Qed.

Lemma request_body_retry rq tries last w r d :
  server E (tick w) rq = inr r -> retryable E r d ->
  request_body E rq tries last w =
  (Ok (Next (Some (r, d))), retried rq (1 + Z.of_nat tries * 2) w).
Proof.
  intros Hs (Hst & Hj & Hd).
  unfold request_body, bind, session_request, lift. rewrite Hs, Hj, Hd.
  destruct Hst as [-> | ->]; reflexivity.
Qed.

Lemma request_body_denied rq tries last w r :
  server E (tick w) rq = inr r ->
  json_or_text E r = Ok (PStr access_denied) ->
  request_body E rq tries last w =
  (Raise (InvalidCredentials (PStr "Invalid API key")), with_io (log_sent rq) w).
Proof.
  intros Hs Hj.
  unfold request_body, bind, session_request, lift. rewrite Hs, Hj.
  unfold py_eqb. rewrite String.eqb_refl. reflexivity.
Qed.

(** A request answered at once. *)
Lemma request_answered rq w v :
  answers E (tick w) rq v ->
  request E rq w = (Ok v, with_io (log_sent rq) w).
Proof.
  intro H. unfold request. simpl seq. rewrite for_in_cons.
  now rewrite (request_body_ok _ _ _ _ _ H).
Qed.

(** A run of [k] answers with status 500 or 502 takes the loop through
    [k] passes; [t0] is the number of requests sent before pass 0. *)
Lemma request_loop_retries rq (rs : nat -> reply) (ds : nat -> pyval) (t0 k : nat) :
  forall a n last w,
    tick w = t0 + a -> k <= n ->
    (forall j, a <= j < a + k ->
       server E (t0 + j) rq = inr (rs j) /\ retryable E (rs j) (ds j)) ->
    for_in (seq a n) last (request_body E rq) request_exhausted w =
    for_in (seq (a + k) (n - k))
           (match k with O => last | S k' => Some (rs (a + k'), ds (a + k')) end)
           (request_body E rq) request_exhausted
           (backoff rq (delays a k) w).
Proof.
  induction k as [| k IH]; intros a n last w Ht Hn H.
  - now rewrite Nat.add_0_r, Nat.sub_0_r.
  - destruct n as [| n]; [lia |]. cbn [seq]. rewrite for_in_cons.
    destruct (H a ltac:(lia)) as [Hs Hr]. rewrite <- Ht in Hs.
    rewrite (request_body_retry rq a last w _ _ Hs Hr).
    rewrite (IH (S a) n (Some (rs a, ds a)) (retried rq (1 + Z.of_nat a * 2) w)).
    + replace (S a + k) with (a + S k) by lia. cbn [Nat.sub].
      unfold delays. cbn [seq map backoff fold_left]. f_equal.
      destruct k as [| k']; [now rewrite Nat.add_0_r |].
      now replace (S a + k') with (a + S k') by lia.
    + rewrite tick_retried. lia.
    + lia.
    + intros j Hj. apply H. lia.
Qed.

End RequestLoop.

(** *** The login pipeline *)

Section Pipeline.

Variable E : Env.

Lemma same_client_refl w : same_client w w.
Proof. reflexivity. Qed.

Lemma same_client_trans a b c : same_client a b -> same_client b c -> same_client a c.
Proof. unfold same_client. congruence. Qed.

Lemma quiet_same_client {A : Type} (m : M A) : quiet m -> respects same_client m.
Proof. intros H w. apply (same_self _ _ (H w)). Qed.

Lemma now_respects R : (forall w, R w w) -> respects R (now E).
Proof. intros Hr w. apply Hr. Qed.

Lemma session_close_appending : appending session_close.
Proof. intro w. exists []. simpl. now rewrite app_nil_r. Qed.

Lemma session_close_same_client : respects same_client session_close.
Proof. intro w. reflexivity. Qed.

Lemma prompt_appending : appending (prompt E).
Proof.
  intro w. unfold prompt. exists [].
  destruct (input E (prompts (io w))); simpl; now rewrite app_nil_r.
Qed.

Lemma modify_self_appending f : appending (modify (with_self f)).
Proof. intro w. exists []. simpl. now rewrite app_nil_r. Qed.

Lemma code_appending : appending (code E).
Proof.
  unfold appending, code.
  repeat first [ apply prompt_appending
               | frame_step sent_grows_refl sent_grows_trans ].
Qed.

Lemma fetch_rsa_params_from_appending budget :
  forall c, appending (fetch_rsa_params_from E budget c).
Proof.
  unfold appending.
  induction budget as [| budget IH]; intro c; cbn [fetch_rsa_params_from].
  - apply (respects_out_of_fuel _ sent_grows_refl).
  - repeat first [ apply IH
                 | apply (now_respects _ sent_grows_refl)
                 | apply request_appending
                 | apply session_close_appending
                 | frame_step sent_grows_refl sent_grows_trans ].
Qed.

Lemma fetch_rsa_params_from_same_client budget :
  forall c, respects same_client (fetch_rsa_params_from E budget c).
Proof.
  induction budget as [| budget IH]; intro c; cbn [fetch_rsa_params_from].
  - apply (respects_out_of_fuel _ same_client_refl).
  - repeat first [ apply IH
                 | apply (now_respects _ same_client_refl)
                 | apply quiet_same_client, request_quiet
                 | apply session_close_same_client
                 | frame_step same_client_refl same_client_trans ].
Qed.

Lemma send_login_with_appending restart ts enc :
  appending restart -> appending (_send_login_with E restart ts enc).
Proof.
  intro Hr. unfold appending, _send_login_with.
  repeat first [ apply Hr
               | apply (now_respects _ sent_grows_refl)
               | apply request_appending
               | apply code_appending
               | apply modify_self_appending
               | frame_step sent_grows_refl sent_grows_trans ].
Qed.

Lemma send_login_request_appending fuel : appending (_send_login_request E fuel).
Proof.
  unfold appending.
  induction fuel as [| fuel IH]; cbn [_send_login_request].
  - apply (respects_out_of_fuel _ sent_grows_refl).
  - repeat first [ apply send_login_with_appending, IH
                 | apply fetch_rsa_params_from_appending
                 | frame_step sent_grows_refl sent_grows_trans ].
Qed.

Lemma no_session_change_refl w : no_session_change w w.
Proof. split; reflexivity. Qed.

Lemma no_session_change_trans a b c :
  no_session_change a b -> no_session_change b c -> no_session_change a c.
Proof. intros [] []; split; congruence. Qed.

Lemma quiet_no_session_change {A : Type} (m : M A) :
  quiet m -> respects no_session_change m.
Proof. intros H w. destruct (H w) as [Hs Hd Ht _ _ _ _]. split; congruence. Qed.

Lemma prompt_no_session_change : respects no_session_change (prompt E).
Proof.
  intro w. unfold prompt. destruct (input E (prompts (io w))); split; reflexivity.
Qed.

Lemma fetch_rsa_params_from_no_session_change budget :
  forall c, respects no_session_change (fetch_rsa_params_from E budget c).
Proof.
  induction budget as [| budget IH]; intro c; cbn [fetch_rsa_params_from].
  - apply (respects_out_of_fuel _ no_session_change_refl).
  - repeat first [ apply IH
                 | apply (now_respects _ no_session_change_refl)
                 | apply quiet_no_session_change, request_quiet
                 | (intro w; split; reflexivity)
                 | frame_step no_session_change_refl no_session_change_trans ].
Qed.

Lemma send_login_with_no_session_change restart ts enc :
  respects no_session_change restart ->
  respects no_session_change (_send_login_with E restart ts enc).
Proof.
  intro Hr. unfold _send_login_with, code.
  repeat first [ apply Hr
               | apply (now_respects _ no_session_change_refl)
               | apply quiet_no_session_change, request_quiet
               | apply prompt_no_session_change
               | (intro w; split; reflexivity)
               | frame_step no_session_change_refl no_session_change_trans ].
Qed.

(** Up to its answer, a login leaves the session as it was. *)
Lemma send_login_request_no_session_change fuel :
  respects no_session_change (_send_login_request E fuel).
Proof.
  induction fuel as [| fuel IH]; cbn [_send_login_request].
  - apply (respects_out_of_fuel _ no_session_change_refl).
  - repeat first [ apply send_login_with_no_session_change, IH
                 | apply fetch_rsa_params_from_no_session_change
                 | frame_step no_session_change_refl no_session_change_trans ].
Qed.

(** The first request of [_fetch_rsa_params] asks for the key. *)
Lemma fetch_rsa_params_sends_first c w :
  exists more,
    sent (io (snd (_fetch_rsa_params E c w))) =
    sent (io w) ++ getrsakey_request E (username (self w)) (time_ms E (tick w)) :: more.
Proof.
  unfold _fetch_rsa_params. cbn [fetch_rsa_params_from].
  unfold bind at 1, get. unfold bind at 1, now at 1.
  set (rq := getrsakey_request E (username (self w)) (time_ms E (tick w))).
  destruct (request_sends_first E rq w) as [l1 H1].
  match goal with
  | |- context [snd (bind (catch ?m ?h) ?k w)] =>
      assert (H2 : sent_grows (snd (m w)) (snd (bind (catch m h) k w)))
  end.
  { match goal with
    | |- sent_grows _ (snd (bind (catch ?m ?h) ?k w)) =>
        apply sent_grows_trans with (snd (catch m h w));
          [| apply (respects_after_bind _ sent_grows_refl (catch m h) k)]
    end.
    - unfold catch. destruct (request E rq w) as [[v | e |] w1]; cbn [snd];
        try apply sent_grows_refl.
      exists []. simpl. now rewrite app_nil_r.
    - intro key_response.
      repeat first [ apply fetch_rsa_params_from_appending
                   | frame_step sent_grows_refl sent_grows_trans ]. }
  destruct H2 as [l2 H2]. exists (l1 ++ l2).
  rewrite H2, H1, <- app_assoc. reflexivity.
Qed.

(** The first request of [_send_login] submits the login. *)
Lemma send_login_with_sends_first restart ts enc w :
  appending restart ->
  exists rest,
    sent (io (snd (_send_login_with E restart ts enc w))) =
    sent (io w) ++
    dologin_request E (username (self w)) enc (_one_time_code (self w)) ts
                    (time_ms E (tick w)) :: rest.
Proof.
  intro Hr. unfold _send_login_with. unfold bind at 1, get. unfold bind at 1, now at 1.
  set (rq := dologin_request E (username (self w)) enc (_one_time_code (self w)) ts
                             (time_ms E (tick w))).
  destruct (request_sends_first E rq w) as [l1 H1].
  match goal with
  | |- context [snd (catch (bind ?m ?k) ?h w)] =>
      assert (H2 : sent_grows (snd (m w)) (snd (catch (bind m k) h w)))
  end.
  { match goal with
    | |- sent_grows _ (snd (catch (bind ?m ?k) ?h w)) =>
        apply sent_grows_trans with (snd (bind m k w));
          [apply (respects_after_bind _ sent_grows_refl m k) |]
    end.
    - intro login_response.
      repeat first [ apply Hr
                   | apply code_appending
                   | apply modify_self_appending
                   | frame_step sent_grows_refl sent_grows_trans ].
    - unfold catch.
      match goal with
      | |- sent_grows (snd ?x) _ => destruct x as [[v | e |] w1]
      end; cbn [snd]; apply sent_grows_refl. }
  destruct H2 as [l2 H2]. exists (l1 ++ l2).
  rewrite H2, H1, <- app_assoc. reflexivity.
Qed.

End Pipeline.

(** *** What a returned response is the answer to *)

Section Answers.

Variable E : Env.

Lemma request_body_returns rq tries last w v w' :
  request_body E rq tries last w = (Ok (Return v), w') ->
  w' = with_io (log_sent rq) w /\
  exists r, server E (tick w) rq = inr r /\ json_or_text E r = Ok v.
Proof.
  unfold request_body, bind, session_request, lift, sleep, modify, raise, ret.
  destruct (server E (tick w) rq) as [e | r] eqn:Hs; [discriminate |].
  destruct (json_or_text E r) as [d | e |] eqn:Hj; [| discriminate | discriminate].
  destruct (py_eqb d (PStr access_denied)); [discriminate |].
  destruct ((status r <? 300)%Z && (status r >=? 200)%Z).
  - intro H. inversion H; subst. split; [reflexivity |].
    exists r. split; [reflexivity | assumption].
  - destruct (status r =? 429)%Z; [discriminate |].
    destruct ((status r =? 500)%Z || (status r =? 502)%Z); [discriminate |].
    destruct (status r =? 403)%Z; [discriminate |].
    destruct (status r =? 404)%Z; discriminate.
Qed.

Lemma request_loop_ok_last rq range : forall last w v w',
  for_in range last (request_body E rq) request_exhausted w = (Ok v, w') ->
  last_answer E w' rq v.
Proof.
  induction range as [| tries range IH]; intros last w v w' H.
  - destruct last as [[r d] |]; discriminate.
  - rewrite for_in_cons in H.
    destruct (request_body E rq tries last w) as [[[s' | a] | e |] w1] eqn:Hb;
      try discriminate.
    + eapply IH; eassumption.
    + inversion H; subst.
      destruct (request_body_returns _ _ _ _ _ _ Hb) as (-> & r & Hs & Hj).
      exists (sent (io w)), r. repeat split; assumption.
Qed.

(** A response that [request] returns is the answer to the last request
    sent. *)
Lemma request_ok_last rq w v w' :
  request E rq w = (Ok v, w') -> last_answer E w' rq v.
Proof. apply request_loop_ok_last. Qed.

(** A response that [_send_login] returns is the answer to the last
    request sent, a login submission, and asks for no two-factor code. *)
Lemma send_login_with_ok_last (restart : M pyval) ts enc w resp w' :
  (forall w0 v w1, restart w0 = (Ok v, w1) ->
     exists user enc' otc ts' t,
       last_answer E w1 (dologin_request E user enc' otc ts' t) v) ->
  _send_login_with E restart ts enc w = (Ok resp, w') ->
  exists user enc' otc ts' t,
    last_answer E w' (dologin_request E user enc' otc ts' t) resp.
Proof.
  intros Hrestart. unfold _send_login_with.
  unfold bind at 1, get. unfold bind at 1, now at 1. unfold catch.
  unfold bind at 1.
  destruct (request E _ w) as [[login_response | e |] w1] eqn:Hreq;
    [| discriminate | discriminate].
  unfold bind at 1, lift at 1.
  destruct (getitem login_response (PStr "requires_twofactor")) as [tf | e |];
    [| discriminate | discriminate].
  destruct (truthy tf).
  - unfold bind at 1.
    destruct (code E w1) as [[c | e |] w2]; [| discriminate | discriminate].
    unfold bind at 1, modify at 1.
    destruct (restart (with_self (set_one_time_code (Some c)) w2))
      as [[v | e |] w3] eqn:Hr; [| discriminate | discriminate].
    intro H. inversion H; subst. eapply Hrestart; eassumption.
  - unfold ret. intro H. inversion H; subst.
    do 5 eexists. eapply request_ok_last; eassumption.
Qed.

Lemma send_login_request_ok_last fuel : forall w resp w',
  _send_login_request E fuel w = (Ok resp, w') ->
  exists user enc otc ts t,
    last_answer E w' (dologin_request E user enc otc ts t) resp.
Proof.
  induction fuel as [| fuel IH]; intros w resp w'; cbn [_send_login_request].
  - discriminate.
  - unfold bind at 1.
    destruct (_fetch_rsa_params E 0 w) as [[key | e |] w1]; [| discriminate | discriminate].
    unfold bind at 1, get. unfold bind at 1.
    destruct (rsa_encrypt_b64 E (tick w1) (password (self w1)) (fst key)) as [e | enc];
      [discriminate |].
    cbn [of_sum ret]. apply send_login_with_ok_last. exact IH.
Qed.

End Answers.

(** *** Termination within the budget *)

Section Totality.

Variable E : Env.

Lemma total_ret {A : Type} (a : A) : total (ret a).
Proof. intro w. discriminate. Qed.

Lemma total_raise {A : Type} (e : exn) : total (@raise A e).
Proof. intro w. discriminate. Qed.

Lemma total_lift {A : Type} (r : result A) : r <> OutOfFuel -> total (lift r).
Proof. intros H w. exact H. Qed.

Lemma total_bind {A B : Type} (m : M A) (k : A -> M B) :
  total m -> (forall a, total (k a)) -> total (bind m k).
Proof.
  intros Hm Hk w. unfold bind. specialize (Hm w).
  destruct (m w) as [[a | e |] w1]; cbn [fst] in *;
    [apply Hk | discriminate | contradiction].
Qed.

Lemma total_catch {A : Type} (m : M A) (h : exn -> M A) :
  total m -> (forall e, total (h e)) -> total (catch m h).
Proof.
  intros Hm Hh w. unfold catch. specialize (Hm w).
  destruct (m w) as [[a | e |] w1]; cbn [fst] in *;
    [discriminate | apply Hh | contradiction].
Qed.

Lemma total_for_in {X S A : Type} (xs : list X) (body : X -> S -> M (flow S A))
    (after : S -> M A) :
  (forall x s, total (body x s)) -> (forall s, total (after s)) ->
  forall s, total (for_in xs s body after).
Proof.
  intros Hb Ha. induction xs as [| x xs IH]; intro s; cbn [for_in].
  - apply Ha.
  - apply total_bind; [apply Hb |]. intros [s' | a]; [apply IH | apply total_ret].
Qed.

Lemma session_request_total rq : total (session_request E rq).
Proof.
  intro w. unfold session_request. destruct (server E (tick w) rq); discriminate.
Qed.

Lemma json_or_text_total r : json_or_text E r <> OutOfFuel.
Proof.
  unfold json_or_text. destruct (content_type r) as [ct |]; [| discriminate].
  destruct (contains "application/json" ct); [| discriminate].
  destruct (json_loads E (text r)); discriminate.
Qed.

Lemma getitem_total c k : getitem c k <> OutOfFuel.
Proof.
  destruct c as [| | | s | l | d]; cbn [getitem]; try discriminate.
  - destruct (index_of k); [destruct (nth_item (chars s) _) |]; discriminate.
  - destruct (index_of k); [destruct (nth_item l _) |]; discriminate.
  - destruct k; try discriminate. destruct (assoc s d); discriminate.
Qed.

Lemma int_16_total v : int_16 E v <> OutOfFuel.
Proof.
  destruct v as [| | | s | |]; cbn [int_16]; try discriminate.
  destruct (int16 E s); discriminate.
Qed.

Lemma read_rsa_key_total v : read_rsa_key E v <> OutOfFuel.
Proof.
  unfold read_rsa_key.
  pose proof (getitem_total v (PStr "publickey_mod")) as H1.
  destruct (getitem v (PStr "publickey_mod")) as [m | |]; cbn [result_bind];
    [| discriminate | contradiction].
  pose proof (int_16_total m) as H2.
  destruct (int_16 E m) as [zm | |]; cbn [result_bind]; [| discriminate | contradiction].
  pose proof (getitem_total v (PStr "publickey_exp")) as H3.
  destruct (getitem v (PStr "publickey_exp")) as [e | |]; cbn [result_bind];
    [| discriminate | contradiction].
  pose proof (int_16_total e) as H4.
  destruct (int_16 E e) as [ze | |]; cbn [result_bind]; [| discriminate | contradiction].
  pose proof (getitem_total v (PStr "timestamp")) as H5.
  destruct (getitem v (PStr "timestamp")) as [t | |]; cbn [result_bind];
    [discriminate | discriminate | contradiction].
Qed.

(** The loop of [request] is bounded by its range. *)
Lemma request_total rq : total (request E rq).
Proof.
  unfold request. apply total_for_in.
  - intros tries last. unfold request_body.
    apply total_bind; [apply session_request_total | intro r].
    apply total_bind; [apply total_lift, json_or_text_total | intro d].
    repeat match goal with
           | |- total (if ?b then _ else _) => destruct b
           | |- total (raise _) => apply total_raise
           | |- total (ret _) => apply total_ret
           | |- total (bind _ _) => apply total_bind; [intro w; discriminate | intro]
           end.
  - intros [[r d] |]; apply total_raise.
Qed.

(** The budget [_fetch_rsa_params] starts from covers every repetition the
    method can make. *)
Lemma fetch_rsa_params_from_total budget : forall c,
  maximum_repetitions - c < budget -> total (fetch_rsa_params_from E budget c).
Proof.
  induction budget as [| budget IH]; intros c Hc; [lia |].
  cbn [fetch_rsa_params_from].
  apply total_bind; [intro w; discriminate | intro w0].
  apply total_bind; [intro w; discriminate | intro t].
  apply total_bind.
  - apply total_catch; [apply request_total | intro e].
    apply total_bind; [intro w; discriminate | intro]. apply total_raise.
  - intro key_response. apply total_catch; [apply total_lift, read_rsa_key_total |].
    intro e. destruct (is_KeyError e); [| apply total_raise].
    destruct (c <? maximum_repetitions)%nat eqn:Hlt; [| apply total_raise].
    apply IH. apply Nat.ltb_lt in Hlt. lia.
Qed.

Lemma fetch_rsa_params_total c : total (_fetch_rsa_params E c).
Proof. apply fetch_rsa_params_from_total. lia. Qed.

End Totality.

(** ** The request loop *)

Section Request.

Variable E : Env.

Lemma sent_backoff rq delays w :
  sent (io (backoff rq delays w)) = sent (io w) ++ repeat rq (List.length delays).
Proof.
  unfold backoff. revert w. induction delays as [| d ds IH]; intro w.
  - simpl. now rewrite app_nil_r.
  - cbn [fold_left]. rewrite IH. simpl. now rewrite <- app_assoc.
Qed.

Lemma slept_backoff rq delays w :
  slept (io (backoff rq delays w)) = slept (io w) ++ delays.
Proof.
  unfold backoff. revert w. induction delays as [| d ds IH]; intro w.
  - simpl. now rewrite app_nil_r.
  - cbn [fold_left]. rewrite IH. simpl. now rewrite <- app_assoc.
Qed.

(** C10.  Whatever its status, a response whose body reads as the fixed
    access-denied text makes [request] raise
    [InvalidCredentials('Invalid API key')]: the comparison comes before
    every test of the status.  This holds at the first response and at one
    that follows [k] responses with status 500 or 502; nothing is sent or
    slept after the response. *)
Theorem request_access_denied (rq : http_request) (w : world)
    (rs : nat -> reply) (ds : nat -> pyval) (k : nat) (r : reply) :
  k < 5 ->
  (forall j, j < k -> server E (tick w + j) rq = inr (rs j) /\ retryable E (rs j) (ds j)) ->
  server E (tick w + k) rq = inr r ->
  json_or_text E r = Ok (PStr access_denied) ->
  request E rq w =
    (Raise (InvalidCredentials (PStr "Invalid API key")),
     with_io (log_sent rq) (backoff rq (delays 0 k) w)).
Proof.
  intros Hk Hretry Hs Hj. unfold request.
  rewrite (request_loop_retries E rq rs ds (tick w) k 0 5 None w);
    [| lia | lia | intros j Hjk; apply Hretry; lia].
  cbn [Nat.add]. destruct (5 - k) as [| n] eqn:Hn; [lia |].
  cbn [seq]. rewrite for_in_cons.
  rewrite (request_body_denied E rq k _ _ r); [reflexivity | | exact Hj].
  replace (tick (backoff rq (delays 0 k) w)) with (tick w + k); [exact Hs |].
  unfold tick. rewrite sent_backoff, length_app, repeat_length.
  unfold delays. now rewrite length_map, length_seq.
Qed.

(** C5, as the code has it.  When the first five answers to a request are
    500 or 502 responses whose bodies decode and are not the access-denied
    text, [request] makes exactly five attempts, sleeps 1, 3, 5, 7 and 9
    seconds (one sleep after each attempt, the fifth included) and then
    raises [HTTPException] with the fifth response. *)
Theorem request_backoff (rq : http_request) (w : world)
    (rs : nat -> reply) (ds : nat -> pyval) :
  (forall k, k < 5 -> server E (tick w + k) rq = inr (rs k) /\ retryable E (rs k) (ds k)) ->
  request E rq w =
    (Raise (HTTPException (rs 4) (ds 4)), backoff rq [1; 3; 5; 7; 9]%Z w)
  /\ sent (io (backoff rq [1; 3; 5; 7; 9]%Z w)) = sent (io w) ++ repeat rq 5
  /\ slept (io (backoff rq [1; 3; 5; 7; 9]%Z w)) = slept (io w) ++ [1; 3; 5; 7; 9]%Z.
Proof.
  intro H. split; [| split; [apply sent_backoff | apply slept_backoff]].
  unfold request.
  rewrite (request_loop_retries E rq rs ds (tick w) 5 0 5 None w);
    [reflexivity | lia | lia | intros j Hj; apply H; lia].
Qed.

End Request.

(** The access-denied page served with status 200. *)
Lemma request_access_denied_witness :
  request Runs.denied_200 Runs.probe Script.start =
    (Raise (InvalidCredentials (PStr "Invalid API key")),
     with_io (log_sent Runs.probe) Script.start)
  /\ status (mkReply 200 (Some "text/html; charset=UTF-8") access_denied) = 200%Z.
Proof.
  split; [| reflexivity].
  apply (request_access_denied Runs.denied_200 Runs.probe Script.start
           (fun _ => mkReply 200 (Some "text/html; charset=UTF-8") access_denied)
           (fun _ => PNone) 0
           (mkReply 200 (Some "text/html; charset=UTF-8") access_denied));
    [lia | intros j Hj; lia | reflexivity | reflexivity].
Defined.

(** A gateway that answers 502 to every attempt. *)
Lemma request_backoff_witness :
  request Runs.bad_gateway Runs.probe Script.start =
    (Raise (HTTPException (mkReply 502 (Some "text/html; charset=UTF-8")
                                   "<h1>502 Bad Gateway</h1>")
                          (PStr "<h1>502 Bad Gateway</h1>")),
     backoff Runs.probe [1; 3; 5; 7; 9]%Z Script.start).
Proof.
  apply (request_backoff Runs.bad_gateway Runs.probe Script.start
           (fun _ => mkReply 502 (Some "text/html; charset=UTF-8") "<h1>502 Bad Gateway</h1>")
           (fun _ => PStr "<h1>502 Bad Gateway</h1>")).
  intros k Hk. split; [| split; [right; reflexivity | split; reflexivity]].
  do 5 (destruct k as [| k]; [reflexivity |]). lia.
Defined.

(** C5 as stated fails: a 500 response that carries the access-denied text
    ends the request at the first attempt with [InvalidCredentials], with no
    sleep and no [HTTPException]. *)
Lemma request_500_access_denied :
  (forall n, server Runs.denied_500 n Runs.probe =
             inr (mkReply 500 (Some "text/html; charset=UTF-8") access_denied))
  /\ request Runs.denied_500 Runs.probe Script.start =
       (Raise (InvalidCredentials (PStr "Invalid API key")),
        with_io (log_sent Runs.probe) Script.start)
  /\ sent (io (with_io (log_sent Runs.probe) Script.start)) = [Runs.probe]
  /\ slept (io (with_io (log_sent Runs.probe) Script.start)) = [].
Proof.
  split; [| split; [| split]]; try reflexivity.
  intro n. unfold Runs.denied_500, Script.env, Script.play. simpl.
  destruct n as [| n]; reflexivity.
Qed.

(** ** The RSA key fetch *)

Section KeyFetch.

Variable E : Env.

Lemma read_rsa_key_lacks_field v :
  lacks_field E v = true -> exists k, read_rsa_key E v = Raise (KeyError k).
Proof.
  destruct v as [| | | | | d]; try discriminate. unfold lacks_field, read_rsa_key.
  cbn [getitem result_bind].
  destruct (assoc "publickey_mod" d) as [m |] eqn:Hm; [| intros _; cbn; eauto].
  destruct m as [| | | m | |]; try discriminate.
  cbn [result_bind int_16]. destruct (int16 E m) as [zm |]; [| discriminate].
  cbn [result_bind].
  destruct (assoc "publickey_exp" d) as [e |] eqn:He; [| intros _; cbn; eauto].
  destruct e as [| | | e | |]; try discriminate.
  cbn [result_bind int_16]. destruct (int16 E e) as [ze |]; [| discriminate].
  cbn [result_bind].
  destruct (assoc "timestamp" d) as [t |] eqn:Ht; [discriminate | intros _; cbn; eauto].
Qed.

Lemma tick_key_asked w : tick (key_asked E w) = S (tick w).
Proof. apply tick_log_sent. Qed.

(** One call of the method on a response that lacks a field. *)
Lemma fetch_rsa_params_step budget c w v :
  answers E (tick w) (getrsakey_request E (username (self w)) (time_ms E (tick w))) v ->
  lacks_field E v = true ->
  fetch_rsa_params_from E (S budget) c w =
    if (c <? maximum_repetitions)%nat
    then fetch_rsa_params_from E budget (S c) (key_asked E w)
    else (Raise (ValueError "Could not obtain rsa-key"), key_asked E w).
Proof.
  intros Ha Hl. destruct (read_rsa_key_lacks_field v Hl) as [k Hk].
  cbn [fetch_rsa_params_from]. unfold bind at 1. cbn [get].
  unfold bind at 1. unfold now at 1. unfold bind at 1. unfold catch at 1.
  rewrite (request_answered E _ w v Ha).
  unfold catch, lift. rewrite Hk. cbn [is_KeyError].
  destruct (c <? maximum_repetitions)%nat; reflexivity.
Qed.

Lemma self_key_asked n w : self (Nat.iter n (key_asked E) w) = self w.
Proof. induction n as [| n IH]; [reflexivity | exact IH]. Qed.

Lemma tick_key_asked_iter n w : tick (Nat.iter n (key_asked E) w) = tick w + n.
Proof.
  induction n as [| n IH]; cbn [Nat.iter nat_rect].
  - lia.
  - rewrite tick_key_asked. fold (Nat.iter n (key_asked E) w). rewrite IH. lia.
Qed.

Lemma sent_key_asked_iter n w :
  sent (io (Nat.iter n (key_asked E) w)) =
  sent (io w) ++
  map (fun k => getrsakey_request E (username (self w)) (time_ms E (tick w + k))) (seq 0 n).
Proof.
  induction n as [| n IH].
  - simpl. now rewrite app_nil_r.
  - rewrite seq_S, map_app, app_assoc, <- IH. cbn [Nat.iter nat_rect].
    fold (Nat.iter n (key_asked E) w). unfold key_asked at 1.
    cbn [with_io io log_sent sent map Nat.add].
    now rewrite self_key_asked, tick_key_asked_iter.
Qed.

(** From repetition [c] on, every answer lacks a field: the method repeats
    until [c] reaches [maximum_repetitions] and gives up. *)
Lemma fetch_rsa_params_from_gives_up budget : forall c w,
  c + budget = maximum_repetitions ->
  (forall k, k <= budget ->
     exists v,
       answers E (tick w + k)
               (getrsakey_request E (username (self w)) (time_ms E (tick w + k))) v
       /\ lacks_field E v = true) ->
  fetch_rsa_params_from E (S budget) c w =
    (Raise (ValueError "Could not obtain rsa-key"), Nat.iter (S budget) (key_asked E) w).
Proof.
  induction budget as [| budget IH]; intros c w Hc H.
  - destruct (H 0 (le_n 0)) as (v & Ha & Hl). rewrite Nat.add_0_r in Ha.
    rewrite (fetch_rsa_params_step _ _ _ v Ha Hl).
    replace (c <? maximum_repetitions)%nat with false; [reflexivity |].
    symmetry. apply Nat.ltb_ge. lia.
  - destruct (H 0 (Nat.le_0_l _)) as (v & Ha & Hl). rewrite Nat.add_0_r in Ha.
    rewrite (fetch_rsa_params_step _ _ _ v Ha Hl).
    replace (c <? maximum_repetitions)%nat with true
      by (symmetry; apply Nat.ltb_lt; lia).
    rewrite (Nat.iter_succ_r (S budget)). apply IH; [lia |].
    intros k Hk. destruct (H (S k) ltac:(lia)) as (v' & Ha' & Hl').
    exists v'. split; [| exact Hl'].
    rewrite tick_key_asked. cbn [key_asked with_io self].
    now replace (S (tick w) + k) with (tick w + S k) by lia.
Qed.

(** C2, as the code has it.  When each of the six answers is a decoded
    success response that lacks a field, [_fetch_rsa_params] asks for the
    key six times (the first call and five repetitions), then raises
    [ValueError('Could not obtain rsa-key')]; nothing else is sent, in
    particular no seventh request. *)
Theorem fetch_rsa_params_gives_up (w : world) :
  (forall k, k <= 5 ->
     exists v,
       answers E (tick w + k)
               (getrsakey_request E (username (self w)) (time_ms E (tick w + k))) v
       /\ lacks_field E v = true) ->
  _fetch_rsa_params E 0 w =
    (Raise (ValueError "Could not obtain rsa-key"), Nat.iter 6 (key_asked E) w)
  /\ sent (io (Nat.iter 6 (key_asked E) w)) =
       sent (io w) ++
       map (fun k => getrsakey_request E (username (self w)) (time_ms E (tick w + k)))
           (seq 0 6).
Proof.
  intro H. split; [| apply sent_key_asked_iter].
  unfold _fetch_rsa_params. apply fetch_rsa_params_from_gives_up; [reflexivity | exact H].
Qed.

End KeyFetch.

(** A server that answers every key request with an empty object. *)
Lemma fetch_rsa_params_gives_up_witness :
  _fetch_rsa_params Runs.empty_object 0 Runs.bot =
    (Raise (ValueError "Could not obtain rsa-key"),
     Nat.iter 6 (key_asked Runs.empty_object) Runs.bot).
Proof.
  apply (fetch_rsa_params_gives_up Runs.empty_object Runs.bot).
  intros k Hk. exists (PDict []). split; [| reflexivity].
  exists (mkReply 200 (Some "application/json; charset=utf-8") "{}").
  repeat split; try reflexivity; try lia.
  unfold Runs.empty_object, Script.env, Script.play. cbn [server].
  destruct k as [| k]; reflexivity.
Defined.

(** C2 as stated fails on its last clause: with every answer the JSON
    object [{}], the sixth request is sent and is answered by a sixth
    malformed response before the fetch gives up. *)
Lemma fetch_rsa_params_sixth_request :
  (forall n rq, server Runs.empty_object n rq =
                inr (mkReply 200 (Some "application/json; charset=utf-8") "{}"))
  /\ json_or_text Runs.empty_object
                  (mkReply 200 (Some "application/json; charset=utf-8") "{}") = Ok (PDict [])
  /\ fst (_fetch_rsa_params Runs.empty_object 0 Runs.bot) =
       Raise (ValueError "Could not obtain rsa-key")
  /\ List.length (sent (io (snd (_fetch_rsa_params Runs.empty_object 0 Runs.bot)))) = 6
  /\ nth_error (sent (io (snd (_fetch_rsa_params Runs.empty_object 0 Runs.bot)))) 5 =
       Some (getrsakey_request Runs.empty_object "bot" 5000%Z).
Proof.
  split; [| repeat split; vm_compute; reflexivity].
  intros n rq. unfold Runs.empty_object, Script.env, Script.play. cbn [server].
  destruct n as [| n]; reflexivity.
Qed.

(** ** Accepting a trade *)

Section AcceptTrade.

Variable E : Env.

(** C3.  When the accept call is answered with a truthy
    ['needs_mobile_confirmation'] and [identity_secret] is unset (or empty),
    [accept_user_trade] raises
    [ClientException('Accepting trades requires an identity_secret')] in
    the world the accept call left: no confirmation was looked up, none
    confirmed. *)
Theorem accept_requires_identity_secret (user_id64 trade_id : string)
    (w w1 : world) (resp needs : pyval) :
  request E (accept_request E (session_id (self w)) user_id64 trade_id) w = (Ok resp, w1) ->
  dict_get resp "needs_mobile_confirmation" (PBool false) = Ok needs ->
  truthy needs = true ->
  secret_set (identity_secret (self w)) = false ->
  accept_user_trade E user_id64 trade_id w =
    (Raise (ClientException "Accepting trades requires an identity_secret"), w1)
  /\ lookups (io w1) = lookups (io w)
  /\ confirms (io w1) = confirms (io w).
Proof.
  intros Hreq Hget Hneeds Hsecret.
  pose proof (request_quiet E (accept_request E (session_id (self w)) user_id64 trade_id) w)
    as Hq.
  rewrite Hreq in Hq. cbn [snd] in Hq. destruct Hq as [Hself _ _ Hl Hc _ _].
  split; [| split; assumption].
  unfold accept_user_trade, bind, get, lift. rewrite Hreq, Hget, Hneeds, Hself, Hsecret.
  reflexivity.
Qed.

(** Every path through the body of the loop over [range(3)] returns or
    raises: no pass is followed by another one. *)
Lemma confirm_body_ends trade_id tries (w : world) :
  exists r w',
    confirm_body E trade_id tries tt w = (r, w')
    /\ (forall s, r <> Ok (Next s))
    /\ List.length (lookups (io w')) <= S (List.length (lookups (io w)))
    /\ confirms (io w') <= S (confirms (io w)).
Proof.
  unfold confirm_body, bind, catch, lookup_confirmation, conf_confirm, raise, ret.
  destruct (_confirmation_manager (self w)).
  - destruct (get_trade_confirmation E _ trade_id) as [e | conf].
    + do 2 eexists. split; [reflexivity |].
      split; [discriminate | cbn; rewrite length_app; cbn; lia].
    + cbn [with_io io log_lookup confirms].
      destruct (confirm E (confirms (io w)) conf) as [e | v]; [| destruct (is_dict v)];
        (do 2 eexists; split; [reflexivity |];
         split; [discriminate | cbn; rewrite length_app; cbn; lia]).
  - do 2 eexists. split; [reflexivity |]. split; [discriminate | lia].
Qed.

(** One call looks up at most one confirmation and confirms at most once,
    whatever the range of the loop. *)
Lemma confirm_loop_single_pass trade_id range (w : world) :
  let w' := snd (for_in range tt (confirm_body E trade_id)
                        (fun _ => raise (ClientException "Couldn't find a matching confirmation")) w) in
  List.length (lookups (io w')) <= S (List.length (lookups (io w)))
  /\ confirms (io w') <= S (confirms (io w)).
Proof.
  destruct range as [| tries range]; cbv zeta.
  - cbn. lia.
  - rewrite for_in_cons.
    destruct (confirm_body_ends trade_id tries w) as (r & w' & -> & Hr & Hl & Hc).
    destruct r as [[s | a] | e |]; cbn [snd]; auto.
    now destruct (Hr s).
Qed.

End AcceptTrade.

(** A client without [identity_secret] accepts a trade that needs a mobile
    confirmation. *)
Lemma accept_requires_identity_secret_witness :
  accept_user_trade Runs.confirm_later "76561198000000000" "123" Script.start =
    (Raise (ClientException "Accepting trades requires an identity_secret"),
     with_io (log_sent (accept_request Runs.confirm_later None "76561198000000000" "123"))
             Script.start).
Proof.
  apply (accept_requires_identity_secret Runs.confirm_later "76561198000000000" "123"
           Script.start _ Runs.needs_confirmation (PBool true));
    reflexivity.
Defined.

(** C6 at its failing input.  With [identity_secret] set, the accept call
    answered with a confirmation requirement and a first [confirm()] that
    does not answer with a JSON object, the call waits 2 seconds, looks the
    confirmation up once, confirms once and raises
    [SteamAuthenticatorError]: the second and third pass of [range(3)], in
    which [confirm()] would have succeeded, never run. *)
Theorem accept_confirm_not_retried :
  accept_user_trade Runs.confirm_later "76561198000000000" "123" Runs.with_identity_secret =
    (Raise (SteamAuthenticatorError
              "Failed to except the trade, see the log for the response"),
     {| self := self Runs.with_identity_secret;
        io := {| sent := [accept_request Runs.confirm_later None "76561198000000000" "123"];
                 slept := [2%Z]; dispatched := []; tasks := [];
                 lookups := ["123"]; confirms := 1; prompts := 0; closed := false |} |})
  /\ confirm Runs.confirm_later 1 7 = inr (PDict [("success", PBool true)]).
Proof. split; reflexivity. Qed.

(** ** The trade poller *)

Section Poller.

Variable E : Env.

(** No value can be subscripted with itself. *)
Lemma getitem_self (v : pyval) : getitem v v = Raise TypeError.
Proof. destruct v; reflexivity. Qed.

(** The loop over the zipped keys raises [TypeError] in its first pass and
    dispatches nothing. *)
Lemma diff_loop_raises (trades : pyval) (pairs : list (pyval * pyval)) (w : world) :
  for_in pairs tt (diff_body E trades) (fun _ => ret tt) w =
  (match pairs with [] => Ok tt | _ :: _ => Raise TypeError end, w).
Proof.
  destruct pairs as [| [old new] pairs]; [reflexivity |].
  rewrite for_in_cons. unfold diff_body, bind, lift. cbn [fst snd].
  now rewrite getitem_self.
Qed.

(** A pass of the poller dispatches nothing beyond what the fetch of the
    snapshot dispatched. *)
Lemma poll_trades_pass_dispatches_nothing (fuel : nat) (trades_cache : pyval) (w : world) :
  dispatched (io (snd (poll_trades_pass E fuel trades_cache w))) =
  dispatched (io (snd (_get_trade_offers E fuel true false true w))).
Proof.
  unfold poll_trades_pass. unfold bind at 1.
  destruct (_get_trade_offers E fuel true false true w) as [[trades | e |] w1];
    [| reflexivity | reflexivity].
  cbn [snd]. unfold bind at 1.
  destruct (negb (py_eqb trades trades_cache)); [| reflexivity].
  unfold bind at 1, lift at 1.
  destruct (py_iter trades_cache) as [olds | e |]; [| reflexivity | reflexivity].
  unfold bind at 1, lift at 1.
  destruct (py_iter trades) as [news | e |]; [| reflexivity | reflexivity].
  unfold bind at 1. rewrite diff_loop_raises.
  destruct (combine olds news); reflexivity.
Qed.

(** Once the first attempt of the fetch has raised, the method ends in one
    of its handlers and has nothing to return but [None]. *)
Lemma get_trade_offers_recovered (fuel : nat) (active_only sent_ received : bool)
    (w w1 w' : world) (e : exn) (v : pyval) :
  request E (GET (Route E "IEconService" "GetTradeOffers" "v1")
                 (Some (PDict [("key", PStr (api_key (self w)));
                               ("active_only", int_of_bool active_only);
                               ("get_sent_offers", int_of_bool sent_);
                               ("get_received_offers", int_of_bool received)]))) w
    = (Raise e, w1) ->
  _get_trade_offers E (S fuel) active_only sent_ received w = (Ok v, w') ->
  v = PNone.
Proof.
  intros Hreq. cbn [_get_trade_offers]. unfold bind at 1, get, try_else.
  rewrite Hreq. destruct (is_ValueError e).
  - unfold bind at 1, get. unfold bind at 1.
    destruct (login E fuel _ _ _ _ None w1) as [[[] | e1 |] w2]; try discriminate.
    unfold bind at 1.
    destruct (_get_trade_offers E fuel true false true w2) as [[v2 | e2 |] w3];
      try discriminate.
    unfold ret. congruence.
  - destruct (is_disconnect e); [| discriminate].
    unfold bind at 1.
    destruct (_get_trade_offers E fuel true false true w1) as [[v2 | e2 |] w3];
      try discriminate.
    unfold ret. congruence.
Qed.

End Poller.

(** C1 at its failing input.  The first snapshot holds offer 123 in state
    2, the second in state 3, so that the diff of the specification is the
    id 123: the pass over the second snapshot raises [TypeError] out of
    [_poll_trades] and no ['trade_receive'] is dispatched. *)
Theorem poll_trades_changed_offer :
  _poll_trades Runs.offer_accepted 1 1 Runs.bot =
    (Raise TypeError,
     {| self := self Runs.bot;
        io := {| sent := [Runs.trade_offers_request "KEY";
                          Runs.trade_offers_request "KEY"];
                 slept := [5%Z]; dispatched := []; tasks := [];
                 lookups := []; confirms := 0; prompts := 0; closed := false |} |})
  /\ _get_trade_offers Runs.offer_accepted 1 true false true Runs.bot =
       (Ok (PDict [("123", PInt 2)]),
        with_io (log_sent (Runs.trade_offers_request "KEY")) Runs.bot)
  /\ fst (_get_trade_offers Runs.offer_accepted 1 true false true
            (with_io (log_sent (Runs.trade_offers_request "KEY")) Runs.bot)) =
       Ok (PDict [("123", PInt 3)])
  /\ spec_changed_ids [("123", PInt 2)] [("123", PInt 3)] = ["123"].
Proof. repeat split; vm_compute; reflexivity. Qed.

(** C7 at its failing inputs.  The connection drops at the first request
    and the offers arrive at the second: the fetch is repeated at once, but
    the method returns [None] instead of the snapshot it fetched, and the
    pass of the poller that receives [None] raises [TypeError].  When the
    session is gone instead, the client logs in again, without its
    [identity_secret]; the server accepts the login and answers every
    request of it, and the login raises [AttributeError] at its last
    statement: the error leaves [_get_trade_offers] and the offers are not
    asked for again. *)
Theorem get_trade_offers_drops_snapshot :
  (_get_trade_offers Runs.disconnected_once 2 true false true Runs.bot =
     (Ok PNone,
      with_io (log_sent (Runs.trade_offers_request "KEY"))
              (with_io (log_sent (Runs.trade_offers_request "KEY")) Runs.bot))
   /\ fst (_get_trade_offers Runs.disconnected_once 1 true false true
             (with_io (log_sent (Runs.trade_offers_request "KEY")) Runs.bot)) =
        Ok (PDict [("123", PInt 2)])
   /\ fst (poll_trades_pass Runs.disconnected_once 2 (PDict [("123", PInt 2)]) Runs.bot) =
        Raise TypeError)
  /\ (fst (_get_trade_offers Runs.session_lost 2 true false true Runs.with_identity_secret) =
        Raise AttributeError
      /\ List.length
           (sent (io (snd (_get_trade_offers Runs.session_lost 2 true false true
                                             Runs.with_identity_secret)))) = 7
      /\ (forall n, 1 <= n < 7 ->
            exists r, server Runs.session_lost n
                        (nth n (sent (io (snd (_get_trade_offers Runs.session_lost 2 true
                                                 false true Runs.with_identity_secret))))
                             Runs.probe) = inr r
                      /\ status r = 200%Z)
      /\ _logged_in
           (self (snd (_get_trade_offers Runs.session_lost 2 true false true
                                         Runs.with_identity_secret))) = true
      /\ identity_secret
           (self (snd (_get_trade_offers Runs.session_lost 2 true false true
                                         Runs.with_identity_secret))) = None).
Proof.
  split; [repeat split; vm_compute; reflexivity |].
  split; [vm_compute; reflexivity |]. split; [vm_compute; reflexivity |].
  split; [| split; vm_compute; reflexivity].
  intros n [Hlow Hhigh].
  do 7 (destruct n as [| n]; [try lia; eexists; split; vm_compute; reflexivity |]).
  lia.
Qed.

(** ** Logging in *)

Section Captcha.

Variable E : Env.

(** When the response that [_send_login_request] hands to [login] contains
    the key ['captcha_needed'], [login] raises [LoginError] in the world
    that response left: the last request sent is the login submission the
    response answers, and no session was established. *)
Lemma login_captcha_in_response (fuel : nat) (user pass key : string)
    (shared identity : option string) (w w1 : world) (login_response : pyval) :
  _send_login_request E fuel
    (with_self (set_credentials user pass key shared identity) w) = (Ok login_response, w1) ->
  in_keys "captcha_needed" login_response = Ok true ->
  login E fuel user pass key shared identity w =
    (Raise (LoginError "A captcha code is required, please try again later"), w1)
  /\ (exists u enc otc ts t,
        last_answer E w1 (dologin_request E u enc otc ts t) login_response)
  /\ no_session_change w w1.
Proof.
  intros Hsend Hkey. split; [| split].
  - unfold login. unfold bind at 1, modify at 1. unfold bind at 1. rewrite Hsend.
    unfold bind at 1, lift at 1. rewrite Hkey. reflexivity.
  - eapply send_login_request_ok_last. eassumption.
  - pose proof (send_login_request_no_session_change E fuel
                  (with_self (set_credentials user pass key shared identity) w)) as H.
    rewrite Hsend in H. destruct H as [H1 H2 H3 H4]. split; assumption.
Qed.

End Captcha.

Section TwoFactor.

Variable E : Env.
Variable fuel : nat.

(** The submission [_send_login] is called for, in the world [w]. *)
Variables (rsa_timestamp : pyval) (encrypted_password : string) (w : world).

(** The submission is answered, after which the world is [w1], and the
    answer asks for a two-factor code. *)
Variables (login_response twofactor : pyval) (w1 : world).
Hypothesis submitted :
  request E (dologin_request E (username (self w)) encrypted_password
                             (_one_time_code (self w)) rsa_timestamp (time_ms E (tick w))) w
  = (Ok login_response, w1).
Hypothesis asked : getitem login_response (PStr "requires_twofactor") = Ok twofactor.
Hypothesis required : truthy twofactor = true.

(** [self.code()] gives [c]. *)
Variables (c : string) (w2 : world).
Hypothesis obtained : code E w1 = (Ok c, w2).

(** The key fetch and the encryption that follow succeed. *)
Variables (key2 : Z * Z) (timestamp2 : pyval) (w3 : world) (encrypted2 : string).
Hypothesis fetched :
  _fetch_rsa_params E 0 (with_self (set_one_time_code (Some c)) w2)
  = (Ok (key2, timestamp2), w3).
Hypothesis encrypted :
  rsa_encrypt_b64 E (tick w3) (password (self w3)) key2 = inr encrypted2.

Lemma self_after_submission : self w1 = self w.
Proof.
  pose proof (request_quiet E (dologin_request E (username (self w)) encrypted_password
                                 (_one_time_code (self w)) rsa_timestamp
                                 (time_ms E (tick w))) w) as H.
  rewrite submitted in H. apply (same_self _ _ H).
Qed.

(** The code is generated from the shared secret when there is one, and
    typed at the prompt otherwise; neither sends anything. *)
Lemma code_source :
  (if secret_set (shared_secret (self w))
   then exists secret, shared_secret (self w) = Some secret
                       /\ generate_one_time_code E (tick w1) secret = inr c
                       /\ w2 = w1
   else input E (prompts (io w1)) = inr c /\ w2 = with_io log_prompt w1).
Proof.
  pose proof obtained as H. unfold code, bind, get in H.
  rewrite self_after_submission in H. unfold secret_set.
  destruct (shared_secret (self w)) as [secret |].
  - destruct (negb (String.eqb secret EmptyString)).
    + exists secret. destruct (generate_one_time_code E (tick w1) secret); cbn in H;
        [discriminate |]. inversion H; subst. auto.
    + unfold prompt in H. destruct (input E (prompts (io w1))); [discriminate |].
      inversion H; subst. auto.
  - unfold prompt in H. destruct (input E (prompts (io w1))); [discriminate |].
    inversion H; subst. auto.
Qed.

Lemma world_after_code : self w2 = self w /\ sent (io w2) = sent (io w1).
Proof.
  pose proof code_source as H. rewrite <- self_after_submission.
  destruct (secret_set (shared_secret (self w))).
  - destruct H as (secret & _ & _ & ->). auto.
  - destruct H as (_ & ->). auto.
Qed.

Lemma self_after_fetch : self w3 = set_one_time_code (Some c) (self w).
Proof.
  pose proof (fetch_rsa_params_from_same_client E (S (maximum_repetitions - 0)) 0
                (with_self (set_one_time_code (Some c)) w2)) as H.
  unfold _fetch_rsa_params in fetched. rewrite fetched in H. unfold same_client in H.
  cbn [snd with_self self] in H. rewrite H. now destruct world_after_code as [-> _].
Qed.

(** C8.  On an answer that asks for a two-factor code, [_send_login]
    obtains the code (from the shared secret if one is set, from the prompt
    otherwise) and runs [_send_login_request] again: the next request asks
    for the RSA key, and the submission after it carries the timestamp and
    the password encrypted under the key of that fetch, together with the
    code; the timestamp and the encrypted password [_send_login] was called
    with are not used again. *)
Theorem send_login_two_factor_restarts :
  (if secret_set (shared_secret (self w))
   then exists secret, shared_secret (self w) = Some secret
                       /\ generate_one_time_code E (tick w1) secret = inr c
                       /\ w2 = w1
   else input E (prompts (io w1)) = inr c /\ w2 = with_io log_prompt w1)
  /\ (exists more,
        sent (io w3) =
        sent (io w1) ++ getrsakey_request E (username (self w)) (time_ms E (tick w1)) :: more)
  /\ _send_login E (S fuel) rsa_timestamp encrypted_password w =
       catch (_send_login E fuel timestamp2 encrypted2)
             (fun e => raise (HTTPExceptionOf e)) w3
  /\ (exists rest,
        sent (io (snd (_send_login E (S fuel) rsa_timestamp encrypted_password w))) =
        sent (io w3) ++
        dologin_request E (username (self w)) encrypted2 (Some c) timestamp2
                        (time_ms E (tick w3)) :: rest).
Proof.
  assert (Hrestart :
    _send_login E (S fuel) rsa_timestamp encrypted_password w =
    catch (_send_login E fuel timestamp2 encrypted2)
          (fun e => raise (HTTPExceptionOf e)) w3).
  { unfold _send_login at 1, _send_login_with at 1.
    unfold bind at 1, get at 1. unfold bind at 1, now at 1.
    unfold catch at 1. unfold bind at 1. rewrite submitted.
    unfold bind at 1, lift at 1. rewrite asked, required.
    unfold bind at 1. rewrite obtained. unfold bind at 1, modify at 1.
    cbn [_send_login_request]. unfold bind at 1. rewrite fetched.
    unfold bind at 1, get at 1. unfold bind at 1. cbn [fst snd].
    rewrite encrypted. cbn [of_sum ret]. reflexivity. }
  split; [exact code_source |]. split; [| split; [exact Hrestart |]].
  - destruct (fetch_rsa_params_sends_first E 0 (with_self (set_one_time_code (Some c)) w2))
      as [more Hmore].
    rewrite fetched in Hmore. cbn [snd] in Hmore. exists more. rewrite Hmore.
    destruct world_after_code as [Hself Hsent].
    unfold tick. cbn [with_self self io]. now rewrite Hself, Hsent.
  - rewrite Hrestart.
    destruct (send_login_with_sends_first E (_send_login_request E fuel) timestamp2
                encrypted2 w3 (send_login_request_appending E fuel)) as [rest Hrest].
    exists rest. rewrite self_after_fetch in Hrest. cbn [set_one_time_code username
      _one_time_code] in Hrest. rewrite <- Hrest.
    unfold catch, _send_login.
    destruct (_send_login_with E (_send_login_request E fuel) timestamp2 encrypted2 w3)
      as [[v | e |] w4]; reflexivity.
Qed.

End TwoFactor.

Section Login.

Variable E : Env.
Variable fuel : nat.
Variables (user pass key : string) (shared identity : option string) (w : world).

(** The key request is answered with a key. *)
Variables (key_response : pyval) (rsa_key : Z * Z) (rsa_timestamp : pyval).
Hypothesis key_answered :
  answers E (tick w) (getrsakey_request E user (time_ms E (tick w))) key_response.
Hypothesis key_read : read_rsa_key E key_response = Ok (rsa_key, rsa_timestamp).

Variable encrypted_password : string.
Hypothesis password_encrypted :
  rsa_encrypt_b64 E (1 + tick w) pass rsa_key = inr encrypted_password.

(** The submission is answered with a JSON object that reports success,
    holds a falsy ['requires_twofactor'] and has no key ['captcha_needed']. *)
Variable login_response : list (string * pyval).
Hypothesis login_answered :
  answers E (1 + tick w)
          (dologin_request E user encrypted_password (_one_time_code (self w))
                           rsa_timestamp (time_ms E (1 + tick w)))
          (PDict login_response).
Variables (twofactor success : pyval).
Hypothesis twofactor_present : assoc "requires_twofactor" login_response = Some twofactor.
Hypothesis no_twofactor : truthy twofactor = false.
Hypothesis no_captcha : assoc "captcha_needed" login_response = None.
Hypothesis success_present : assoc "success" login_response = Some success.
Hypothesis valid_credentials : truthy success = true.

(** The home page carries a session id. *)
Variables (home : reply) (sid : string).
Hypothesis home_answered :
  server E (2 + tick w) (GET (URL_COMMUNITY E ++ "/my/home/") None) = inr home.
Hypothesis sid_found : search_sessionID (text home) = Some sid.

(** Every transfer URL accepts the transfer parameters. *)
Variables (parameters : pyval) (urls : list string).
Hypothesis parameters_present :
  assoc "transfer_parameters" login_response = Some parameters.
Hypothesis parameters_given : is_none parameters = false.
Hypothesis urls_present :
  assoc "transfer_urls" login_response = Some (PList (map PStr urls)).
Hypothesis redirects_answered :
  forall i u, nth_error urls i = Some u ->
    exists v, answers E (i + (3 + tick w)) (POST u parameters) v.

(** The profile of the account is served and [ClientUser] accepts it. *)
Variables (steamid summaries response players player u : pyval).
Hypothesis steamid_present : getitem parameters (PStr "steamid") = Ok steamid.
Hypothesis profile_answered :
  answers E (List.length urls + (3 + tick w))
          (GET (Route E "ISteamUser" "GetPlayerSummaries" "v2")
               (Some (PDict [("key", PStr key); ("steamids", steamid)])))
          summaries.
Hypothesis response_present : getitem summaries (PStr "response") = Ok response.
Hypothesis players_present : getitem response (PStr "players") = Ok players.
Hypothesis player_present : getitem players (PInt 0) = Ok player.
Hypothesis user_built :
  ClientUser E (if truthy player then player else PNone) = inr u.

Local Abbreviation w0 := (credentials_set user pass key shared identity w).
Local Abbreviation wB :=
  (login_submitted E user pass key shared identity w encrypted_password rsa_timestamp).
Local Abbreviation wC :=
  (session_id_stored E user pass key shared identity w encrypted_password rsa_timestamp sid).
Local Abbreviation wD :=
  (login_dispatched E user pass key shared identity w encrypted_password rsa_timestamp sid
                    parameters urls).
Local Abbreviation wE :=
  (manager_created E user pass key shared identity w encrypted_password rsa_timestamp sid
                   parameters urls steamid u).

Lemma fetch_rsa_params_reads (x : world) (v : pyval) (k : Z * Z) (ts : pyval) :
  answers E (tick x) (getrsakey_request E (username (self x)) (time_ms E (tick x))) v ->
  read_rsa_key E v = Ok (k, ts) ->
  _fetch_rsa_params E 0 x = (Ok (k, ts), key_asked E x).
Proof.
  intros Ha Hr. unfold _fetch_rsa_params. cbn [fetch_rsa_params_from].
  unfold bind at 1, get. unfold bind at 1, now at 1. unfold bind at 1, catch at 1.
  rewrite (request_answered E _ x v Ha).
  unfold catch, lift. rewrite Hr. reflexivity.
Qed.

Lemma send_login_accepted (restart : M pyval) (x : world) (ts : pyval) (enc : string)
    (d : list (string * pyval)) (tf : pyval) :
  answers E (tick x)
          (dologin_request E (username (self x)) enc (_one_time_code (self x)) ts
                           (time_ms E (tick x))) (PDict d) ->
  assoc "requires_twofactor" d = Some tf -> truthy tf = false ->
  _send_login_with E restart ts enc x =
    (Ok (PDict d),
     with_io (log_sent (dologin_request E (username (self x)) enc (_one_time_code (self x))
                                        ts (time_ms E (tick x)))) x).
Proof.
  intros Ha Hk Hf. unfold _send_login_with.
  unfold bind at 1, get. unfold bind at 1, now at 1. unfold catch. unfold bind at 1.
  rewrite (request_answered E _ x _ Ha).
  unfold bind at 1, lift at 1. cbn [getitem]. rewrite Hk, Hf. reflexivity.
Qed.

Lemma send_login_request_ok :
  _send_login_request E (S fuel) w0 = (Ok (PDict login_response), wB).
Proof.
  cbn [_send_login_request]. unfold bind at 1.
  rewrite (fetch_rsa_params_reads w0 key_response rsa_key rsa_timestamp key_answered key_read).
  unfold bind at 1, get. unfold bind at 1. cbn [fst snd].
  rewrite tick_key_asked.
  change (password (self (key_asked E w0))) with pass. change (tick w0) with (tick w).
  change (S (tick w)) with (1 + tick w).
  rewrite password_encrypted. cbn [of_sum ret].
  rewrite (send_login_accepted _ (key_asked E w0) rsa_timestamp encrypted_password
             login_response twofactor);
    [rewrite tick_key_asked; reflexivity | | assumption | assumption].
  rewrite tick_key_asked. change (tick w0) with (tick w).
  exact login_answered.
Qed.

Lemma assert_valid_credentials_ok (x : world) :
  server E (tick x) (GET (URL_COMMUNITY E ++ "/my/home/") None) = inr home ->
  _assert_valid_credentials E (PDict login_response) x =
    (Ok tt,
     with_self (set_session_id (Some sid))
               (with_io (log_sent (GET (URL_COMMUNITY E ++ "/my/home/") None)) x)).
Proof.
  intro Hs. unfold _assert_valid_credentials.
  unfold bind at 1, lift at 1. cbn [getitem]. rewrite success_present, valid_credentials.
  cbn [negb]. unfold bind at 1, session_request. rewrite Hs, sid_found. reflexivity.
Qed.

Lemma traffic_only_redirected (l : list string) :
  forall x, traffic_only x (redirected parameters l x).
Proof.
  induction l as [| a l IH]; intro x; cbn [redirected fold_left].
  - apply traffic_only_refl.
  - eapply traffic_only_trans; [| apply IH]. split; reflexivity.
Qed.

Lemma tick_redirected (l : list string) :
  forall x, tick (redirected parameters l x) = List.length l + tick x.
Proof.
  induction l as [| a l IH]; intro x; cbn [redirected fold_left List.length].
  - reflexivity.
  - unfold redirected in IH. rewrite IH, tick_log_sent. lia.
Qed.

Lemma redirect_loop_ok (l : list string) : forall x,
  (forall i a, nth_error l i = Some a ->
     exists v, answers E (i + tick x) (POST a parameters) v) ->
  for_in (map PStr l) tt (redirect_body E parameters) (fun _ => ret tt) x =
    (Ok tt, redirected parameters l x).
Proof.
  induction l as [| a l IH]; intros x H; [reflexivity |].
  cbn [map]. rewrite for_in_cons. unfold redirect_body at 1. unfold bind at 1.
  destruct (H 0 a eq_refl) as [v Hv]. rewrite (request_answered E _ x v Hv).
  cbn [ret redirected fold_left]. apply IH.
  intros i b Hb. rewrite tick_log_sent, Nat.add_succ_r. exact (H (S i) b Hb).
Qed.

Lemma perform_redirects_ok (x : world) :
  (forall i a, nth_error urls i = Some a ->
     exists v, answers E (i + tick x) (POST a parameters) v) ->
  _perform_redirects E (PDict login_response) x = (Ok tt, redirected parameters urls x).
Proof.
  intro H. unfold _perform_redirects.
  unfold bind at 1, lift at 1. cbn [dict_get]. rewrite parameters_present, parameters_given.
  unfold bind at 1, lift at 1. cbn [getitem]. rewrite urls_present.
  unfold bind at 1, lift at 1. cbn [py_iter]. now apply redirect_loop_ok.
Qed.

Lemma fetch_profile_ok (x : world) :
  answers E (tick x)
          (GET (Route E "ISteamUser" "GetPlayerSummaries" "v2")
               (Some (PDict [("key", PStr (api_key (self x))); ("steamids", steamid)])))
          summaries ->
  fetch_profile E steamid x =
    (Ok (if truthy player then player else PNone),
     with_io (log_sent (GET (Route E "ISteamUser" "GetPlayerSummaries" "v2")
                            (Some (PDict [("key", PStr (api_key (self x)));
                                          ("steamids", steamid)])))) x).
Proof.
  intro Ha. unfold fetch_profile. unfold bind at 1, get. unfold bind at 1.
  rewrite (request_answered E _ x summaries Ha).
  unfold bind at 1, lift at 1. rewrite response_present.
  unfold bind at 1, lift at 1. rewrite players_present.
  unfold bind at 1, lift at 1. rewrite player_present. reflexivity.
Qed.

Lemma tick_wB : tick wB = 2 + tick w.
Proof. unfold login_submitted, key_requested. now rewrite !tick_log_sent. Qed.

Lemma tick_wC : tick wC = 3 + tick w.
Proof.
  unfold session_id_stored. change (tick (with_self ?f ?x)) with (tick x).
  now rewrite tick_log_sent, tick_wB.
Qed.

Lemma login_runs :
  login E (S fuel) user pass key shared identity w = (Raise AttributeError, wE).
Proof.
  unfold login. unfold bind at 1, modify at 1. unfold bind at 1.
  fold w0. rewrite send_login_request_ok.
  unfold bind at 1, lift at 1. cbn [in_keys]. rewrite no_captcha.
  unfold bind at 1. rewrite (assert_valid_credentials_ok wB);
    [| rewrite tick_wB; exact home_answered].
  fold wC. unfold bind at 1. rewrite (perform_redirects_ok wC);
    [| intros i a Ha; rewrite tick_wC; now apply redirects_answered].
  unfold bind at 1, modify at 1. unfold bind at 1, dispatch at 1, modify at 1.
  fold wD. unfold bind at 1, lift at 1. cbn [getitem]. rewrite parameters_present.
  unfold bind at 1, lift at 1. rewrite steamid_present.
  assert (Hkey : api_key (self wD) = key).
  { unfold login_dispatched. cbn [with_io with_self self set_logged_in api_key].
    rewrite (same_self _ _ (traffic_only_redirected urls wC)). reflexivity. }
  unfold bind at 1. rewrite (fetch_profile_ok wD).
  - unfold bind at 1. rewrite user_built, Hkey. reflexivity.
  - replace (tick wD) with (List.length urls + (3 + tick w)).
    + rewrite Hkey. exact profile_answered.
    + unfold login_dispatched.
      change (tick (with_io (log_dispatched ?e) ?x)) with (tick x).
      change (tick (with_self ?f ?x)) with (tick x).
      now rewrite tick_redirected, tick_wC.
Qed.

(** C9 fails on the code.  When the key request, the login submission
    (success, no two-factor requirement, no captcha key), the home page,
    every transfer URL and the profile request are answered at once and
    [ClientUser] accepts the profile, [login] marks the client logged in,
    stores the session id, dispatches ['login'] once, stores the user and
    the confirmation manager, and then raises [AttributeError] at its last
    statement: it does not return, and no task is created. *)
Theorem login_starts_no_poller :
  exists w',
    login E (S fuel) user pass key shared identity w = (Raise AttributeError, w')
    /\ _logged_in (self w') = true
    /\ session_id (self w') = Some sid
    /\ dispatched (io w') = dispatched (io w) ++ [ev_login]
    /\ _user (self w') = Some u
    /\ _confirmation_manager (self w') = true
    /\ tasks (io w') = tasks (io w).
Proof.
  exists wE. split; [exact login_runs |].
  pose proof (traffic_only_redirected urls wC) as [Hself Hdispatched Htasks _ _ _ _].
  unfold manager_created, login_dispatched.
  cbn [with_io with_self self io set_confirmation_manager set_user
    set_logged_in log_sent log_dispatched _logged_in session_id dispatched tasks
    _user _confirmation_manager].
  rewrite Hself, Hdispatched, Htasks. repeat split; reflexivity.
Qed.

End Login.

Section CaptchaLogin.

Variable E : Env.
Variable fuel : nat.
Variables (user pass key : string) (shared identity : option string) (w : world).

(** The key request is answered with a key. *)
Variables (key_response : pyval) (rsa_key : Z * Z) (rsa_timestamp : pyval).
Hypothesis key_answered :
  answers E (tick w) (getrsakey_request E user (time_ms E (tick w))) key_response.
Hypothesis key_read : read_rsa_key E key_response = Ok (rsa_key, rsa_timestamp).

Variable encrypted_password : string.
Hypothesis password_encrypted :
  rsa_encrypt_b64 E (1 + tick w) pass rsa_key = inr encrypted_password.

(** The submission is answered with a JSON object that holds the key
    ['captcha_needed'] and a falsy ['requires_twofactor']. *)
Variable login_response : list (string * pyval).
Hypothesis login_answered :
  answers E (1 + tick w)
          (dologin_request E user encrypted_password (_one_time_code (self w))
                           rsa_timestamp (time_ms E (1 + tick w)))
          (PDict login_response).
Variables (twofactor captcha : pyval).
Hypothesis twofactor_present : assoc "requires_twofactor" login_response = Some twofactor.
Hypothesis no_twofactor : truthy twofactor = false.
Hypothesis captcha_present : assoc "captcha_needed" login_response = Some captcha.

Local Abbreviation submitted :=
  (login_submitted E user pass key shared identity w encrypted_password rsa_timestamp).

(** C4, as the code has it.  When the answer to the login submission holds
    the key ['captcha_needed'] (whatever its value) and a falsy
    ['requires_twofactor'], [login] raises [LoginError] right after that
    answer: the key request and the one submission are all that was sent,
    and no session was established (no ['login'] event, no task,
    [_logged_in] and [session_id] as before). *)
Theorem login_captcha_needed :
  login E (S fuel) user pass key shared identity w =
    (Raise (LoginError "A captcha code is required, please try again later"), submitted)
  /\ sent (io submitted) =
       sent (io w) ++
       [getrsakey_request E user (time_ms E (tick w));
        dologin_request E user encrypted_password (_one_time_code (self w))
                        rsa_timestamp (time_ms E (1 + tick w))]
  /\ no_session_change w submitted.
Proof.
  pose proof (send_login_request_ok E fuel user pass key shared identity w key_response
                rsa_key rsa_timestamp key_answered key_read encrypted_password
                password_encrypted login_response login_answered twofactor
                twofactor_present no_twofactor) as Hsend.
  split; [| split].
  - apply (login_captcha_in_response E (S fuel) user pass key shared identity w submitted
             (PDict login_response) Hsend).
    cbn [in_keys]. now rewrite captcha_present.
  - unfold login_submitted, key_requested, credentials_set.
    cbn [with_io with_self io log_sent sent]. now rewrite <- app_assoc.
  - split; reflexivity.
Qed.

End CaptchaLogin.

(** A login whose first submission is answered with a two-factor
    requirement, on an account with a shared secret. *)
Lemma send_login_two_factor_restarts_witness :
  exists rest,
    sent (io (snd (_send_login Runs.two_factor 1 (PStr "1000") "enc1:hunter2"
                               Runs.key_fetched))) =
    sent (io Runs.second_key_fetched) ++
    dologin_request Runs.two_factor "bot" "enc3:hunter2" (Some "otp2:c2hhcmVk")
                    (PStr "2000") 3000 :: rest.
Proof.
  refine (proj2 (proj2 (proj2
    (send_login_two_factor_restarts Runs.two_factor 0 (PStr "1000") "enc1:hunter2"
       Runs.key_fetched Runs.twofactor_reply (PBool true) Runs.code_asked _ _ _
       "otp2:c2hhcmVk" Runs.code_asked _
       (50595, 65537)%Z (PStr "2000") Runs.second_key_fetched "enc3:hunter2" _ _))));
    vm_compute; reflexivity.
Defined.

(** A login that goes through at the first submission. *)
Lemma login_starts_no_poller_witness :
  exists w',
    login Runs.plain_login 1 "bot" "hunter2" "KEY" (Some "c2hhcmVk") None Script.start
      = (Raise AttributeError, w')
    /\ _logged_in (self w') = true
    /\ session_id (self w') = Some "5f3e9a"
    /\ dispatched (io w') = [ev_login]
    /\ _user (self w') = Some Runs.profile
    /\ _confirmation_manager (self w') = true
    /\ tasks (io w') = [].
Proof.
  refine (login_starts_no_poller Runs.plain_login 0 "bot" "hunter2" "KEY"
            (Some "c2hhcmVk") None Script.start
            (Runs.rsa_key "1000") (50595, 65537)%Z (PStr "1000") _ _
            "enc1:hunter2" _
            [("success", PBool true); ("requires_twofactor", PBool false);
             ("login_complete", PBool true);
             ("transfer_urls", PList [PStr "https://store.steampowered.com/login/transfer";
                                      PStr "https://help.steampowered.com/login/transfer"]);
             ("transfer_parameters", Runs.transfer_parameters)] _
            (PBool false) (PBool true) _ _ _ _ _
            (mkReply 200 (Some "text/html; charset=UTF-8") Runs.home_page) "5f3e9a" _ _
            Runs.transfer_parameters
            ["https://store.steampowered.com/login/transfer";
             "https://help.steampowered.com/login/transfer"] _ _ _ _
            (PStr "76561198000000000") Runs.summaries
            (PDict [("players", PList [Runs.profile])]) (PList [Runs.profile])
            Runs.profile Runs.profile _ _ _ _ _ _);
    try reflexivity.
  - eexists. repeat split; try reflexivity; vm_compute; discriminate.
  - eexists. repeat split; try reflexivity; vm_compute; discriminate.
  - intros i a Ha. destruct i as [| [| i]].
    + inversion Ha; subst. exists (PStr "ok").
      eexists. repeat split; try reflexivity; vm_compute; discriminate.
    + inversion Ha; subst. exists (PStr "ok").
      eexists. repeat split; try reflexivity; vm_compute; discriminate.
    + destruct i; discriminate.
  - eexists. repeat split; try reflexivity; vm_compute; discriminate.
Defined.

(** A login answered with a captcha requirement. *)
Lemma login_captcha_needed_witness :
  login Runs.captcha 1 "bot" "hunter2" "KEY" (Some "c2hhcmVk") None Script.start =
    (Raise (LoginError "A captcha code is required, please try again later"),
     login_submitted Runs.captcha "bot" "hunter2" "KEY" (Some "c2hhcmVk") None Script.start
                     "enc1:hunter2" (PStr "1000")).
Proof.
  refine (proj1
    (login_captcha_needed Runs.captcha 0 "bot" "hunter2" "KEY" (Some "c2hhcmVk") None
       Script.start (Runs.rsa_key "1000") (50595, 65537)%Z (PStr "1000") _ _
       "enc1:hunter2" _
       [("success", PBool false); ("requires_twofactor", PBool false);
        ("message",
         PStr "Please verify your humanity by re-entering the characters below.");
        ("captcha_needed", PBool true); ("captcha_gid", PStr "4021")] _
       (PBool false) (PBool true) _ _ _));
    try reflexivity.
  - eexists. repeat split; try reflexivity; vm_compute; discriminate.
  - eexists. repeat split; try reflexivity; vm_compute; discriminate.
Defined.

(** C4 as stated fails when the answer that holds ['captcha_needed'] also
    holds a truthy ['requires_twofactor']: [_send_login] obtains a code and
    submits the login again with a new key, and when the second answer is
    clean the login goes on through the home page, the transfer URLs and
    the profile.  When the answer holds no ['requires_twofactor'] at all,
    [_send_login] raises [HTTPException] around the [KeyError]. *)
Lemma login_captcha_with_two_factor :
  (server Runs.captcha_two_factor 1
          (dologin_request Runs.captcha_two_factor "bot" "enc1:hunter2" None
                           (PStr "1000") 1000) =
     Script.json Runs.captcha_twofactor_reply 200
   /\ in_keys "captcha_needed" Runs.captcha_twofactor_reply = Ok true
   /\ sent (io (snd (login Runs.captcha_two_factor 2 "bot" "hunter2" "KEY"
                           (Some "c2hhcmVk") None Script.start))) =
        [getrsakey_request Runs.captcha_two_factor "bot" 0;
         dologin_request Runs.captcha_two_factor "bot" "enc1:hunter2" None
                         (PStr "1000") 1000;
         getrsakey_request Runs.captcha_two_factor "bot" 2000;
         dologin_request Runs.captcha_two_factor "bot" "enc3:hunter2"
                         (Some "otp2:c2hhcmVk") (PStr "2000") 3000;
         GET "https://steamcommunity.com/my/home/" None;
         POST "https://store.steampowered.com/login/transfer" Runs.transfer_parameters;
         POST "https://help.steampowered.com/login/transfer" Runs.transfer_parameters;
         GET "https://api.steampowered.com/ISteamUser/GetPlayerSummaries/v2"
             (Some (PDict [("key", PStr "KEY");
                           ("steamids", PStr "76561198000000000")]))]
   /\ fst (login Runs.captcha_two_factor 2 "bot" "hunter2" "KEY" (Some "c2hhcmVk") None
                 Script.start) <>
        Raise (LoginError "A captcha code is required, please try again later")
   /\ dispatched (io (snd (login Runs.captcha_two_factor 2 "bot" "hunter2" "KEY"
                                 (Some "c2hhcmVk") None Script.start))) = [ev_login])
  /\ (server Runs.captcha_bare 1
             (dologin_request Runs.captcha_bare "bot" "enc1:hunter2" None
                              (PStr "1000") 1000) =
        Script.json Runs.captcha_bare_reply 200
      /\ in_keys "captcha_needed" Runs.captcha_bare_reply = Ok true
      /\ fst (login Runs.captcha_bare 1 "bot" "hunter2" "KEY" (Some "c2hhcmVk") None
                    Script.start) =
           Raise (HTTPExceptionOf (KeyError (PStr "requires_twofactor")))).
Proof.
  split.
  - split; [reflexivity |]. split; [reflexivity |].
    split; [vm_compute; reflexivity |].
    split; [vm_compute; discriminate | vm_compute; reflexivity].
  - split; [reflexivity |]. split; [reflexivity |]. vm_compute. reflexivity.
Qed.

(** ** Further properties of the request loop *)

Section RequestMore.

Variable E : Env.

Lemma tick_backoff rq ds w : tick (backoff rq ds w) = tick w + List.length ds.
Proof.
  unfold tick. rewrite sent_backoff, length_app, repeat_length. reflexivity.
Qed.

Lemma length_delays a k : List.length (delays a k) = k.
Proof. unfold delays. now rewrite length_map, length_seq. Qed.

(** After [k] answers with status 500 or 502 the loop is in its pass [k]. *)
Lemma request_reaches_pass rq (rs : nat -> reply) (ds : nat -> pyval) (k : nat) w :
  k < 5 ->
  (forall j, j < k -> server E (tick w + j) rq = inr (rs j) /\ retryable E (rs j) (ds j)) ->
  exists last rest,
    request E rq w =
    match request_body E rq k last (backoff rq (delays 0 k) w) with
    | (Ok (Next s'), w') => for_in rest s' (request_body E rq) request_exhausted w'
    | (Ok (Return a), w') => (Ok a, w')
    | (Raise e, w') => (Raise e, w')
    | (OutOfFuel, w') => (OutOfFuel, w')
    end
    /\ tick (backoff rq (delays 0 k) w) = tick w + k.
Proof.
  intros Hk H. unfold request.
  rewrite (request_loop_retries E rq rs ds (tick w) k 0 5 None w);
    [| lia | lia | intros j Hj; apply H; lia].
  cbn [Nat.add]. destruct (5 - k) as [| n] eqn:Hn; [lia |].
  cbn [seq]. do 2 eexists. split; [apply for_in_cons |].
  now rewrite tick_backoff, length_delays.
Qed.

(** X1.  A request whose first [k < 5] answers are 500 or 502 responses
    and whose next answer is a success returns the body of that answer: it
    has slept 1, 3, ... seconds between the attempts and has sent the
    request [k + 1] times. *)
Theorem request_recovers (rq : http_request) (w : world)
    (rs : nat -> reply) (ds : nat -> pyval) (k : nat) (v : pyval) :
  k < 5 ->
  (forall j, j < k -> server E (tick w + j) rq = inr (rs j) /\ retryable E (rs j) (ds j)) ->
  answers E (tick w + k) rq v ->
  request E rq w = (Ok v, with_io (log_sent rq) (backoff rq (delays 0 k) w))
  /\ sent (io (with_io (log_sent rq) (backoff rq (delays 0 k) w))) =
       sent (io w) ++ repeat rq (S k)
  /\ slept (io (with_io (log_sent rq) (backoff rq (delays 0 k) w))) =
       slept (io w) ++ delays 0 k.
Proof.
  intros Hk H Ha.
  destruct (request_reaches_pass rq rs ds k w Hk H) as (last & rest & -> & Ht).
  rewrite <- Ht in Ha. rewrite (request_body_ok E rq k last _ v Ha).
  split; [reflexivity |]. cbn [with_io io log_sent sent slept].
  rewrite sent_backoff, slept_backoff, length_delays, <- app_assoc.
  split; [| reflexivity]. f_equal.
  change [rq] with (repeat rq 1). rewrite <- repeat_app. f_equal. lia.
Qed.

(** One pass either sends, sleeps and goes on, or sends and ends the loop. *)
Lemma request_body_worlds rq tries last w :
  (exists s, request_body E rq tries last w =
             (Ok (Next s), retried rq (1 + Z.of_nat tries * 2) w))
  \/ (exists r, request_body E rq tries last w = (r, with_io (log_sent rq) w)
                /\ forall s, r <> Ok (Next s)).
Proof.
  unfold request_body, bind, session_request, lift, sleep, modify, raise, ret.
  destruct (server E (tick w) rq) as [e | r];
    [right; eexists; split; [reflexivity | discriminate] |].
  destruct (json_or_text E r) as [d | e |];
    [| right; eexists; split; [reflexivity | discriminate]
     | right; eexists; split; [reflexivity | discriminate]].
  destruct (py_eqb d (PStr access_denied));
    [right; eexists; split; [reflexivity | discriminate] |].
  destruct ((status r <? 300)%Z && (status r >=? 200)%Z);
    [right; eexists; split; [reflexivity | discriminate] |].
  destruct (status r =? 429)%Z;
    [right; eexists; split; [reflexivity | discriminate] |].
  destruct ((status r =? 500)%Z || (status r =? 502)%Z);
    [left; eexists; reflexivity |].
  destruct (status r =? 403)%Z;
    [right; eexists; split; [reflexivity | discriminate] |].
  destruct (status r =? 404)%Z; right; eexists; split; try reflexivity; discriminate.
Qed.

Lemma delays_cons a k : delays a (S k) = (1 + Z.of_nat a * 2)%Z :: delays (S a) k.
Proof. reflexivity. Qed.

Lemma request_loop_bounded rq m : forall a last w,
  exists n,
    n <= m /\ (1 <= m -> 1 <= n)
    /\ sent (io (snd (for_in (seq a m) last (request_body E rq) request_exhausted w))) =
         sent (io w) ++ repeat rq n
    /\ (slept (io (snd (for_in (seq a m) last (request_body E rq) request_exhausted w))) =
          slept (io w) ++ delays a n
        \/ slept (io (snd (for_in (seq a m) last (request_body E rq) request_exhausted w))) =
           slept (io w) ++ delays a (n - 1)).
Proof.
  induction m as [| m IH]; intros a last w.
  - exists 0. cbn [seq for_in]. unfold request_exhausted.
    destruct last as [[r d] |]; cbn [snd raise]; rewrite !app_nil_r;
      (split; [lia | split; [lia | split; [reflexivity | left; reflexivity]]]).
  - cbn [seq]. rewrite for_in_cons.
    destruct (request_body_worlds rq a last w) as [[s ->] | (r & -> & Hr)].
    + destruct (IH (S a) s (retried rq (1 + Z.of_nat a * 2) w)) as (n & Hn & _ & Hs & Hz).
      exists (S n). split; [lia |]. split; [lia |]. rewrite Hs. split.
      * cbn [retried with_io io log_sent log_slept sent repeat].
        now rewrite <- app_assoc.
      * cbn [retried with_io io log_sent log_slept slept] in Hz.
        rewrite <- !app_assoc in Hz. cbn [app] in Hz.
        destruct Hz as [Hz | Hz]; rewrite Hz.
        -- left. now rewrite delays_cons.
        -- destruct n as [| n]; [left | right].
           ++ reflexivity.
           ++ replace (S n - 1) with n by lia. replace (S (S n) - 1) with (S n) by lia.
              now rewrite delays_cons.
    + exists 1. split; [lia |]. split; [lia |].
      assert (Hw : snd (match (r, with_io (log_sent rq) w) with
                        | (Ok (Next s'), w') =>
                            for_in (seq (S a) m) s' (request_body E rq) request_exhausted w'
                        | (Ok (Return a0), w') => (Ok a0, w')
                        | (Raise e, w') => (Raise e, w')
                        | (OutOfFuel, w') => (OutOfFuel, w')
                        end) = with_io (log_sent rq) w).
      { destruct r as [[s | v] | e |]; try reflexivity. now destruct (Hr s). }
      rewrite Hw. cbn [with_io io log_sent sent slept repeat Nat.sub].
      split; [reflexivity | right]. unfold delays. cbn [seq map]. now rewrite app_nil_r.
Qed.

(** X2.  Whatever the server does, one call of [request] sends the same
    request between one and five times and nothing else, sleeps 1, 3, 5, ...
    seconds after the attempts that met a 500 or 502, and leaves the client
    object and every other trace as they were. *)
Theorem request_sends_one_to_five (rq : http_request) (w : world) :
  exists n,
    1 <= n <= 5
    /\ sent (io (snd (request E rq w))) = sent (io w) ++ repeat rq n
    /\ (slept (io (snd (request E rq w))) = slept (io w) ++ delays 0 n
        \/ slept (io (snd (request E rq w))) = slept (io w) ++ delays 0 (n - 1))
    /\ traffic_only w (snd (request E rq w)).
Proof.
  destruct (request_loop_bounded rq 5 0 None w) as (n & Hn & H1 & Hs & Hz).
  exists n. split; [split; [apply H1; lia | exact Hn] |].
  split; [exact Hs |]. split; [exact Hz | apply request_quiet].
Qed.

(** X3.  A status that is neither a success nor 500 or 502 ends the
    request at that response, with no sleep after it: 429 raises
    [TooManyRequests], 403 [Forbidden], 404 [NotFound] and any other status
    [HTTPException], the last three carrying the response and its body. *)
Theorem request_fails_on_status (rq : http_request) (w : world)
    (rs : nat -> reply) (ds : nat -> pyval) (k : nat) (r : reply) (d : pyval) :
  k < 5 ->
  (forall j, j < k -> server E (tick w + j) rq = inr (rs j) /\ retryable E (rs j) (ds j)) ->
  server E (tick w + k) rq = inr r ->
  json_or_text E r = Ok d ->
  py_eqb d (PStr access_denied) = false ->
  (status r < 200 \/ 300 <= status r)%Z ->
  status r <> 500%Z -> status r <> 502%Z ->
  request E rq w =
    (Raise (if (status r =? 429)%Z
            then TooManyRequests "We are being rate limited try again soon"
            else if (status r =? 403)%Z then Forbidden r d
            else if (status r =? 404)%Z then NotFound r d
            else HTTPException r d),
     with_io (log_sent rq) (backoff rq (delays 0 k) w)).
Proof.
  intros Hk H Hs Hj Hd Hstatus H500 H502.
  destruct (request_reaches_pass rq rs ds k w Hk H) as (last & rest & -> & Ht).
  rewrite <- Ht in Hs.
  unfold request_body, bind, session_request, lift. rewrite Hs, Hj, Hd.
  replace ((status r <? 300)%Z && (status r >=? 200)%Z) with false.
  2:{ symmetry. apply andb_false_iff.
      destruct Hstatus; [right; rewrite Z.geb_leb; apply Z.leb_gt; lia
                        | left; apply Z.ltb_ge; lia]. }
  replace ((status r =? 500)%Z || (status r =? 502)%Z) with false.
  2:{ symmetry. apply orb_false_iff. split; apply Z.eqb_neq; assumption. }
  destruct (status r =? 429)%Z; [reflexivity |].
  destruct (status r =? 403)%Z; [reflexivity |].
  destruct (status r =? 404)%Z; reflexivity.
Qed.

(** X4.  A response that cannot be read ends the request at once, whatever
    its status: without a content type [request] raises [KeyError], and with
    a JSON content type and a body that is no JSON it raises
    [JSONDecodeError]; neither is retried. *)
Theorem request_unreadable_response (rq : http_request) (w : world)
    (rs : nat -> reply) (ds : nat -> pyval) (k : nat) (r : reply) :
  k < 5 ->
  (forall j, j < k -> server E (tick w + j) rq = inr (rs j) /\ retryable E (rs j) (ds j)) ->
  server E (tick w + k) rq = inr r ->
  (content_type r = None ->
   request E rq w =
     (Raise (KeyError (PStr "content-type")),
      with_io (log_sent rq) (backoff rq (delays 0 k) w)))
  /\ (forall ct, content_type r = Some ct -> contains "application/json" ct = true ->
                 json_loads E (text r) = None ->
      request E rq w =
        (Raise JSONDecodeError, with_io (log_sent rq) (backoff rq (delays 0 k) w))).
Proof.
  intros Hk H Hs.
  destruct (request_reaches_pass rq rs ds k w Hk H) as (last & rest & -> & Ht).
  rewrite <- Ht in Hs.
  unfold request_body, bind, session_request, lift, json_or_text. rewrite Hs.
  split.
  - intros ->. reflexivity.
  - intros ct -> -> ->. reflexivity.
Qed.

End RequestMore.


(** Two server errors and a success. *)
Lemma request_recovers_witness :
  request Traffic.flaky Runs.probe Script.start =
    (Ok (Runs.offers 2),
     with_io (log_sent Runs.probe) (backoff Runs.probe [1; 3]%Z Script.start)).
Proof.
  apply (request_recovers Traffic.flaky Runs.probe Script.start
           (fun j => match j with
                     | O => mkReply 500 (Some "text/html; charset=UTF-8")
                                    "<h1>500 Internal Server Error</h1>"
                     | S _ => mkReply 502 (Some "text/html; charset=UTF-8")
                                      "<h1>502 Bad Gateway</h1>"
                     end)
           (fun j => match j with
                     | O => PStr "<h1>500 Internal Server Error</h1>"
                     | S _ => PStr "<h1>502 Bad Gateway</h1>"
                     end)
           2 (Runs.offers 2)).
  - lia.
  - intros j Hj. destruct j as [| [| j]]; [| | lia];
      (split; [reflexivity | split; [auto | split; reflexivity]]).
  - eexists. repeat split; try reflexivity; vm_compute; discriminate.
Defined.

(** A server that refuses with status 403. *)
Lemma request_fails_on_status_witness :
  request Traffic.forbidden Runs.probe Script.start =
    (Raise (Forbidden (mkReply 403 (Some "text/html; charset=UTF-8") "<h1>Forbidden</h1>")
                      (PStr "<h1>Forbidden</h1>")),
     with_io (log_sent Runs.probe) Script.start).
Proof.
  apply (request_fails_on_status Traffic.forbidden Runs.probe Script.start
           (fun _ => mkReply 403 None EmptyString) (fun _ => PNone) 0
           (mkReply 403 (Some "text/html; charset=UTF-8") "<h1>Forbidden</h1>")
           (PStr "<h1>Forbidden</h1>"));
    try reflexivity; try (cbn; lia); try discriminate.
Defined.

(** A success status without a content type. *)
Lemma request_unreadable_response_witness :
  request Traffic.untyped Runs.probe Script.start =
    (Raise (KeyError (PStr "content-type")), with_io (log_sent Runs.probe) Script.start).
Proof.
  apply (request_unreadable_response Traffic.untyped Runs.probe Script.start
           (fun _ => mkReply 200 None EmptyString) (fun _ => PNone) 0
           (mkReply 200 None "ok"));
    [lia | intros j Hj; lia | reflexivity | reflexivity].
Defined.

(** ** Further properties of the RSA key fetch *)

Section KeyFetchMore.

Variable E : Env.

(** One call of the method on a response that carries a key. *)
Lemma fetch_rsa_params_from_reads budget c w v key ts :
  answers E (tick w) (getrsakey_request E (username (self w)) (time_ms E (tick w))) v ->
  read_rsa_key E v = Ok (key, ts) ->
  fetch_rsa_params_from E (S budget) c w = (Ok (key, ts), key_asked E w).
Proof.
  intros Ha Hr. cbn [fetch_rsa_params_from].
  unfold bind at 1, get. unfold bind at 1, now at 1. unfold bind at 1, catch at 1.
  rewrite (request_answered E _ w v Ha).
  unfold catch, lift. rewrite Hr. reflexivity.
Qed.

Lemma fetch_rsa_params_from_recovers k : forall budget c w v key ts,
  k <= budget -> c + k <= maximum_repetitions ->
  (forall j, j < k ->
     exists v',
       answers E (tick w + j)
               (getrsakey_request E (username (self w)) (time_ms E (tick w + j))) v'
       /\ lacks_field E v' = true) ->
  answers E (tick w + k)
          (getrsakey_request E (username (self w)) (time_ms E (tick w + k))) v ->
  read_rsa_key E v = Ok (key, ts) ->
  fetch_rsa_params_from E (S budget) c w =
    (Ok (key, ts), Nat.iter (S k) (key_asked E) w).
Proof.
  induction k as [| k IH]; intros budget c w v key ts Hb Hc H Ha Hr.
  - rewrite Nat.add_0_r in Ha. now apply fetch_rsa_params_from_reads with v.
  - destruct budget as [| budget]; [lia |].
    destruct (H 0 ltac:(lia)) as (v0 & A0 & L0). rewrite Nat.add_0_r in A0.
    rewrite (fetch_rsa_params_step E _ _ _ v0 A0 L0).
    replace (c <? maximum_repetitions)%nat with true
      by (symmetry; apply Nat.ltb_lt; lia).
    rewrite (Nat.iter_succ_r (S k)). apply IH with v; [lia | lia | | | exact Hr].
    + intros j Hj. destruct (H (S j) ltac:(lia)) as (v' & A' & L').
      exists v'. split; [| exact L'].
      rewrite tick_key_asked. cbn [key_asked with_io self].
      now replace (S (tick w) + j) with (tick w + S j) by lia.
    + rewrite tick_key_asked. cbn [key_asked with_io self].
      now replace (S (tick w) + k) with (tick w + S k) by lia.
Qed.

(** X5.  When up to five key responses lack a field and the next one
    carries the modulus and the exponent in base 16 and a timestamp,
    [_fetch_rsa_params] returns that key and timestamp after [k + 1]
    requests, without closing the session. *)
Theorem fetch_rsa_params_recovers (w : world) (k : nat)
    (d : list (string * pyval)) (m e : string) (rsa_mod rsa_exp : Z) (ts : pyval) :
  k <= 5 ->
  (forall j, j < k ->
     exists v',
       answers E (tick w + j)
               (getrsakey_request E (username (self w)) (time_ms E (tick w + j))) v'
       /\ lacks_field E v' = true) ->
  answers E (tick w + k)
          (getrsakey_request E (username (self w)) (time_ms E (tick w + k))) (PDict d) ->
  assoc "publickey_mod" d = Some (PStr m) -> int16 E m = Some rsa_mod ->
  assoc "publickey_exp" d = Some (PStr e) -> int16 E e = Some rsa_exp ->
  assoc "timestamp" d = Some ts ->
  _fetch_rsa_params E 0 w =
    (Ok ((rsa_mod, rsa_exp), ts), Nat.iter (S k) (key_asked E) w)
  /\ sent (io (Nat.iter (S k) (key_asked E) w)) =
       sent (io w) ++
       map (fun j => getrsakey_request E (username (self w)) (time_ms E (tick w + j)))
           (seq 0 (S k))
  /\ closed (io (Nat.iter (S k) (key_asked E) w)) = closed (io w).
Proof.
  intros Hk H Ha Hm Hzm He Hze Hts. split; [| split].
  - unfold _fetch_rsa_params.
    apply fetch_rsa_params_from_recovers with (PDict d);
      [unfold maximum_repetitions; lia | unfold maximum_repetitions; lia
      | exact H | exact Ha |].
    unfold read_rsa_key. cbn [getitem]. rewrite Hm. cbn [result_bind int_16].
    rewrite Hzm. cbn [result_bind]. rewrite He. cbn [result_bind int_16].
    rewrite Hze. cbn [result_bind]. rewrite Hts. reflexivity.
  - apply sent_key_asked_iter.
  - generalize (S k). intro n. induction n as [| n IH]; [reflexivity | exact IH].
Qed.

(** X6.  When the key request fails, whatever the reason,
    [_fetch_rsa_params] closes the session and raises [LoginError] with the
    failure as its argument; it does not ask again. *)
Theorem fetch_rsa_params_request_fails (c : nat) (w w1 : world) (e : exn) :
  request E (getrsakey_request E (username (self w)) (time_ms E (tick w))) w
    = (Raise e, w1) ->
  _fetch_rsa_params E c w = (Raise (LoginErrorOf e), with_io log_closed w1)
  /\ closed (io (with_io log_closed w1)) = true
  /\ sent (io (with_io log_closed w1)) = sent (io w1).
Proof.
  intro H. split; [| split; reflexivity].
  unfold _fetch_rsa_params. cbn [fetch_rsa_params_from].
  unfold bind at 1, get. unfold bind at 1, now at 1. unfold bind at 1, catch at 1.
  rewrite H. reflexivity.
Qed.

(** X7.  A key response whose modulus is present but is no base-16 string
    is not treated as a missing field: [int] raises the [ValueError] of an
    invalid literal (or [TypeError] when the field is no string), which
    leaves [_fetch_rsa_params] after a single request. *)
Theorem fetch_rsa_params_bad_modulus (w : world) (d : list (string * pyval)) (x : pyval) :
  answers E (tick w) (getrsakey_request E (username (self w)) (time_ms E (tick w)))
          (PDict d) ->
  assoc "publickey_mod" d = Some x ->
  match x with PStr m => int16 E m = None | _ => True end ->
  _fetch_rsa_params E 0 w =
    (Raise (match x with
            | PStr m => InvalidLiteral m
            | _ => TypeError
            end),
     key_asked E w).
Proof.
  intros Ha Hm Hx. unfold _fetch_rsa_params. cbn [fetch_rsa_params_from].
  unfold bind at 1, get. unfold bind at 1, now at 1. unfold bind at 1, catch at 1.
  rewrite (request_answered E _ w _ Ha).
  unfold catch, lift, read_rsa_key. cbn [getitem]. rewrite Hm. cbn [result_bind].
  destruct x as [| b | z | m | l | d']; cbn [int_16 result_bind is_KeyError];
    try reflexivity.
  rewrite Hx. reflexivity.
Qed.

Lemma request_tick_bound rq w :
  tick w + 1 <= tick (snd (request E rq w)) <= tick w + 5.
Proof.
  destruct (request_loop_bounded E rq 5 0 None w) as (n & Hn & H1 & Hs & _).
  unfold tick, request. rewrite Hs, length_app, repeat_length.
  specialize (H1 ltac:(lia)). lia.
Qed.

Lemma fetch_rsa_params_from_tick_bound budget : forall c w,
  tick (snd (fetch_rsa_params_from E budget c w)) <= tick w + 5 * budget.
Proof.
  induction budget as [| budget IH]; intros c w; [cbn; lia |].
  cbn [fetch_rsa_params_from].
  unfold bind at 1, get. unfold bind at 1, now at 1. unfold bind at 1, catch at 1.
  pose proof (request_tick_bound
                (getrsakey_request E (username (self w)) (time_ms E (tick w))) w) as Hr.
  destruct (request E _ w) as [[v | e |] w1]; cbn [snd] in *.
  - unfold catch, lift.
    destruct (read_rsa_key E v) as [key | e |]; cbn [snd]; try lia.
    destruct (is_KeyError e); [| cbn; lia].
    destruct (c <? maximum_repetitions)%nat; [| cbn; lia].
    specialize (IH (S c) w1). lia.
  - cbn. unfold tick in *. cbn. lia.
  - lia.
Qed.

(** X8.  One call of [_fetch_rsa_params] sends at least one request and at
    most thirty: six calls of [request] of at most five attempts each. *)
Theorem fetch_rsa_params_sends_at_most_thirty (w : world) :
  tick w + 1 <= tick (snd (_fetch_rsa_params E 0 w)) <= tick w + 30.
Proof.
  split.
  - destruct (fetch_rsa_params_sends_first E 0 w) as [more H].
    unfold tick. rewrite H, length_app. cbn [List.length]. lia.
  - pose proof (fetch_rsa_params_from_tick_bound 6 0 w) as H.
    unfold _fetch_rsa_params. cbn [maximum_repetitions Nat.sub]. lia.
Qed.

End KeyFetchMore.

(** Two responses without a key and a third with one. *)
Lemma fetch_rsa_params_recovers_witness :
  _fetch_rsa_params Traffic.key_at_third 0 Runs.bot =
    (Ok ((50595, 65537)%Z, PStr "1000"), Nat.iter 3 (key_asked Traffic.key_at_third) Runs.bot).
Proof.
  apply (fetch_rsa_params_recovers Traffic.key_at_third Runs.bot 2
           [("success", PBool true); ("publickey_mod", PStr "c5a3");
            ("publickey_exp", PStr "010001"); ("timestamp", PStr "1000");
            ("token_gid", PStr "2f1a")]
           "c5a3" "010001" 50595 65537 (PStr "1000"));
    try reflexivity; try lia.
  - intros j Hj. exists (PDict [("success", PBool false)]). split; [| reflexivity].
    destruct j as [| [| j]]; [| | lia];
      (eexists; repeat split; try reflexivity; vm_compute; discriminate).
  - eexists. repeat split; try reflexivity; vm_compute; discriminate.
Defined.

(** A server that refuses the key request with status 403. *)
Lemma fetch_rsa_params_request_fails_witness :
  _fetch_rsa_params Traffic.forbidden 0 Runs.bot =
    (Raise (LoginErrorOf
              (Forbidden (mkReply 403 (Some "text/html; charset=UTF-8") "<h1>Forbidden</h1>")
                         (PStr "<h1>Forbidden</h1>"))),
     with_io log_closed
             (with_io (log_sent (getrsakey_request Traffic.forbidden "bot" 0)) Runs.bot)).
Proof.
  apply (fetch_rsa_params_request_fails Traffic.forbidden 0 Runs.bot).
  reflexivity.
Defined.

(** A modulus that is no hexadecimal number. *)
Lemma fetch_rsa_params_bad_modulus_witness :
  _fetch_rsa_params Traffic.garbled_key 0 Runs.bot =
    (Raise (InvalidLiteral "xyz"), key_asked Traffic.garbled_key Runs.bot).
Proof.
  apply (fetch_rsa_params_bad_modulus Traffic.garbled_key Runs.bot
           [("success", PBool true); ("publickey_mod", PStr "xyz");
            ("publickey_exp", PStr "010001"); ("timestamp", PStr "1000")]
           (PStr "xyz"));
    try reflexivity.
  eexists. repeat split; try reflexivity; vm_compute; discriminate.
Defined.

(** ** Further properties of [login] *)

Section LoginMore.

Variable E : Env.

Lemma no_login_effect_refl w : no_login_effect w w.
Proof. split; reflexivity. Qed.

Lemma no_login_effect_trans a b c :
  no_login_effect a b -> no_login_effect b c -> no_login_effect a c.
Proof. intros [] []; split; congruence. Qed.

Lemma quiet_no_login_effect {A : Type} (m : M A) :
  quiet m -> respects no_login_effect m.
Proof. intros H w. destruct (H w) as [Hs Hd Ht _ _ _ _]. split; congruence. Qed.


(** Decompose a computation that sends requests and updates attributes
    other than [_logged_in]. *)
Ltac no_login_effect_tac :=
  repeat first [ apply quiet_no_login_effect, request_quiet
               | apply quiet_no_login_effect, session_request_quiet
               | (intro w; split; reflexivity)
               | frame_step no_login_effect_refl no_login_effect_trans ].

Lemma assert_valid_credentials_no_login_effect login_response :
  respects no_login_effect (_assert_valid_credentials E login_response).
Proof. unfold _assert_valid_credentials. no_login_effect_tac. Qed.

Lemma perform_redirects_no_login_effect response_dict :
  respects no_login_effect (_perform_redirects E response_dict).
Proof. unfold _perform_redirects, redirect_body. no_login_effect_tac. Qed.

Lemma fetch_profile_no_login_effect user_id64 :
  respects no_login_effect (fetch_profile E user_id64).
Proof. unfold fetch_profile. no_login_effect_tac. Qed.


End LoginMore.

Section LoginFailures.

Variable E : Env.
Variable fuel : nat.
Variables (user pass key : string) (shared identity : option string) (w : world).

(** The key is fetched and the submission is answered with a JSON object
    that holds a falsy ['requires_twofactor'] and no key ['captcha_needed']. *)
Variables (key_response : pyval) (rsa_key : Z * Z) (rsa_timestamp : pyval).
Hypothesis key_answered :
  answers E (tick w) (getrsakey_request E user (time_ms E (tick w))) key_response.
Hypothesis key_read : read_rsa_key E key_response = Ok (rsa_key, rsa_timestamp).
Variable encrypted_password : string.
Hypothesis password_encrypted :
  rsa_encrypt_b64 E (1 + tick w) pass rsa_key = inr encrypted_password.
Variable login_response : list (string * pyval).
Hypothesis login_answered :
  answers E (1 + tick w)
          (dologin_request E user encrypted_password (_one_time_code (self w))
                           rsa_timestamp (time_ms E (1 + tick w)))
          (PDict login_response).
Variables (twofactor success : pyval).
Hypothesis twofactor_present : assoc "requires_twofactor" login_response = Some twofactor.
Hypothesis no_twofactor : truthy twofactor = false.
Hypothesis no_captcha : assoc "captcha_needed" login_response = None.
Hypothesis success_present : assoc "success" login_response = Some success.

Local Abbreviation submitted :=
  (login_submitted E user pass key shared identity w encrypted_password rsa_timestamp).

Lemma login_reaches_credentials_check :
  login E (S fuel) user pass key shared identity w =
  bind (_assert_valid_credentials E (PDict login_response))
       (fun _ =>
          _perform_redirects E (PDict login_response) ;;
          modify (with_self (set_logged_in true)) ;;
          dispatch ev_login ;;
          transfer_parameters <-
            lift (getitem (PDict login_response) (PStr "transfer_parameters")) ;;
          steamid <- lift (getitem transfer_parameters (PStr "steamid")) ;;
          data <- fetch_profile E steamid ;;
          u <- of_sum (ClientUser E data) ;;
          modify (with_self (set_user (Some u))) ;;
          modify (with_self (set_confirmation_manager true)) ;;
          coroutine <- _poll_notifications ;;
          create_task coroutine)
       submitted.
Proof.
  unfold login. unfold bind at 1, modify at 1. unfold bind at 1.
  fold (credentials_set user pass key shared identity w).
  rewrite (send_login_request_ok E fuel user pass key shared identity w key_response
             rsa_key rsa_timestamp key_answered key_read encrypted_password
             password_encrypted login_response login_answered twofactor
             twofactor_present no_twofactor).
  unfold bind at 1, lift at 1. cbn [in_keys]. rewrite no_captcha. reflexivity.
Qed.

(** X10.  When the submission is answered with a falsy ['success'], [login]
    closes the session and raises [InvalidCredentials] with the message of
    the server: the home page is not requested, the client is not logged in
    and nothing is dispatched. *)
Theorem login_invalid_credentials (message : pyval) :
  truthy success = false ->
  assoc "message" login_response = Some message ->
  login E (S fuel) user pass key shared identity w =
    (Raise (InvalidCredentials message), with_io log_closed submitted)
  /\ tick (with_io log_closed submitted) = 2 + tick w
  /\ closed (io (with_io log_closed submitted)) = true
  /\ no_login_effect w (with_io log_closed submitted).
Proof.
  intros Hfalse Hmessage. split; [| split; [| split; [reflexivity | split; reflexivity]]].
  - rewrite login_reaches_credentials_check.
    unfold bind at 1, _assert_valid_credentials.
    unfold bind at 1, lift at 1. cbn [getitem]. rewrite success_present, Hfalse.
    cbn [negb]. unfold bind at 1, session_close, modify.
    unfold bind at 1, lift at 1. cbn [getitem]. rewrite Hmessage. reflexivity.
  - change (tick (with_io log_closed submitted)) with (tick submitted). apply tick_wB.
Qed.

(** The home page carries a session id. *)
Variables (home : reply) (sid : string).
Hypothesis valid_credentials : truthy success = true.
Hypothesis home_answered :
  server E (2 + tick w) (GET (URL_COMMUNITY E ++ "/my/home/") None) = inr home.
Hypothesis sid_found : search_sessionID (text home) = Some sid.

Local Abbreviation stored :=
  (session_id_stored E user pass key shared identity w encrypted_password rsa_timestamp sid).

Lemma login_reaches_redirects :
  login E (S fuel) user pass key shared identity w =
  bind (_perform_redirects E (PDict login_response))
       (fun _ =>
          modify (with_self (set_logged_in true)) ;;
          dispatch ev_login ;;
          transfer_parameters <-
            lift (getitem (PDict login_response) (PStr "transfer_parameters")) ;;
          steamid <- lift (getitem transfer_parameters (PStr "steamid")) ;;
          data <- fetch_profile E steamid ;;
          u <- of_sum (ClientUser E data) ;;
          modify (with_self (set_user (Some u))) ;;
          modify (with_self (set_confirmation_manager true)) ;;
          coroutine <- _poll_notifications ;;
          create_task coroutine)
       stored.
Proof.
  rewrite login_reaches_credentials_check. unfold bind at 1.
  rewrite (assert_valid_credentials_ok E login_response success success_present
             valid_credentials home sid sid_found submitted);
    [reflexivity | rewrite tick_wB; exact home_answered].
Qed.

(** X11.  When the accepted submission carries no transfer parameters (the
    key is missing or holds [None]), [login] raises [HTTPException]: by then
    the session id of the home page is stored in the client, which is not
    logged in and has dispatched nothing. *)
Theorem login_without_transfer_parameters :
  match assoc "transfer_parameters" login_response with
  | None => True
  | Some parameters => is_none parameters = true
  end ->
  login E (S fuel) user pass key shared identity w =
    (Raise (HTTPExceptionMsg
              ("Cannot perform redirects after login, no parameters fetched. "
               ++ "The Steam API likely is down, please try again later.")),
     stored)
  /\ session_id (self stored) = Some sid
  /\ no_login_effect w stored.
Proof.
  intro H. split; [| split; [reflexivity | split; reflexivity]].
  rewrite login_reaches_redirects. unfold bind at 1, _perform_redirects.
  unfold bind at 1, lift at 1. cbn [dict_get].
  destruct (assoc "transfer_parameters" login_response) as [p |].
  - rewrite H. reflexivity.
  - reflexivity.
Qed.

(** Every transfer URL accepts the transfer parameters. *)
Variables (parameters : pyval) (urls : list string) (steamid : pyval).
Hypothesis parameters_present :
  assoc "transfer_parameters" login_response = Some parameters.
Hypothesis parameters_given : is_none parameters = false.
Hypothesis urls_present :
  assoc "transfer_urls" login_response = Some (PList (map PStr urls)).
Hypothesis redirects_answered :
  forall i u, nth_error urls i = Some u ->
    exists v, answers E (i + (3 + tick w)) (POST u parameters) v.
Hypothesis steamid_present : getitem parameters (PStr "steamid") = Ok steamid.

Local Abbreviation announced :=
  (login_dispatched E user pass key shared identity w encrypted_password rsa_timestamp sid
                    parameters urls).

(** X12.  When the profile request fails after the redirects went through,
    [login] raises that failure with the client already logged in and the
    ['login'] event dispatched, but without user, confirmation manager or
    poller task. *)
Theorem login_profile_request_fails (e : exn) (w' : world) :
  request E (GET (Route E "ISteamUser" "GetPlayerSummaries" "v2")
                 (Some (PDict [("key", PStr key); ("steamids", steamid)]))) announced
    = (Raise e, w') ->
  login E (S fuel) user pass key shared identity w = (Raise e, w')
  /\ _logged_in (self w') = true
  /\ dispatched (io w') = dispatched (io w) ++ [ev_login]
  /\ tasks (io w') = tasks (io w)
  /\ _user (self w') = _user (self w)
  /\ _confirmation_manager (self w') = _confirmation_manager (self w).
Proof.
  intro Hreq.
  pose proof (traffic_only_redirected parameters urls stored) as [Hself Hd Ht _ _ _ _].
  assert (Hkey : api_key (self announced) = key).
  { unfold login_dispatched. cbn [with_io with_self self set_logged_in api_key].
    rewrite Hself. reflexivity. }
  split.
  - rewrite login_reaches_redirects. unfold bind at 1.
    rewrite (perform_redirects_ok E login_response parameters urls parameters_present
               parameters_given urls_present stored);
      [| intros i a Ha; rewrite tick_wC; now apply redirects_answered].
    unfold bind at 1, modify at 1. unfold bind at 1, dispatch at 1, modify at 1.
    fold announced. unfold bind at 1, lift at 1. cbn [getitem].
    rewrite parameters_present. unfold bind at 1, lift at 1. rewrite steamid_present.
    unfold bind at 1, fetch_profile. unfold bind at 1, get. unfold bind at 1.
    rewrite Hkey, Hreq. reflexivity.
  - pose proof (request_quiet E
                  (GET (Route E "ISteamUser" "GetPlayerSummaries" "v2")
                       (Some (PDict [("key", PStr key); ("steamids", steamid)])))
                  announced) as Hq.
    rewrite Hreq in Hq.
    destruct Hq as [Qs Qd Qt _ _ _ _]. cbn [snd] in Qs, Qd, Qt.
    rewrite Qs, Qd, Qt. unfold login_dispatched.
    cbn [with_io with_self self io set_logged_in _logged_in _user _confirmation_manager
         log_dispatched dispatched tasks].
    rewrite Hself, Hd, Ht. repeat split; reflexivity.
Qed.

End LoginFailures.

(** Discharge the hypotheses of a scripted run. *)
Ltac scripted :=
  first
    [ reflexivity
    | solve [eexists; repeat split; try reflexivity; vm_compute; discriminate] ].

(** A login with a wrong password. *)
Lemma login_invalid_credentials_witness :
  login Traffic.wrong_password 1 "bot" "hunter2" "KEY" (Some "c2hhcmVk") None Script.start =
    (Raise (InvalidCredentials
              (PStr "The account name or password that you have entered is incorrect.")),
     with_io log_closed
       (login_submitted Traffic.wrong_password "bot" "hunter2" "KEY" (Some "c2hhcmVk") None
                        Script.start "enc1:hunter2" (PStr "1000"))).
Proof.
  refine (proj1
    (login_invalid_credentials Traffic.wrong_password 0 "bot" "hunter2" "KEY"
       (Some "c2hhcmVk") None Script.start
       (Runs.rsa_key "1000") (50595, 65537)%Z (PStr "1000") _ _
       "enc1:hunter2" _
       [("success", PBool false); ("requires_twofactor", PBool false);
        ("message",
         PStr "The account name or password that you have entered is incorrect.")] _
       (PBool false) (PBool false) _ _ _ _
       (PStr "The account name or password that you have entered is incorrect.") _ _));
    scripted.
Defined.

(** An accepted login without transfer parameters. *)
Lemma login_without_transfer_parameters_witness :
  fst (login Traffic.no_transfer 1 "bot" "hunter2" "KEY" (Some "c2hhcmVk") None Script.start) =
    Raise (HTTPExceptionMsg
             ("Cannot perform redirects after login, no parameters fetched. "
              ++ "The Steam API likely is down, please try again later."))
  /\ session_id
       (self (snd (login Traffic.no_transfer 1 "bot" "hunter2" "KEY" (Some "c2hhcmVk") None
                         Script.start))) = Some "5f3e9a".
Proof.
  destruct
    (login_without_transfer_parameters Traffic.no_transfer 0 "bot" "hunter2" "KEY"
       (Some "c2hhcmVk") None Script.start
       (Runs.rsa_key "1000") (50595, 65537)%Z (PStr "1000")
       ltac:(scripted) ltac:(scripted)
       "enc1:hunter2" ltac:(scripted)
       [("success", PBool true); ("requires_twofactor", PBool false);
        ("login_complete", PBool true)] ltac:(scripted)
       (PBool false) (PBool true) ltac:(scripted) ltac:(scripted) ltac:(scripted)
       ltac:(scripted)
       (mkReply 200 (Some "text/html; charset=UTF-8") Runs.home_page) "5f3e9a"
       ltac:(scripted) ltac:(scripted) ltac:(scripted) I) as (H & Hsid & _).
  rewrite H. split; [reflexivity | exact Hsid].
Defined.

(** A login whose profile request is refused. *)
Lemma login_profile_request_fails_witness :
  fst (login Traffic.profile_refused 1 "bot" "hunter2" "KEY" (Some "c2hhcmVk") None
             Script.start) =
    Raise (Forbidden (mkReply 403 (Some "text/html; charset=UTF-8") "<h1>Forbidden</h1>")
                     (PStr "<h1>Forbidden</h1>"))
  /\ _logged_in
       (self (snd (login Traffic.profile_refused 1 "bot" "hunter2" "KEY" (Some "c2hhcmVk")
                         None Script.start))) = true.
Proof.
  assert (Hurls : forall (i : nat) (u : string),
            nth_error ["https://store.steampowered.com/login/transfer";
                       "https://help.steampowered.com/login/transfer"] i = Some u ->
            exists v, answers Traffic.profile_refused (i + (3 + tick Script.start))
                              (POST u Runs.transfer_parameters) v).
  { intros i u Hu. destruct i as [| [| i]].
    - inversion Hu; subst. exists (PStr "ok"). scripted.
    - inversion Hu; subst. exists (PStr "ok"). scripted.
    - destruct i; discriminate. }
  destruct
    (login_profile_request_fails Traffic.profile_refused 0 "bot" "hunter2" "KEY"
       (Some "c2hhcmVk") None Script.start
       (Runs.rsa_key "1000") (50595, 65537)%Z (PStr "1000")
       ltac:(scripted) ltac:(scripted)
       "enc1:hunter2" ltac:(scripted)
       [("success", PBool true); ("requires_twofactor", PBool false);
        ("login_complete", PBool true);
        ("transfer_urls", PList [PStr "https://store.steampowered.com/login/transfer";
                                 PStr "https://help.steampowered.com/login/transfer"]);
        ("transfer_parameters", Runs.transfer_parameters)] ltac:(scripted)
       (PBool false) (PBool true) ltac:(scripted) ltac:(scripted) ltac:(scripted)
       ltac:(scripted)
       (mkReply 200 (Some "text/html; charset=UTF-8") Runs.home_page) "5f3e9a"
       ltac:(scripted) ltac:(scripted) ltac:(scripted)
       Runs.transfer_parameters
       ["https://store.steampowered.com/login/transfer";
        "https://help.steampowered.com/login/transfer"]
       (PStr "76561198000000000") ltac:(scripted) ltac:(scripted) ltac:(scripted)
       Hurls ltac:(scripted)
       (Forbidden (mkReply 403 (Some "text/html; charset=UTF-8") "<h1>Forbidden</h1>")
                  (PStr "<h1>Forbidden</h1>"))
       (snd (login Traffic.profile_refused 1 "bot" "hunter2" "KEY" (Some "c2hhcmVk") None
                   Script.start))
       ltac:(vm_compute; reflexivity)) as (H & Hlogged & _).
  rewrite H. split; [reflexivity | exact Hlogged].
Defined.

(** ** The session id on the home page *)

Section SessionId.

Lemma prefix_append (a b : string) : String.prefix a (a ++ b) = true.
Proof.
  induction a as [| c a IH]; cbn [String.prefix String.append].
  - now destruct b.
  - destruct (ascii_dec c c) as [_ | H]; [exact IH | now destruct H].
Qed.

Lemma prefix_drop (a : string) : forall s,
  String.prefix a s = true -> s = (a ++ drop (String.length a) s)%string.
Proof.
  induction a as [| c a IH]; intros s H; [reflexivity |].
  destruct s as [| x s]; [discriminate |]. cbn [String.prefix] in H.
  destruct (ascii_dec c x) as [-> | _]; [| discriminate].
  cbn [String.length drop String.append]. f_equal. now apply IH.
Qed.

Lemma drop_append (a b : string) : drop (String.length a) (a ++ b) = b.
Proof. induction a as [| c a IH]; [reflexivity | exact IH]. Qed.

Lemma until_close_sound : forall s g,
  until_close s = Some g ->
  s = (g ++ (dquote ++ ";") ++ drop (String.length (g ++ dquote ++ ";")) s)%string
  /\ lacks_char newline g = true.
Proof.
  induction s as [| c s IH]; intros g H.
  - discriminate.
  - cbn [until_close] in H.
    destruct (String.prefix (dquote ++ ";") (String c s)) eqn:Hp.
    + inversion H; subst. split; [| reflexivity].
      exact (prefix_drop (dquote ++ ";") _ Hp).
    + destruct (Ascii.eqb c newline) eqn:Hc; [discriminate |].
      destruct (until_close s) as [g' |] eqn:Hg; [| discriminate].
      inversion H; subst. destruct (IH g' eq_refl) as [Hs Hn]. split.
      * cbn [String.append String.length drop]. f_equal. exact Hs.
      * cbn [lacks_char]. now rewrite Hc, Hn.
Qed.

Lemma until_close_complete (g post : string) :
  lacks_char newline g = true ->
  lacks_char (ascii_of_nat 34) g = true ->
  until_close (g ++ (dquote ++ ";") ++ post) = Some g.
Proof.
  induction g as [| c g IH]; intros Hn Hq.
  - destruct post; reflexivity.
  - cbn [lacks_char] in Hn, Hq.
    apply andb_true_iff in Hn as [Hn1 Hn2]. apply andb_true_iff in Hq as [Hq1 Hq2].
    cbn [String.append until_close].
    replace (String.prefix (dquote ++ ";") (String c (g ++ (dquote ++ ";") ++ post)))
      with false.
    + apply negb_true_iff in Hn1. rewrite Hn1, (IH Hn2 Hq2). reflexivity.
    + symmetry. unfold dquote. cbn [String.append String.prefix].
      destruct (ascii_dec (ascii_of_nat 34) c) as [<- | _]; [| reflexivity].
      discriminate.
Qed.

(** X13.  Whatever [search_sessionID] finds on a page stands there between
    the marker and a quote followed by a semicolon, and holds no newline:
    the session id that [_assert_valid_credentials] stores is such a text. *)
Theorem search_sessionID_sound : forall s g,
  search_sessionID s = Some g ->
  lacks_char newline g = true
  /\ exists pre post,
       s = (pre ++ sessionID_marker ++ g ++ (dquote ++ ";") ++ post)%string.
Proof.
  induction s as [| c s IH]; intros g H.
  - discriminate.
  - cbn [search_sessionID] in H.
    destruct (String.prefix sessionID_marker (String c s)) eqn:Hp.
    + destruct (until_close (drop (String.length sessionID_marker) (String c s)))
        as [g0 |] eqn:Hu.
      * inversion H; subst. destruct (until_close_sound _ _ Hu) as [Hs Hn].
        split; [exact Hn |]. exists EmptyString. eexists.
        cbn [String.append]. rewrite (prefix_drop _ _ Hp) at 1. f_equal. exact Hs.
      * destruct (IH g H) as (Hn & pre & post & ->).
        split; [exact Hn |]. exists (String c pre), post. reflexivity.
    + destruct (IH g H) as (Hn & pre & post & ->).
      split; [exact Hn |]. exists (String c pre), post. reflexivity.
Qed.

(** X14.  A page that holds the marker, a text without quote and newline,
    a quote and a semicolon yields a session id, and yields that text when
    the page starts with the marker: [_assert_valid_credentials] does not
    take such a page for one without session id. *)
Theorem search_sessionID_complete (pre g post : string) :
  lacks_char newline g = true ->
  lacks_char (ascii_of_nat 34) g = true ->
  (exists g', search_sessionID (pre ++ sessionID_marker ++ g ++ (dquote ++ ";") ++ post)
              = Some g')
  /\ search_sessionID (sessionID_marker ++ g ++ (dquote ++ ";") ++ post) = Some g.
Proof.
  intros Hn Hq.
  assert (Hhead :
    search_sessionID (sessionID_marker ++ g ++ (dquote ++ ";") ++ post) = Some g).
  { change (sessionID_marker ++ g ++ (dquote ++ ";") ++ post)%string
      with (String "g" (("_sessionID = " ++ dquote) ++ g ++ (dquote ++ ";") ++ post)).
    cbn [search_sessionID].
    change (String "g" (("_sessionID = " ++ dquote) ++ g ++ (dquote ++ ";") ++ post))
      with (sessionID_marker ++ g ++ (dquote ++ ";") ++ post)%string.
    rewrite prefix_append, drop_append, (until_close_complete g post Hn Hq).
    reflexivity. }
  split; [| exact Hhead].
  induction pre as [| c pre IH].
  - exists g. exact Hhead.
  - cbn [String.append search_sessionID].
    destruct (if String.prefix sessionID_marker
                   (String c (pre ++ sessionID_marker ++ g ++ (dquote ++ ";") ++ post))
              then until_close
                     (drop (String.length sessionID_marker)
                        (String c (pre ++ sessionID_marker ++ g ++ (dquote ++ ";") ++ post)))
              else None) as [g0 |].
    + now exists g0.
    + exact IH.
Qed.

End SessionId.

(** The home page of the scripted logins. *)
Lemma search_sessionID_sound_witness :
  lacks_char newline "5f3e9a" = true
  /\ exists pre post,
       Runs.home_page =
       (pre ++ sessionID_marker ++ "5f3e9a" ++ (dquote ++ ";") ++ post)%string.
Proof.
  apply (search_sessionID_sound Runs.home_page "5f3e9a"). reflexivity.
Defined.

Lemma search_sessionID_complete_witness :
  search_sessionID (sessionID_marker ++ "5f3e9a" ++ (dquote ++ ";") ++ "</script>") =
    Some "5f3e9a".
Proof.
  apply (search_sessionID_complete EmptyString "5f3e9a" "</script>"); reflexivity.
Defined.

(** ** Further properties of the trade poller *)

Section PollerMore.

Variable E : Env.

Lemma only_login_events_refl w : only_login_events w w.
Proof. exists 0. cbn. now rewrite app_nil_r. Qed.

Lemma only_login_events_trans a b c :
  only_login_events a b -> only_login_events b c -> only_login_events a c.
Proof.
  intros [n Hn] [m Hm]. exists (n + m).
  now rewrite Hm, Hn, <- app_assoc, repeat_app.
Qed.

Lemma kept_only_login_events {A : Type} (m : M A) :
  (forall w, dispatched (io (snd (m w))) = dispatched (io w)) ->
  respects only_login_events m.
Proof. intros H w. exists 0. cbn. now rewrite app_nil_r, H. Qed.

Ltac only_login_events_tac :=
  repeat first
    [ apply kept_only_login_events; intro;
      first [ apply (same_dispatched _ _ (request_quiet E _ _))
            | apply (no_event _ _ (send_login_request_no_session_change E _ _))
            | apply (dispatched_kept _ _ (assert_valid_credentials_no_login_effect E _ _))
            | apply (dispatched_kept _ _ (perform_redirects_no_login_effect E _ _))
            | apply (dispatched_kept _ _ (fetch_profile_no_login_effect E _ _))
            | reflexivity ]
    | (intro w; exists 1; reflexivity)
    | frame_step only_login_events_refl only_login_events_trans ].

Lemma login_only_login_events fuel user pass key shared identity :
  respects only_login_events (login E fuel user pass key shared identity).
Proof. unfold login. only_login_events_tac. Qed.

Lemma get_trade_offers_only_login_events fuel : forall active_only sent_ received,
  respects only_login_events (_get_trade_offers E fuel active_only sent_ received).
Proof.
  induction fuel as [| fuel IH]; intros active_only sent_ received;
    cbn [_get_trade_offers].
  - apply (respects_out_of_fuel _ only_login_events_refl).
  - repeat first [ apply IH
                 | apply login_only_login_events
                 | apply kept_only_login_events; intro;
                   first [ apply (same_dispatched _ _ (request_quiet E _ _))
                         | reflexivity ]
                 | frame_step only_login_events_refl only_login_events_trans ].
Qed.

Lemma poll_trades_pass_only_login_events fuel trades_cache :
  respects only_login_events (poll_trades_pass E fuel trades_cache).
Proof.
  unfold poll_trades_pass.
  apply (respects_bind _ only_login_events_trans);
    [apply get_trade_offers_only_login_events | intro trades].
  apply (respects_bind _ only_login_events_trans).
  - destruct (negb (py_eqb trades trades_cache));
      [| apply (respects_ret _ only_login_events_refl)].
    apply (respects_bind _ only_login_events_trans);
      [apply (respects_lift _ only_login_events_refl) | intro olds].
    apply (respects_bind _ only_login_events_trans);
      [apply (respects_lift _ only_login_events_refl) | intro news].
    apply (respects_bind _ only_login_events_trans);
      [| intro; apply (respects_ret _ only_login_events_refl)].
    intro w. rewrite diff_loop_raises. apply only_login_events_refl.
  - intro cache'.
    apply (respects_bind _ only_login_events_trans);
      [| intro; apply (respects_ret _ only_login_events_refl)].
    apply kept_only_login_events. reflexivity.
Qed.

(** X15.  However many passes the poller runs and whatever the server
    answers, the only events it dispatches are the ['login'] events of its
    re-logins: no ['trade_receive'] is ever dispatched. *)
Theorem poll_trades_dispatches_no_trade (passes fuel : nat) (w : world) :
  exists n,
    dispatched (io (snd (_poll_trades E passes fuel w))) =
    dispatched (io w) ++ repeat ev_login n.
Proof.
  revert w. change (respects only_login_events (_poll_trades E passes fuel)).
  unfold _poll_trades.
  apply (respects_bind _ only_login_events_trans);
    [apply get_trade_offers_only_login_events | intro trades_cache].
  apply (respects_bind _ only_login_events_trans);
    [apply kept_only_login_events; reflexivity | intros _].
  revert trades_cache. induction passes as [| passes IH]; intro trades_cache;
    cbn [poll_trades_loop].
  - apply (respects_ret _ only_login_events_refl).
  - apply (respects_bind _ only_login_events_trans);
      [apply poll_trades_pass_only_login_events | exact IH].
Qed.

(** X16.  A pass that fetches a snapshot different from the previous one
    ends the poller with [TypeError], before its sleep, as soon as both
    snapshots are dicts with at least one key; when the previous snapshot is
    the empty dict, the new one replaces it without a word. *)
Theorem poll_trades_pass_on_change (fuel : nat) (w w1 : world)
    (previous current : list (string * pyval)) :
  _get_trade_offers E fuel true false true w = (Ok (PDict current), w1) ->
  py_eqb (PDict current) (PDict previous) = false ->
  poll_trades_pass E fuel (PDict previous) w =
    match previous, current with
    | _ :: _, _ :: _ => (Raise TypeError, w1)
    | _, _ => (Ok (PDict current), with_io (log_slept 5) w1)
    end.
Proof.
  intros Hfetch Hne. unfold poll_trades_pass. unfold bind at 1. rewrite Hfetch.
  unfold bind at 1. rewrite Hne. cbn [negb].
  unfold bind at 1, lift at 1. cbn [py_iter].
  unfold bind at 1, lift at 1. unfold bind at 1. rewrite diff_loop_raises.
  destruct previous as [| p previous], current as [| c current]; reflexivity.
Qed.

Lemma same_identity_refl w : same_identity w w.
Proof. reflexivity. Qed.

Lemma same_identity_trans a b c :
  same_identity a b -> same_identity b c -> same_identity a c.
Proof. unfold same_identity. congruence. Qed.

Lemma same_client_same_identity {A : Type} (m : M A) :
  respects same_client m -> respects same_identity m.
Proof. intros H w. unfold same_identity. now rewrite (H w). Qed.

Ltac same_identity_tac IH :=
  repeat first
    [ apply IH
    | apply same_client_same_identity, quiet_same_client, request_quiet
    | apply same_client_same_identity, quiet_same_client, session_request_quiet
    | apply same_client_same_identity, fetch_rsa_params_from_same_client
    | (intro w; reflexivity)
    | (intro; unfold prompt;
       match goal with |- context [input E ?n] => destruct (input E n) end; reflexivity)
    | frame_step same_identity_refl same_identity_trans ].

Lemma send_login_request_same_identity fuel :
  respects same_identity (_send_login_request E fuel).
Proof.
  induction fuel as [| fuel IH]; cbn [_send_login_request].
  - apply (respects_out_of_fuel _ same_identity_refl).
  - unfold _fetch_rsa_params, _send_login_with, code. same_identity_tac IH.
Qed.

(** [login] stores the identity secret it is given and does not touch it
    again. *)
Lemma login_identity_secret fuel user pass key shared identity w :
  identity_secret (self (snd (login E fuel user pass key shared identity w))) = identity.
Proof.
  unfold login.
  match goal with
  | |- identity_secret (self (snd (bind ?m ?k w))) = _ =>
      pose proof (respects_after_bind same_identity same_identity_refl m k) as H
  end.
  unfold same_identity in H at 2. rewrite H; [reflexivity |].
  intros [].
  unfold _assert_valid_credentials, _perform_redirects, redirect_body, fetch_profile,
    dispatch, create_task.
  same_identity_tac send_login_request_same_identity.
Qed.

Lemma identity_kept_or_dropped_refl w : identity_kept_or_dropped w w.
Proof. left. reflexivity. Qed.

Lemma identity_kept_or_dropped_trans a b c :
  identity_kept_or_dropped a b -> identity_kept_or_dropped b c ->
  identity_kept_or_dropped a c.
Proof.
  unfold identity_kept_or_dropped. intros [H1 | H1] [H2 | H2]; try (right; congruence).
  left. congruence.
Qed.

Lemma get_trade_offers_identity fuel : forall active_only sent_ received,
  respects identity_kept_or_dropped (_get_trade_offers E fuel active_only sent_ received).
Proof.
  induction fuel as [| fuel IH]; intros active_only sent_ received;
    cbn [_get_trade_offers].
  - apply (respects_out_of_fuel _ identity_kept_or_dropped_refl).
  - repeat first
      [ apply IH
      | (intro w; right; apply login_identity_secret)
      | (intro w; left; apply (f_equal identity_secret),
                          (same_self _ _ (request_quiet E _ w)))
      | (intro w; left; reflexivity)
      | frame_step identity_kept_or_dropped_refl identity_kept_or_dropped_trans ].
Qed.

(** X17.  When the offers request raises a [ValueError] (a body that does
    not decode), the re-login is made without the identity secret: however
    the recovery ends, the client has no [identity_secret] afterwards, so
    that it can no longer confirm trades. *)
Theorem get_trade_offers_relogin_drops_identity_secret (fuel : nat)
    (active_only sent_ received : bool) (w w1 : world) (e : exn) :
  request E (GET (Route E "IEconService" "GetTradeOffers" "v1")
                 (Some (PDict [("key", PStr (api_key (self w)));
                               ("active_only", int_of_bool active_only);
                               ("get_sent_offers", int_of_bool sent_);
                               ("get_received_offers", int_of_bool received)]))) w
    = (Raise e, w1) ->
  is_ValueError e = true ->
  identity_secret
    (self (snd (_get_trade_offers E (S fuel) active_only sent_ received w))) = None.
Proof.
  intros Hreq He. cbn [_get_trade_offers]. unfold bind at 1, get, try_else.
  rewrite Hreq, He. unfold bind at 1, get.
  match goal with
  | |- identity_secret (self (snd (bind ?m ?k w1))) = None =>
      pose proof (respects_after_bind identity_kept_or_dropped
                    identity_kept_or_dropped_refl m k) as H;
      pose proof (login_identity_secret fuel (username (self w1)) (password (self w1))
                    (api_key (self w1)) (shared_secret (self w1)) None w1) as Hlogin
  end.
  destruct (H ltac:(intros []; repeat first
                      [ apply get_trade_offers_identity
                      | (intro w0; left; reflexivity)
                      | frame_step identity_kept_or_dropped_refl
                                   identity_kept_or_dropped_trans ]) w1) as [Hk | Hk].
  - rewrite Hk. exact Hlogin.
  - exact Hk.
Qed.

End PollerMore.

(** The offer of the scripted poller changes from state 2 to state 3. *)
Lemma poll_trades_pass_on_change_witness :
  poll_trades_pass Runs.offer_accepted 1 (PDict [("123", PInt 2)])
                   (with_io (log_sent (Runs.trade_offers_request "KEY")) Runs.bot) =
    (Raise TypeError,
     with_io (log_sent (Runs.trade_offers_request "KEY"))
             (with_io (log_sent (Runs.trade_offers_request "KEY")) Runs.bot)).
Proof.
  apply (poll_trades_pass_on_change Runs.offer_accepted 1
           (with_io (log_sent (Runs.trade_offers_request "KEY")) Runs.bot)
           (with_io (log_sent (Runs.trade_offers_request "KEY"))
                    (with_io (log_sent (Runs.trade_offers_request "KEY")) Runs.bot))
           [("123", PInt 2)] [("123", PInt 3)]);
    vm_compute; reflexivity.
Defined.

(** A client with an identity secret loses its session. *)
Lemma get_trade_offers_relogin_drops_identity_secret_witness :
  identity_secret (self Runs.with_identity_secret) = Some "aWRlbnRpdHk="
  /\ identity_secret
       (self (snd (_get_trade_offers Runs.session_lost 2 true false true
                                     Runs.with_identity_secret))) = None.
Proof.
  split; [reflexivity |].
  apply (get_trade_offers_relogin_drops_identity_secret Runs.session_lost 1 true false true
           Runs.with_identity_secret
           (with_io (log_sent (Runs.trade_offers_request "KEY")) Runs.with_identity_secret)
           JSONDecodeError);
    vm_compute; reflexivity.
Defined.

(** ** Further properties of [accept_user_trade] *)

Section AcceptMore.

Variable E : Env.

(** X18.  When the accept call asks for a mobile confirmation, the
    identity secret is set, the confirmation is found and its [confirm()]
    answers with a dict, [accept_user_trade] returns the confirmation: it
    has slept 2 seconds after the accept call, looked the trade up once and
    confirmed once. *)
Theorem accept_user_trade_confirms (user_id64 trade_id : string)
    (w w1 : world) (resp needs answer : pyval) (conf : nat) :
  request E (accept_request E (session_id (self w)) user_id64 trade_id) w = (Ok resp, w1) ->
  dict_get resp "needs_mobile_confirmation" (PBool false) = Ok needs ->
  truthy needs = true ->
  secret_set (identity_secret (self w)) = true ->
  _confirmation_manager (self w) = true ->
  get_trade_confirmation E (List.length (lookups (io w))) trade_id = inr conf ->
  confirm E (confirms (io w)) conf = inr answer ->
  is_dict answer = true ->
  accept_user_trade E user_id64 trade_id w =
    (Ok (accepted_conf conf),
     with_io log_confirm (with_io (log_lookup trade_id) (with_io (log_slept 2) w1)))
  /\ slept (io (with_io log_confirm (with_io (log_lookup trade_id)
                                            (with_io (log_slept 2) w1)))) =
       slept (io w1) ++ [2%Z]
  /\ lookups (io (with_io log_confirm (with_io (log_lookup trade_id)
                                              (with_io (log_slept 2) w1)))) =
       lookups (io w) ++ [trade_id]
  /\ confirms (io (with_io log_confirm (with_io (log_lookup trade_id)
                                               (with_io (log_slept 2) w1)))) =
       S (confirms (io w)).
Proof.
  intros Hreq Hget Hneeds Hsecret Hmanager Hlookup Hconfirm Hdict.
  pose proof (request_quiet E (accept_request E (session_id (self w)) user_id64 trade_id) w)
    as Hq.
  rewrite Hreq in Hq. cbn [snd] in Hq. destruct Hq as [Hself _ _ Hl Hc _ _].
  split.
  - unfold accept_user_trade, bind at 1, get at 1. unfold bind at 1. rewrite Hreq.
    unfold bind at 1, lift at 1. rewrite Hget, Hneeds.
    unfold bind at 1, get at 1. rewrite Hself, Hsecret.
    unfold bind at 1, sleep at 1, modify at 1.
    change (seq 0 3) with (0 :: seq 1 2). rewrite for_in_cons.
    unfold confirm_body, bind at 1, catch at 1, lookup_confirmation.
    cbn [with_io self io log_slept lookups]. rewrite Hself, Hmanager, Hl, Hlookup.
    unfold bind at 1, conf_confirm. cbn [with_io io log_lookup log_slept confirms].
    rewrite Hc, Hconfirm, Hdict. reflexivity.
  - cbn [with_io io log_confirm log_lookup log_slept slept lookups confirms].
    rewrite Hl, Hc. repeat split; reflexivity.
Qed.

Lemma accept_user_trade_bounds (user_id64 trade_id : string) (w w' : world)
    (r : result accepted) :
  accept_user_trade E user_id64 trade_id w = (r, w') ->
  List.length (lookups (io w')) <= S (List.length (lookups (io w)))
  /\ confirms (io w') <= S (confirms (io w)).
Proof.
  unfold accept_user_trade, bind at 1, get at 1. unfold bind at 1.
  pose proof (request_quiet E (accept_request E (session_id (self w)) user_id64 trade_id) w)
    as Hq.
  destruct (request E _ w) as [[resp | e |] w1]; cbn [snd] in Hq;
    destruct Hq as [_ _ _ Hl Hc _ _];
    [| intros [= _ <-]; rewrite Hl, Hc; lia | intros [= _ <-]; rewrite Hl, Hc; lia].
  unfold bind at 1, lift at 1.
  destruct (dict_get resp "needs_mobile_confirmation" (PBool false)) as [needs | e |];
    [| intros [= _ <-]; rewrite Hl, Hc; lia | intros [= _ <-]; rewrite Hl, Hc; lia].
  destruct (truthy needs); [| cbn; intros [= _ <-]; rewrite Hl, Hc; lia].
  unfold bind at 1, get at 1.
  destruct (secret_set (identity_secret (self w1)));
    [| cbn; intros [= _ <-]; rewrite Hl, Hc; lia].
  unfold bind at 1, sleep at 1, modify at 1.
  pose proof (confirm_loop_single_pass E trade_id (seq 0 3) (with_io (log_slept 2) w1))
    as Hloop.
  cbv zeta in Hloop. cbn [with_io io log_slept lookups confirms] in Hloop.
  rewrite Hl, Hc in Hloop. intros Heq.
  rewrite Heq in Hloop. exact Hloop.
Qed.

(** X19.  Whatever the server and the confirmation manager do, one call of
    [accept_user_trade] looks up at most one confirmation and calls
    [confirm()] at most once. *)
Theorem accept_user_trade_confirms_at_most_once (user_id64 trade_id : string) (w : world) :
  List.length (lookups (io (snd (accept_user_trade E user_id64 trade_id w)))) <=
    S (List.length (lookups (io w)))
  /\ confirms (io (snd (accept_user_trade E user_id64 trade_id w))) <= S (confirms (io w)).
Proof.
  destruct (accept_user_trade E user_id64 trade_id w) as [r w'] eqn:Hrun.
  exact (accept_user_trade_bounds _ _ _ _ _ Hrun).
Qed.

End AcceptMore.

(** A trade that is confirmed at the first attempt. *)
Lemma accept_user_trade_confirms_witness :
  fst (accept_user_trade Traffic.confirm_at_once "76561198000000000" "123"
                         Runs.with_identity_secret) = Ok (accepted_conf 7).
Proof.
  refine (f_equal fst (proj1
    (accept_user_trade_confirms Traffic.confirm_at_once "76561198000000000" "123"
       Runs.with_identity_secret
       (with_io (log_sent (accept_request Traffic.confirm_at_once None
                                          "76561198000000000" "123"))
                Runs.with_identity_secret)
       Runs.needs_confirmation (PBool true) (PDict [("success", PBool true)]) 7
       _ _ _ _ _ _ _ _))); reflexivity.
Defined.

(** ** The chunks of [fetch_profiles] *)

Section Chunks.

Context {A : Type}.

Lemma range_from_past fuel start stop step :
  stop <= start -> range_from fuel start stop step = [].
Proof.
  intros H. destruct fuel as [| fuel]; [reflexivity |]. cbn [range_from].
  now destruct (Nat.ltb_spec start stop); [lia |].
Qed.

Lemma range_from_below fuel : forall start stop step,
  Forall (fun i => i < stop) (range_from fuel start stop step).
Proof.
  induction fuel as [| fuel IH]; intros start stop step; cbn [range_from]; [constructor |].
  destruct (Nat.ltb_spec start stop); [| constructor].
  constructor; [assumption | apply IH].
Qed.

Lemma slice_hundred (l : list A) (i : nat) :
  slice l i (i + 100) = firstn 100 (skipn i l).
Proof. unfold slice. now replace (i + 100 - i) with 100 by lia. Qed.

Lemma concat_chunks_from (l : list A) fuel : forall start,
  List.length l - start <= fuel ->
  List.concat (map (fun i => slice l i (i + 100))
              (range_from fuel start (List.length l) 100)) = skipn start l.
Proof.
  induction fuel as [| fuel IH]; intros start Hfuel.
  - cbn. symmetry. apply skipn_all2. lia.
  - cbn [range_from]. destruct (Nat.ltb_spec start (List.length l)) as [Hlt | Hge].
    + cbn [map List.concat]. rewrite slice_hundred.
      destruct (Nat.le_gt_cases (List.length l) (start + 100)) as [Hlast | Hmore].
      * rewrite (range_from_past fuel (start + 100)) by assumption.
        cbn [map List.concat]. rewrite app_nil_r. apply firstn_all2.
        rewrite length_skipn. lia.
      * rewrite IH by lia.
        replace (start + 100) with (100 + start) by lia.
        rewrite <- skipn_skipn. apply firstn_skipn.
    + cbn. symmetry. apply skipn_all2. lia.
Qed.

Lemma length_range_from fuel : forall start stop,
  stop - start <= fuel ->
  List.length (range_from fuel start stop 100) = (stop - start + 99) / 100.
Proof.
  induction fuel as [| fuel IH]; intros start stop Hfuel.
  - cbn. replace (stop - start + 99) with 99 by lia. reflexivity.
  - cbn [range_from]. destruct (Nat.ltb_spec start stop) as [Hlt | Hge].
    + cbn [List.length]. rewrite IH by lia.
      destruct (Nat.le_gt_cases stop (start + 100)) as [Hlast | Hmore].
      * replace (stop - (start + 100) + 99) with 99 by lia.
        change (99 / 100) with 0.
        apply (Nat.div_unique _ 100 1 (stop - start - 1)); lia.
      * replace (stop - start + 99) with ((stop - (start + 100) + 99) + 1 * 100) by lia.
        rewrite Nat.div_add by lia. lia.
    + cbn [List.length]. replace (stop - start + 99) with 99 by lia. reflexivity.
Qed.

Lemma concat_chunk (l : list A) : List.concat (chunk l) = l.
Proof. unfold chunk, range3. now rewrite concat_chunks_from by lia. Qed.

Lemma chunk_sizes (l : list A) :
  Forall (fun sublist => 1 <= List.length sublist <= 100) (chunk l).
Proof.
  unfold chunk, range3. apply Forall_map.
  eapply Forall_impl; [| apply range_from_below].
  intros i Hi. cbv beta in *. rewrite slice_hundred, length_firstn, length_skipn. lia.
Qed.

Lemma length_chunk (l : list A) :
  List.length (chunk l) = (List.length l + 99) / 100.
Proof.
  unfold chunk, range3. rewrite length_map, length_range_from by lia.
  now rewrite Nat.sub_0_r.
Qed.

End Chunks.

(** X20.  The chunks of [fetch_profiles] partition the list of ids in
    order: put end to end they give the list back, each holds between 1 and
    100 ids, and there are [ceil(n / 100)] of them. *)
Theorem chunk_partition {A : Type} (user_id64s : list A) :
  List.concat (chunk user_id64s) = user_id64s
  /\ Forall (fun sublist => 1 <= List.length sublist <= 100) (chunk user_id64s)
  /\ List.length (chunk user_id64s) = (List.length user_id64s + 99) / 100.
Proof.
  split; [apply concat_chunk | split; [apply chunk_sizes | apply length_chunk]].
Qed.

Section ChunkShape.

Context {A : Type}.

Lemma range_from_step fuel start stop step :
  start < stop ->
  range_from (S fuel) start stop step = start :: range_from fuel (start + step) stop step.
Proof.
  intros H. cbn [range_from]. now destruct (Nat.ltb_spec start stop); [| lia].
Qed.

Lemma range_from_fuel fuel : forall fuel' start stop,
  stop - start <= fuel -> stop - start <= fuel' ->
  range_from fuel start stop 100 = range_from fuel' start stop 100.
Proof.
  induction fuel as [| fuel IH]; intros fuel' start stop H H'.
  - rewrite !range_from_past by lia. reflexivity.
  - destruct fuel' as [| fuel']; [rewrite !range_from_past by lia; reflexivity |].
    cbn [range_from]. destruct (Nat.ltb_spec start stop); [| reflexivity].
    f_equal. apply IH; lia.
Qed.

Lemma range_from_shift fuel : forall start stop,
  range_from fuel (start + 100) (stop + 100) 100 =
  map (fun i => i + 100) (range_from fuel start stop 100).
Proof.
  induction fuel as [| fuel IH]; intros start stop; [reflexivity |].
  cbn [range_from].
  destruct (Nat.ltb_spec start stop), (Nat.ltb_spec (start + 100) (stop + 100));
    try lia; [| reflexivity].
  cbn [map]. f_equal. apply IH.
Qed.

(** A full first hundred is the first chunk, and the rest is chunked by
    itself. *)
Lemma chunk_app (first rest : list A) :
  List.length first = 100 -> chunk (first ++ rest) = first :: chunk rest.
Proof.
  intros Hlen. unfold chunk, range3. rewrite length_app, Hlen.
  change (100 + List.length rest) with (S (99 + List.length rest)).
  rewrite range_from_step by lia. cbn [map]. f_equal.
  - rewrite slice_hundred. cbn [skipn]. rewrite firstn_app, Hlen, Nat.sub_diag.
    rewrite firstn_O, app_nil_r. apply firstn_all2. lia.
  - rewrite (range_from_fuel _ (List.length rest)) by lia.
    replace (S (99 + List.length rest)) with (List.length rest + 100) by lia.
    rewrite (range_from_shift _ 0), map_map.
    apply map_ext. intro i. rewrite !slice_hundred. f_equal.
    rewrite skipn_app, Hlen, skipn_all2 by lia.
    now replace (i + 100 - 100) with i by lia.
Qed.

(** Up to a hundred ids make one chunk. *)
Lemma chunk_small (l : list A) :
  1 <= List.length l <= 100 -> chunk l = [l].
Proof.
  intros [Hpos Hmax]. unfold chunk, range3.
  destruct (List.length l) as [| n] eqn:Hlen; [lia |].
  rewrite range_from_step, range_from_past by lia. cbn [map].
  rewrite slice_hundred. cbn [skipn]. f_equal. apply firstn_all2. lia.
Qed.

Lemma chunk_head (l : list A) :
  l <> [] -> exists more, chunk l = firstn 100 l :: more.
Proof.
  intros Hl. unfold chunk, range3.
  destruct (List.length l) as [| n] eqn:Hlen; [now destruct l |].
  rewrite range_from_step by lia. cbn [map]. rewrite slice_hundred. cbn [skipn].
  eexists. reflexivity.
Qed.

Lemma chunk_nonempty (l : list A) : Forall (fun sublist => sublist <> []) (chunk l).
Proof.
  eapply Forall_impl; [| apply (chunk_sizes l)].
  intros [| x sublist]; cbn; [lia | discriminate].
Qed.

End ChunkShape.

Lemma str_join_raises (sep : string) : forall items,
  forallb is_str items = false -> str_join sep items = Raise TypeError.
Proof.
  induction items as [| x items IH]; [discriminate |].
  destruct x; try reflexivity. cbn [forallb is_str andb]. intros H.
  cbn [str_join]. destruct items as [| y items]; [discriminate |].
  now rewrite (IH H).
Qed.

Section ProfilesMore.

Variable E : Env.

(** The loop [for _ in sublist] leaves in [params] the parameters of the
    whole sublist, whatever [params] held before. *)
Lemma params_loop {S A : Type} (sublist : list pyval) (steamids : string)
    (k : option pyval -> M (flow S A)) :
  str_join "," sublist = Ok steamids ->
  forall xs st w,
    for_in xs st (params_body sublist) k w =
    k (match xs with
       | [] => st
       | _ :: _ => Some (summaries_params (api_key (self w)) steamids)
       end) w.
Proof.
  intros Hjoin. induction xs as [| x xs IH]; intros st w; [reflexivity |].
  rewrite for_in_unfold. unfold bind at 1, params_body at 1.
  unfold bind at 1, get at 1. unfold bind at 1, lift at 1. rewrite Hjoin.
  unfold ret at 1. rewrite IH. now destruct xs.
Qed.

Lemma params_loop_fails {S A : Type} (sublist : list pyval)
    (k : option pyval -> M (flow S A)) x xs st w :
  (forall steamids, str_join "," sublist <> Ok steamids) ->
  for_in (x :: xs) st (params_body sublist) k w =
  (match str_join "," sublist with
   | Ok _ => OutOfFuel
   | Raise e => Raise e
   | OutOfFuel => OutOfFuel
   end, w).
Proof.
  intros Hjoin. rewrite for_in_unfold. unfold bind at 1, params_body at 1.
  unfold bind at 1, get at 1. unfold bind at 1, lift at 1.
  destruct (str_join "," sublist) as [s | e |]; [now destruct (Hjoin s) | |]; reflexivity.
Qed.

(** What one pass of the outer loop does is independent of the profiles
    collected so far and of the parameters of the pass before. *)
Lemma profiles_body_shape (sublist : list pyval) (w : world) :
  sublist <> [] ->
  exists (r : result (list pyval * pyval)) (w' : world),
    forall to_ret params,
      profiles_body E sublist (to_ret, params) w =
      (match r with
       | Ok (users, p) => Ok (Next (to_ret ++ users, Some p))
       | Raise e => Raise e
       | OutOfFuel => OutOfFuel
       end, w').
Proof.
  intros Hne. destruct sublist as [| x xs]; [contradiction |].
  unfold profiles_body.
  destruct (str_join "," (x :: xs)) as [steamids | e |] eqn:Hjoin.
  - pose (p := summaries_params (api_key (self w)) steamids).
    destruct (request E (summaries_request E p) w) as [[full_resp | e |] w1] eqn:Hreq;
      [| exists (Raise e), w1 | exists OutOfFuel, w1].
    + destruct (getitem full_resp (PStr "response")) as [response | e |] eqn:H1;
        [| exists (Raise e), w1 | exists OutOfFuel, w1].
      * destruct (getitem response (PStr "players")) as [players | e |] eqn:H2;
          [| exists (Raise e), w1 | exists OutOfFuel, w1].
        -- destruct (py_iter players) as [users | e |] eqn:H3;
             [exists (Ok (users, p)), w1 | exists (Raise e), w1 | exists OutOfFuel, w1];
             intros to_ret params; rewrite (params_loop _ _ _ Hjoin);
             cbn [snd fst]; fold p; unfold bind at 1; rewrite Hreq;
             unfold bind at 1, lift at 1; rewrite H1;
             unfold bind at 1, lift at 1; rewrite H2;
             unfold bind at 1, lift at 1; rewrite H3; reflexivity.
        -- intros to_ret params; rewrite (params_loop _ _ _ Hjoin);
             cbn [snd fst]; fold p; unfold bind at 1; rewrite Hreq;
             unfold bind at 1, lift at 1; rewrite H1;
             unfold bind at 1, lift at 1; rewrite H2; reflexivity.
        -- intros to_ret params; rewrite (params_loop _ _ _ Hjoin);
             cbn [snd fst]; fold p; unfold bind at 1; rewrite Hreq;
             unfold bind at 1, lift at 1; rewrite H1;
             unfold bind at 1, lift at 1; rewrite H2; reflexivity.
      * intros to_ret params; rewrite (params_loop _ _ _ Hjoin);
          cbn [snd fst]; fold p; unfold bind at 1; rewrite Hreq;
          unfold bind at 1, lift at 1; rewrite H1; reflexivity.
      * intros to_ret params; rewrite (params_loop _ _ _ Hjoin);
          cbn [snd fst]; fold p; unfold bind at 1; rewrite Hreq;
          unfold bind at 1, lift at 1; rewrite H1; reflexivity.
    + intros to_ret params; rewrite (params_loop _ _ _ Hjoin);
        cbn [snd fst]; fold p; unfold bind at 1; rewrite Hreq; reflexivity.
    + intros to_ret params; rewrite (params_loop _ _ _ Hjoin);
        cbn [snd fst]; fold p; unfold bind at 1; rewrite Hreq; reflexivity.
  - exists (Raise e), w. intros to_ret params.
    rewrite params_loop_fails by (intros s; rewrite Hjoin; discriminate).
    now rewrite Hjoin.
  - exists OutOfFuel, w. intros to_ret params.
    rewrite params_loop_fails by (intros s; rewrite Hjoin; discriminate).
    now rewrite Hjoin.
Qed.

(** The profiles collected before a pass only come in front of the ones
    collected from it on. *)
Lemma profiles_loop_acc (chunks : list (list pyval)) :
  Forall (fun sublist => sublist <> []) chunks ->
  forall to_ret params w,
    for_in chunks (to_ret, params) (profiles_body E) (fun state => ret (fst state)) w =
    (found <- for_in chunks ([], None) (profiles_body E) (fun state => ret (fst state)) ;;
     ret (to_ret ++ found)) w.
Proof.
  induction 1 as [| sublist chunks Hne _ IH]; intros to_ret params w.
  - cbn. now rewrite app_nil_r.
  - unfold bind at 1. rewrite !for_in_unfold.
    destruct (profiles_body_shape sublist w Hne) as (r & w' & Hbody).
    unfold bind at 1 2. rewrite !Hbody.
    destruct r as [[users p] | e |]; [| reflexivity | reflexivity].
    rewrite (IH (to_ret ++ users)), (IH ([] ++ users)). unfold bind.
    destruct (for_in chunks _ _ _ w') as [[found | e |] w'']; try reflexivity.
    unfold ret. now rewrite app_assoc.
Qed.

(** X21.  Up to a hundred ids take one call of [request], whose parameters
    hold the key and the ids joined with commas; the players of the answer
    are returned. *)
Theorem fetch_profiles_one_request (user_id64s : list pyval) (w w1 : world)
    (steamids : string) (full_resp response players : pyval) (users : list pyval) :
  1 <= List.length user_id64s <= 100 ->
  str_join "," user_id64s = Ok steamids ->
  request E (summaries_request E (summaries_params (api_key (self w)) steamids)) w =
    (Ok full_resp, w1) ->
  getitem full_resp (PStr "response") = Ok response ->
  getitem response (PStr "players") = Ok players ->
  py_iter players = Ok users ->
  fetch_profiles E user_id64s w = (Ok users, w1).
Proof.
  intros Hlen Hjoin Hreq H1 H2 H3.
  unfold fetch_profiles. rewrite (chunk_small _ Hlen), for_in_unfold.
  unfold bind at 1, profiles_body at 1. rewrite (params_loop _ _ _ Hjoin).
  destruct user_id64s as [| x xs]; [cbn in Hlen; lia |].
  unfold bind at 1. rewrite Hreq.
  unfold bind at 1, lift at 1. rewrite H1.
  unfold bind at 1, lift at 1. rewrite H2.
  unfold bind at 1, lift at 1. rewrite H3. reflexivity.
Qed.

(** X22.  An id that is no string among the first hundred makes
    [fetch_profiles] raise [TypeError] before anything is sent. *)
Theorem fetch_profiles_non_string_id (user_id64s : list pyval) (w : world) :
  forallb is_str (firstn 100 user_id64s) = false ->
  fetch_profiles E user_id64s w = (Raise TypeError, w).
Proof.
  intros Hstr.
  assert (Hne : user_id64s <> []) by (intros ->; discriminate).
  destruct (chunk_head _ Hne) as [more Hchunk].
  unfold fetch_profiles. rewrite Hchunk, for_in_unfold.
  unfold bind at 1, profiles_body at 1.
  destruct (firstn 100 user_id64s) as [| x xs] eqn:Hfirst; [discriminate |].
  rewrite params_loop_fails
    by (intros s; rewrite (str_join_raises _ _ Hstr); discriminate).
  now rewrite (str_join_raises _ _ Hstr).
Qed.

(** X23.  Fetching a full hundred ids followed by more is fetching the
    hundred and then the rest: the requests of the two parts follow one
    another and the profiles are put end to end. *)
Theorem fetch_profiles_split (first rest : list pyval) (w : world) :
  List.length first = 100 ->
  fetch_profiles E (first ++ rest) w =
  (found <- fetch_profiles E first ;;
   more <- fetch_profiles E rest ;;
   ret (found ++ more)) w.
Proof.
  intros Hlen. unfold fetch_profiles.
  rewrite (chunk_app _ _ Hlen), (chunk_small first) by lia.
  assert (Hne : first <> []) by (intros ->; discriminate).
  destruct (profiles_body_shape first w Hne) as (r & w' & Hbody).
  unfold bind at 1. rewrite !for_in_unfold. unfold bind at 1 2. rewrite !Hbody.
  destruct r as [[users p] | e |]; [| reflexivity | reflexivity].
  rewrite (profiles_loop_acc _ (chunk_nonempty rest)). reflexivity.
Qed.

Lemma profiles_body_quiet sublist state : quiet (profiles_body E sublist state).
Proof.
  unfold quiet, profiles_body, params_body.
  repeat first [ apply request_quiet
               | frame_step traffic_only_refl traffic_only_trans ].
Qed.

Lemma profiles_body_tick_bound sublist state w :
  tick (snd (profiles_body E sublist state w)) <= tick w + 5.
Proof.
  destruct sublist as [| x xs].
  - unfold profiles_body. cbn [for_in]. destruct (snd state) as [p |]; [| cbn; lia].
    unfold bind at 1.
    pose proof (request_tick_bound E (summaries_request E p) w) as Hr.
    destruct (request E _ w) as [[full_resp | e |] w1]; cbn [snd] in *; [| lia | lia].
    unfold bind, lift.
    destruct (getitem full_resp _) as [response | e |]; cbn [snd]; try lia.
    destruct (getitem response _) as [players | e |]; cbn [snd]; try lia.
    destruct (py_iter players); unfold ret; cbn [snd]; lia.
  - destruct (profiles_body_shape (x :: xs) w ltac:(discriminate)) as (r & w' & Hbody).
    destruct state as [to_ret params]. rewrite Hbody. cbn [snd].
    specialize (Hbody [] None). revert Hbody. unfold profiles_body.
    destruct (str_join "," (x :: xs)) as [steamids | e |] eqn:Hjoin.
    + rewrite (params_loop _ _ _ Hjoin). unfold bind at 1.
      pose proof (request_tick_bound E
        (summaries_request E (summaries_params (api_key (self w)) steamids)) w) as Hr.
      destruct (request E _ w) as [[full_resp | e |] w1]; cbn [snd] in *;
        [| intros [= _ <-]; lia | intros [= _ <-]; lia].
      unfold bind, lift.
      destruct (getitem full_resp _) as [response | e |]; [| intros [= _ <-]; lia ..].
      destruct (getitem response _) as [players | e |]; [| intros [= _ <-]; lia ..].
      destruct (py_iter players); intros [= _ <-]; lia.
    + rewrite params_loop_fails by (intros s; rewrite Hjoin; discriminate).
      intros [= _ <-]. lia.
    + rewrite params_loop_fails by (intros s; rewrite Hjoin; discriminate).
      intros [= _ <-]. lia.
Qed.

Lemma profiles_loop_tick_bound chunks : forall state w,
  tick (snd (for_in chunks state (profiles_body E) (fun state => ret (fst state)) w))
    <= tick w + 5 * List.length chunks.
Proof.
  induction chunks as [| sublist chunks IH]; intros state w; [cbn; lia |].
  rewrite for_in_unfold. unfold bind at 1.
  pose proof (profiles_body_tick_bound sublist state w) as Hb.
  destruct (profiles_body E sublist state w) as [[[state' | a] | e |] w1];
    cbn [snd List.length] in *; [| unfold ret; cbn [snd]; lia | lia | lia].
  specialize (IH state' w1). lia.
Qed.

(** X24.  Whatever the server answers, [fetch_profiles] only sends requests
    and sleeps, and it sends at most five requests for every hundred ids
    begun. *)
Theorem fetch_profiles_sends_five_per_hundred (user_id64s : list pyval) (w : world) :
  traffic_only w (snd (fetch_profiles E user_id64s w))
  /\ tick (snd (fetch_profiles E user_id64s w))
       <= tick w + 5 * ((List.length user_id64s + 99) / 100).
Proof.
  split.
  - unfold fetch_profiles.
    apply (respects_for_in _ traffic_only_refl traffic_only_trans).
    + intros sublist state. apply profiles_body_quiet.
    + intro state. apply (respects_ret _ traffic_only_refl).
  - unfold fetch_profiles.
    rewrite <- length_chunk.
    apply profiles_loop_tick_bound.
Qed.

End ProfilesMore.

(** ** logout *)

Section LogoutMore.

Variable E : Env.

(** X25.  [logout] sends one request through the bare session, without
    retry and without a look at the answer.  If the transport raises, the
    error comes out, the session stays open and the client logged in.
    Otherwise, whatever the status of the answer, the session is closed,
    the client is logged out and one ['logout'] event is dispatched; the
    session id and the tasks stay as they were. *)
Theorem logout_outcome (w : world) :
  match server E (tick w) (logout_request E) with
  | inl e => logout E w = (Raise e, with_io (log_sent (logout_request E)) w)
  | inr _ =>
      exists w',
        logout E w = (Ok tt, w')
        /\ sent (io w') = sent (io w) ++ [logout_request E]
        /\ slept (io w') = slept (io w)
        /\ closed (io w') = true
        /\ _logged_in (self w') = false
        /\ dispatched (io w') = dispatched (io w) ++ [ev_logout]
        /\ session_id (self w') = session_id (self w)
        /\ tasks (io w') = tasks (io w)
  end.
Proof.
  unfold logout, logout_request, bind, session_request.
  destruct (server E (tick w) _) as [e | r]; [reflexivity |].
  eexists. split; [reflexivity |]. cbn. repeat split; reflexivity.
Qed.

End LogoutMore.

(** ** The calls that make one request *)

Section OneCall.

Variable E : Env.

Lemma request_one_call rq : respects one_call (request E rq).
Proof. intro w. split; [apply request_quiet | apply request_tick_bound]. Qed.

Lemma get_then_one_call {A : Type} (k : world -> M A) :
  (forall w0, respects one_call (k w0)) -> respects one_call (w <- get ;; k w).
Proof. intros H w. unfold bind, get. apply H. Qed.

Lemma fetch_trade_one_call trade_id : respects one_call (fetch_trade E trade_id).
Proof.
  apply get_then_one_call. intros w0 w. unfold bind.
  pose proof (request_one_call
    (GET (Route E "IEconService" "GetTradeOffer" "v1")
         (Some (PDict [("key", PStr (api_key (self w0))); ("tradeofferid", trade_id)]))) w)
    as Hcall.
  destruct (request E _ w) as [[response | e |] w1]; cbn [snd] in *; try exact Hcall.
  unfold lift. now destruct (getitem response (PStr "response")).
Qed.

(** X26.  Each of the calls that post one form, [fetch_user_inventory] and
    [fetch_trade] makes one call of [request] and nothing else: between one
    and five requests are sent, and the client object, the events, the
    tasks and the session are as before. *)
Theorem one_request_calls (user_id64 trade_id : string) (user comment trade : pyval) :
  respects one_call (add_user E user)
  /\ respects one_call (remove_user E user)
  /\ respects one_call (block_user E user)
  /\ respects one_call (unblock_user E user)
  /\ respects one_call (accept_user_invite E user)
  /\ respects one_call (decline_user_invite E user)
  /\ respects one_call (post_comment E user_id64 comment)
  /\ respects one_call (decline_user_trade E trade_id)
  /\ respects one_call (cancel_user_trade E trade_id)
  /\ (forall app_id context_id,
        respects one_call (fetch_user_inventory E user_id64 app_id context_id))
  /\ respects one_call (fetch_trade E trade).
Proof.
  repeat match goal with |- _ /\ _ => split end;
    try (apply get_then_one_call; intro w0; apply request_one_call).
  - intros app_id context_id. apply request_one_call.
  - apply fetch_trade_one_call.
Qed.

End OneCall.

(** ** fetch_friends and fetch_user_items *)

Lemma py_eqb_refl_hashable k : hashable k = true -> py_eqb k k = true.
Proof.
  destruct k as [| b | z | s | l | d]; cbn; try discriminate; intros _.
  - reflexivity.
  - apply Bool.eqb_reflx.
  - apply Z.eqb_refl.
  - apply String.eqb_refl.
Qed.

Lemma format_key_hashable k s : format_key k = Some s -> hashable k = true.
Proof. now destruct k. Qed.

(** Keys that can all be hashed are all taken in; the keys seen before
    stay in front, in their order. *)
Lemma fromkeys_from_ok : forall keys seen,
  forallb hashable keys = true ->
  exists more, fromkeys_from seen keys = Ok (rev seen ++ more).
Proof.
  induction keys as [| k keys IH]; intros seen Hkeys.
  - exists []. cbn. now rewrite app_nil_r.
  - cbn [forallb] in Hkeys. apply andb_prop in Hkeys as [Hk Hkeys].
    cbn [fromkeys_from]. rewrite Hk.
    destruct (existsb (py_eqb k) seen); [now apply IH |].
    destruct (IH (k :: seen) Hkeys) as [more Hmore].
    exists (k :: more). rewrite Hmore. cbn [rev]. now rewrite <- app_assoc.
Qed.

(** A key that was seen is not taken a second time. *)
Lemma fromkeys_from_repeated c : forall n seen,
  hashable c = true -> existsb (py_eqb c) seen = true ->
  fromkeys_from seen (repeat c n) = Ok (rev seen).
Proof.
  induction n as [| n IH]; intros seen Hc Hseen; [reflexivity |].
  cbn [repeat fromkeys_from]. rewrite Hc, Hseen. now apply IH.
Qed.

Lemma comprehension_constant {A B : Type} (f : A -> result B) (c : B) : forall xs,
  Forall (fun x => f x = Ok c) xs ->
  comprehension f xs = Ok (repeat c (List.length xs)).
Proof.
  induction 1 as [| x xs Hx _ IH]; [reflexivity |].
  cbn [comprehension]. now rewrite Hx, IH.
Qed.

Section FriendsAndItems.

Variable E : Env.
Variable fetch_user : string -> exn + pyval.
Variable Inventory_items : pyval -> pyval -> exn + list pyval.

(** X27.  For a user without friends [fetch_friends] makes the one call of
    [request] for the friend list and returns the empty list: no summary
    is asked for. *)
Theorem fetch_friends_no_friends (user_id64 : pyval) (w w1 : world)
    (friends friendslist entries : pyval) :
  request E (friends_request E (api_key (self w)) user_id64) w = (Ok friends, w1) ->
  getitem friends (PStr "friendslist") = Ok friendslist ->
  getitem friendslist (PStr "friends") = Ok entries ->
  py_iter entries = Ok [] ->
  fetch_friends E user_id64 w = (Ok [], w1).
Proof.
  intros Hreq H1 H2 H3. unfold fetch_friends, bind at 1, get at 1.
  unfold bind at 1. rewrite Hreq.
  unfold bind at 1, lift at 1. rewrite H1.
  unfold bind at 1, lift at 1. rewrite H2.
  unfold bind at 1, lift at 1. rewrite H3. reflexivity.
Qed.

(** X28.  When all the assets carry the same context id, [fetch_user_items]
    fetches one inventory, that of the app of the first asset, however
    many apps the assets belong to: the app ids are paired with the one
    context id that is left. *)
Theorem fetch_user_items_one_context (user_id64 : string) (asset : pyval)
    (assets : list pyval) (app c : pyval) (apps : list pyval)
    (app_id context_id : string) (inv owner : pyval) (found : list pyval)
    (w w1 : world) :
  comprehension (fun item => getitem item (PStr "appid")) (asset :: assets) =
    Ok (app :: apps) ->
  forallb hashable apps = true ->
  Forall (fun item => getitem item (PStr "contextid") = Ok c) (asset :: assets) ->
  format_key app = Some app_id ->
  format_key c = Some context_id ->
  fetch_user_inventory E user_id64 app_id context_id w = (Ok inv, w1) ->
  fetch_user user_id64 = inr owner ->
  Inventory_items inv owner = inr found ->
  inventory_keys (asset :: assets) = Ok [(app, c)]
  /\ fetch_user_items E fetch_user Inventory_items user_id64 (asset :: assets) w =
       (Ok found, w1).
Proof.
  intros Happs Hhash Hctx Happ Hc Hinv Howner Hitems.
  pose proof (format_key_hashable _ _ Happ) as Happ'.
  pose proof (format_key_hashable _ _ Hc) as Hc'.
  assert (Hkeys : inventory_keys (asset :: assets) = Ok [(app, c)]).
  { unfold inventory_keys. rewrite Happs. cbn [result_bind].
    unfold fromkeys at 1. cbn [fromkeys_from]. rewrite Happ'. cbn [existsb].
    destruct (fromkeys_from_ok apps [app] Hhash) as [more ->]. cbn [result_bind].
    rewrite (comprehension_constant _ c _ Hctx). cbn [result_bind].
    unfold fromkeys. cbn [List.length repeat fromkeys_from]. rewrite Hc'. cbn [existsb].
    rewrite fromkeys_from_repeated;
      [| assumption | cbn [existsb]; now rewrite py_eqb_refl_hashable].
    cbn [result_bind rev List.app combine]. now destruct more. }
  split; [exact Hkeys |].
  unfold fetch_user_items, bind at 1, lift at 1. rewrite Hkeys.
  rewrite for_in_unfold. unfold bind at 1, items_body at 1. cbn [fst snd].
  rewrite Happ, Hc. unfold bind at 1. rewrite Hinv.
  unfold bind at 1. rewrite Howner. cbn [of_sum]. unfold ret at 1.
  unfold bind at 1. rewrite Hitems. reflexivity.
Qed.

End FriendsAndItems.

(** One id, one summary. *)
Lemma fetch_profiles_one_request_witness :
  fetch_profiles Traffic.profiles_served [PStr "76561198000000000"] Runs.bot =
    (Ok [Runs.profile],
     with_io (log_sent (summaries_request Traffic.profiles_served
                          (summaries_params "KEY" "76561198000000000")))
             Runs.bot).
Proof.
  refine (fetch_profiles_one_request Traffic.profiles_served
            [PStr "76561198000000000"] Runs.bot _ "76561198000000000"
            Runs.summaries (PDict [("players", PList [Runs.profile])])
            (PList [Runs.profile]) [Runs.profile] _ _ _ _ _ _);
    try reflexivity.
  cbn. lia.
Defined.

(** An id given as a number. *)
Lemma fetch_profiles_non_string_id_witness :
  fetch_profiles Traffic.profiles_served [PInt 76561198000000000] Runs.bot =
    (Raise TypeError, Runs.bot).
Proof.
  apply (fetch_profiles_non_string_id Traffic.profiles_served
           [PInt 76561198000000000] Runs.bot).
  reflexivity.
Defined.

(** A hundred and one ids. *)
Lemma fetch_profiles_split_witness :
  fetch_profiles Traffic.profiles_served
    (repeat (PStr "76561198000000000") 100 ++ [PStr "76561198000000001"]) Runs.bot =
  (found <- fetch_profiles Traffic.profiles_served (repeat (PStr "76561198000000000") 100) ;;
   more <- fetch_profiles Traffic.profiles_served [PStr "76561198000000001"] ;;
   ret (found ++ more)) Runs.bot.
Proof.
  apply (fetch_profiles_split Traffic.profiles_served
           (repeat (PStr "76561198000000000") 100) [PStr "76561198000000001"]
           Runs.bot).
  reflexivity.
Defined.

(** A user without friends. *)
Lemma fetch_friends_no_friends_witness :
  fetch_friends Traffic.no_friends (PStr "76561198000000000") Runs.bot =
    (Ok [],
     with_io (log_sent (friends_request Traffic.no_friends "KEY"
                          (PStr "76561198000000000")))
             Runs.bot).
Proof.
  refine (fetch_friends_no_friends Traffic.no_friends (PStr "76561198000000000")
            Runs.bot _ Traffic.empty_friend_list
            (PDict [("friends", PList [])]) (PList []) _ _ _ _);
    reflexivity.
Defined.

(** Assets of two apps: the inventory of the second app is not fetched. *)
Lemma fetch_user_items_one_context_witness :
  fetch_user_items Traffic.inventory_served Traffic.user_of Traffic.assets_of
    "76561198000000000" Traffic.two_apps Script.start =
    (Ok [PDict [("assetid", PStr "1")]],
     with_io (log_sent (inventory_request Traffic.inventory_served
                          "76561198000000000" "440" "2"))
             Script.start).
Proof.
  refine (proj2
    (fetch_user_items_one_context Traffic.inventory_served Traffic.user_of
       Traffic.assets_of "76561198000000000" _ _ (PInt 440) (PStr "2") [PInt 730]
       "440" "2" Traffic.inventory (PStr "76561198000000000")
       [PDict [("assetid", PStr "1")]] Script.start _ _ _ _ _ _ _ _ _));
    try reflexivity.
  repeat constructor.
Defined.

(** ** fetch_profile *)

Section ProfileMore.

Variable E : Env.

(** X29.  When the summaries hold no player (an id nobody has),
    [fetch_profile] raises [IndexError] after its one call of [request]: it
    does not return [None]. *)
Theorem fetch_profile_no_player (user_id64 : pyval) (w w1 : world)
    (full_resp response : pyval) :
  request E (GET (Route E "ISteamUser" "GetPlayerSummaries" "v2")
                 (Some (PDict [("key", PStr (api_key (self w)));
                               ("steamids", user_id64)]))) w = (Ok full_resp, w1) ->
  getitem full_resp (PStr "response") = Ok response ->
  getitem response (PStr "players") = Ok (PList []) ->
  fetch_profile E user_id64 w = (Raise IndexError, w1).
Proof.
  intros Hreq H1 H2. unfold fetch_profile, bind at 1, get at 1.
  unfold bind at 1. rewrite Hreq.
  unfold bind at 1, lift at 1. rewrite H1.
  unfold bind at 1, lift at 1. rewrite H2. reflexivity.
Qed.

End ProfileMore.

(** An id nobody has. *)
Lemma fetch_profile_no_player_witness :
  fst (fetch_profile Traffic.nobody (PStr "76561198000000000") Runs.bot) =
    Raise IndexError.
Proof.
  refine (f_equal fst
    (fetch_profile_no_player Traffic.nobody (PStr "76561198000000000") Runs.bot _
       Traffic.no_players (PDict [("players", PList [])]) _ _ _)); reflexivity.
Defined.
